(** * verify-phone: the SMS dispatch core, embedded and verified

    Shallow embedding of [src/verify-phone.ts] (the orchestrator
    [verifyPhone], the phone normaliser and validator, both VoIP
    classifiers, and the [SNSClient] class with its Signature-V4 [sign],
    [makeRequest] and [parseXMLResponse]) and of the sibling client in
    [src/sns.js].

    Conventions of the embedding.
    - A JavaScript string is a Rocq [string]: a sequence of 8-bit code
      units.  For ASCII text this is exactly the JavaScript string and
      exactly its UTF-8 encoding, so [TextEncoder.encode] is
      [list_byte_of_string].  Text outside ASCII is outside the model.
    - [undefined] is [None]; an optional field of type [T] is [option T].
    - An exception is a value of [JsError]; code that can throw returns
      in the monad [M], which also records the observable calls made
      (console warnings, [fetch], client construction, signing).
    - Everything the platform provides and the repository does not define
      (the clock, [fetch], libphonenumber-js, the [process] global) is a
      field of [World]; Web Crypto is the class [SubtleCrypto]. *)

From Stdlib Require Import Strings.String Strings.Ascii Strings.Byte.
From Stdlib Require Import Lists.List Bool.Bool Arith.Arith NArith.NArith ZArith.ZArith.
From Stdlib Require Import Numbers.DecimalString Lia.
Import ListNotations.

Set Warnings "-register-all".

Open Scope string_scope.
Open Scope bool_scope.
Open Scope nat_scope.

(* ================================================================= *)
(** * Part I.  Definitions *)
(* ================================================================= *)

(** ** JavaScript string primitives used by the source *)

Module Js.

(** Character classes of the regular expressions: [\d] is [0-9],
    [[a-zA-Z0-9]] is the ASCII alphanumerics. *)
Definition code (c : ascii) : nat := nat_of_ascii c.

Definition isDigit (c : ascii) : bool :=
  (48 <=? code c) && (code c <=? 57).

Definition isUpper (c : ascii) : bool :=
  (65 <=? code c) && (code c <=? 90).

Definition isLower (c : ascii) : bool :=
  (97 <=? code c) && (code c <=? 122).

Definition isAlnum (c : ascii) : bool :=
  isDigit c || isUpper c || isLower c.

Fixpoint all (p : ascii -> bool) (s : string) : bool :=
  match s with
  | EmptyString => true
  | String c r => p c && all p r
  end.

Fixpoint filter (p : ascii -> bool) (s : string) : string :=
  match s with
  | EmptyString => EmptyString
  | String c r => if p c then String c (filter p r) else filter p r
  end.

Fixpoint map (f : ascii -> ascii) (s : string) : string :=
  match s with
  | EmptyString => EmptyString
  | String c r => String (f c) (map f r)
  end.

(** [String.prototype.toLowerCase] on ASCII text. *)
Definition lowerChar (c : ascii) : ascii :=
  if isUpper c then ascii_of_nat (code c + 32) else c.

Definition toLowerCase (s : string) : string := map lowerChar s.

(** [s.startsWith(p)]. *)
Definition startsWith (s p : string) : bool := String.prefix p s.

(** [s.includes(p)]: [p] occurs somewhere in [s]. *)
Fixpoint includes (s p : string) : bool :=
  String.prefix p s ||
  match s with
  | EmptyString => false
  | String _ r => includes r p
  end.

(** [s.endsWith(p)]. *)
Definition endsWith (s p : string) : bool :=
  (String.length p <=? String.length s) &&
  String.eqb (String.substring (String.length s - String.length p) (String.length p) s) p.

(** [s.substring(0, n)]: the first [n] code units (all of [s] when it is
    shorter). *)
Definition substring0 (n : nat) (s : string) : string := String.substring 0 n s.

(** [s.slice(0, n)] and [s.substr(0, n)] agree with [substring(0, n)]
    for a non-negative literal [n]. *)
Definition slice0 (n : nat) (s : string) : string := String.substring 0 n s.

(** [s.split(sep)] for a one-character separator. *)
Fixpoint splitOn (sep : ascii) (s : string) : list string :=
  match s with
  | EmptyString => [EmptyString]
  | String c r =>
      if Ascii.eqb c sep then EmptyString :: splitOn sep r
      else match splitOn sep r with
           | [] => [String c EmptyString]
           | h :: t => String c h :: t
           end
  end.

(** [parts.join(sep)]. *)
Definition join (sep : string) (parts : list string) : string :=
  String.concat sep parts.

(** [s.replace(pat, rep)] with a string pattern: the first occurrence of
    [pat] is replaced.  The replacement is inserted literally, which is
    what JavaScript does when [rep] holds no [$]. *)
Fixpoint replaceFirst (pat rep s : string) : string :=
  if String.prefix pat s
  then rep ++ String.substring (String.length pat) (String.length s - String.length pat) s
  else match s with
       | EmptyString => EmptyString
       | String c r => String c (replaceFirst pat rep r)
       end.

(** Template-literal rendering of a possibly [undefined] string. *)
Definition render (v : option string) : string :=
  match v with
  | Some s => s
  | None => "undefined"
  end.

(** Decimal rendering of a non-negative integer (template literal of a
    small integer such as an HTTP status). *)
Definition ofNat (n : nat) : string :=
  NilZero.string_of_uint (Nat.to_uint n).

(** [s.padStart(w, fill)] for a one-character [fill]. *)
Fixpoint repeatChar (c : ascii) (n : nat) : string :=
  match n with
  | O => EmptyString
  | S k => String c (repeatChar c k)
  end.

Definition padStart (w : nat) (fill : ascii) (s : string) : string :=
  repeatChar fill (w - String.length s) ++ s.

(** The suffix of [s] from index [n] on ([s.slice(n)]). *)
Fixpoint drop (n : nat) (s : string) : string :=
  match n, s with
  | O, _ => s
  | S k, String _ r => drop k r
  | S _, EmptyString => EmptyString
  end.

(** [n.toString(16)] for one hexadecimal digit, and upper-case for the
    percent-encoders. *)
Definition hexDigit (n : nat) : ascii :=
  match String.get n "0123456789abcdef" with
  | Some c => c
  | None => "0"%char
  end.

Definition hexDigitUpper (n : nat) : ascii :=
  match String.get n "0123456789ABCDEF" with
  | Some c => c
  | None => "0"%char
  end.

(** Percent-encoding of one code unit: [%XX], upper-case hexadecimal. *)
Definition percent (c : ascii) : string :=
  String "%" (String (hexDigitUpper (code c / 16)) (String (hexDigitUpper (code c mod 16)) EmptyString)).

Definition isOneOf (set : string) (c : ascii) : bool :=
  match String.index 0 (String c EmptyString) set with
  | Some _ => true
  | None => false
  end.

(** [encodeURIComponent(s)]: alphanumerics and [-_.!~*'()] are kept. *)
Fixpoint encodeURIComponent (s : string) : string :=
  match s with
  | EmptyString => EmptyString
  | String c r =>
      (if isAlnum c || isOneOf "-_.!~*'()" c then String c EmptyString else percent c)
      ++ encodeURIComponent r
  end.

(** The application/x-www-form-urlencoded serialiser behind
    [URLSearchParams.prototype.toString]: alphanumerics and [*-._] are
    kept, a space becomes [+], every other code unit is percent-encoded. *)
Fixpoint formEncode (s : string) : string :=
  match s with
  | EmptyString => EmptyString
  | String c r =>
      (if isAlnum c || isOneOf "*-._" c then String c EmptyString
       else if Ascii.eqb c " " then "+" else percent c)
      ++ formEncode r
  end.

End Js.

(** ** Phone normaliser and validator (verify-phone.ts, lines 189-220) *)

(** [phone.replace(/\D/g, '')]. *)
Definition stripNonDigits (phone : string) : string := Js.filter Js.isDigit phone.

(** [formatPhoneNumber(phone)] for a string argument. *)
Definition formatPhoneNumber (phone : string) : string :=
  let cleaned := stripNonDigits phone in
  if String.length cleaned =? 10 then "+1" ++ cleaned
  else if (String.length cleaned =? 11) && Js.startsWith cleaned "1" then "+" ++ cleaned
  else if Js.startsWith phone "+" then phone else "+" ++ cleaned.

(** [[1-9]]. *)
Definition isDigit19 (c : ascii) : bool :=
  (49 <=? Js.code c) && (Js.code c <=? 57).

(** [/^\+[1-9]\d{1,14}$/.test(phone)]. *)
Definition phoneRegex (phone : string) : bool :=
  match phone with
  | String "+" (String c rest) =>
      isDigit19 c && Js.all Js.isDigit rest &&
      (1 <=? String.length rest) && (String.length rest <=? 14)
  | _ => false
  end.

(** The regex branch of [isValidPhoneNumber]. *)
Definition isValidPhoneNumberBasic (phone : string) : bool :=
  phoneRegex phone && (7 <=? String.length phone) && (String.length phone <=? 16).

(** ** Platform interfaces *)

(** Web Crypto, as [sign] uses it where the runtime has it (a runtime
    without it is [CryptoAbsent] below).  [digestSHA256 data] is
    [crypto.subtle.digest('SHA-256', data)]; [signHMAC key data] is
    [crypto.subtle.importKey('raw', key, {name:'HMAC', hash:'SHA-256'},
    false, ['sign'])] followed by [crypto.subtle.sign('HMAC', key, data)]. *)
Class SubtleCrypto : Type := {
  digestSHA256 : list byte -> list byte;
  signHMAC : list byte -> list byte -> list byte
}.

(** A thrown [Error] object: the catch blocks read [message] and
    [stack] only. *)
Record JsError : Type := {
  message : string;
  stack : option string
}.

(** [Exc A]: a thrown error or a returned value. *)
Definition Exc (A : Type) : Type := (JsError + A)%type.

(** A [Date], by its UTC fields. *)
Record JsDate : Type := {
  year : Z;
  month : nat;
  day : nat;
  hours : nat;
  minutes : nat;
  seconds : nat;
  milliseconds : nat
}.

(** A plain object with string values, as its own properties in the
    order they were created.  Keys are unique: [setProp] is assignment
    [o[k] = v].  The order in which the engine enumerates them is
    [ownEntries] below. *)
Definition JsObject : Type := list (string * string).

Fixpoint setProp (k v : string) (o : JsObject) : JsObject :=
  match o with
  | [] => [(k, v)]
  | (k', v') :: r =>
      if String.eqb k' k then (k, v) :: r else (k', v') :: setProp k v r
  end.

Fixpoint getProp (k : string) (o : JsObject) : option string :=
  match o with
  | [] => None
  | (k', v) :: r => if String.eqb k' k then Some v else getProp k r
  end.

Definition keys (o : JsObject) : list string := List.map fst o.

(** [Array.prototype.sort()] with the default comparison, on strings:
    ascending by code units. *)
Fixpoint insertSorted (x : string) (l : list string) : list string :=
  match l with
  | [] => [x]
  | y :: r => if String.leb x y then x :: y :: r else y :: insertSorted x r
  end.

Fixpoint sort (l : list string) : list string :=
  match l with
  | [] => []
  | x :: r => insertSorted x (sort r)
  end.

(** A parsed JSON value.  Of a number only its being zero is observed
    (truthiness), so integers stand for all numbers. *)
Inductive JsVal : Type :=
| VUndefined
| VNull
| VBool (b : bool)
| VNum (n : Z)
| VStr (s : string)
| VArr (items : list JsVal)
| VObj (fields : list (string * JsVal)).

(** What [fetch] resolves to: [ok], [status] and the two body readers the
    source calls, [text()] and [json()], each of which may reject. *)
Record Response : Type := {
  ok : bool;
  status : nat;
  text : Exc string;
  json : Exc JsVal
}.

(** A [PhoneNumber] of libphonenumber-js, by the members the source reads:
    [country], [nationalNumber], [isValid()], [isNonGeographic()] and
    [format('E.164')]. *)
Record PhoneNumber : Type := {
  country : option string;
  nationalNumber : string;
  isValid : bool;
  isNonGeographic : bool;
  formatE164 : string
}.

(** The binding of the global [process]: absent (reading the identifier
    raises a ReferenceError), or present with [process?.env] either
    nullish ([None]) or a table of variables. *)
Inductive ProcessGlobal : Type :=
| ProcessUndeclared
| ProcessDeclared (env : option (string -> option string)).

(** The environment one call runs in. *)
Record World : Type := {
  processGlobal : ProcessGlobal;
  clock : JsDate;
  stackOf : string -> option string;
  parsePhoneNumber : option string -> Exc (option PhoneNumber);
  getNumberType : string -> Exc (option string);
  fetch : string -> JsObject -> Exc Response
}.

(** Calls a run makes that an observer can see. *)
Inductive Event : Type :=
| EvWarn (what : string)
| EvFetch (url : string) (headers : JsObject)
| EvNewSNSClient (accessKeyId secretAccessKey : option string) (region : string)
| EvSign (method url : string).

(** ** The monad of the embedding: reader of the world, exceptions, and a
    log of events in the order they happen *)

Definition M (A : Type) : Type := World -> Exc A * list Event.

Definition ret {A : Type} (a : A) : M A := fun _ => (inr a, []).

Definition bind {A B : Type} (m : M A) (k : A -> M B) : M B :=
  fun w =>
    match m w with
    | (inl e, t) => (inl e, t)
    | (inr a, t) => let (r, t') := k a w in (r, (t ++ t')%list)
    end.

Definition throw {A : Type} (e : JsError) : M A := fun _ => (inl e, []).

(** [throw new Error(msg)]. *)
Definition throwError {A : Type} (msg : string) : M A :=
  fun w => (inl {| message := msg; stack := stackOf w msg |}, []).

(** [try { m } catch (error) { h error }]. *)
Definition tryCatch {A : Type} (m : M A) (h : JsError -> M A) : M A :=
  fun w =>
    match m w with
    | (inl e, t) => let (r, t') := h e w in (r, (t ++ t')%list)
    | (inr a, t) => (inr a, t)
    end.

Definition emit (e : Event) : M unit := fun _ => (inr tt, [e]).

Definition ask : M World := fun w => (inr w, []).

(** Lifting the outcome of a platform call. *)
Definition liftExc {A : Type} (r : Exc A) : M A := fun _ => (r, []).

Declare Scope js_scope.
Delimit Scope js_scope with js.
Notation "x <- m ;; k" := (bind m (fun x => k))
  (at level 100, m at next level, right associativity) : js_scope.
Notation "m ;;; k" := (bind m (fun _ => k))
  (at level 100, right associativity) : js_scope.
Open Scope js_scope.

(** Errors the engine raises.  The texts are V8's. *)
Definition throwEngine {A : Type} (msg : string) : M A :=
  fun w => (inl {| message := msg; stack := stackOf w msg |}, []).

Definition readOfUndefined (prop : string) : string :=
  "Cannot read properties of undefined (reading '" ++ prop ++ "')".

Definition readOfNull (prop : string) : string :=
  "Cannot read properties of null (reading '" ++ prop ++ "')".

Definition notAFunction (expr : string) : string :=
  expr ++ " is not a function".

(** ** The platform's Web Crypto: SHA-256 (FIPS 180-4) and HMAC (RFC 2104)

    These are not code of the repository.  The theorems about [sign] hold
    for every [SubtleCrypto]; this instance lets the embedding run on
    concrete inputs. *)

Module WebCrypto.

Local Open Scope N_scope.

Definition mask32 : N := 0xffffffff.

Definition add32 (a b : N) : N := N.land (a + b) mask32.

Definition rotr (n x : N) : N :=
  N.lor (N.shiftr x n) (N.land (N.shiftl x (32 - n)) mask32).

Definition xor3 (a b c : N) : N := N.lxor (N.lxor a b) c.

Definition Ch (x y z : N) : N :=
  N.lxor (N.land x y) (N.land (N.lxor x mask32) z).

Definition Maj (x y z : N) : N :=
  xor3 (N.land x y) (N.land x z) (N.land y z).

Definition bigSigma0 (x : N) : N := xor3 (rotr 2 x) (rotr 13 x) (rotr 22 x).
Definition bigSigma1 (x : N) : N := xor3 (rotr 6 x) (rotr 11 x) (rotr 25 x).
Definition smallSigma0 (x : N) : N := xor3 (rotr 7 x) (rotr 18 x) (N.shiftr x 3).
Definition smallSigma1 (x : N) : N := xor3 (rotr 17 x) (rotr 19 x) (N.shiftr x 10).

(** The constants, from their definition: the first 32 bits of the
    fractional parts of the cube roots (round constants) and of the square
    roots (initial hash value) of the first primes. *)
Definition isPrime (n : nat) : bool :=
  (2 <=? n)%nat &&
  List.forallb (fun d => negb (n mod d =? 0)%nat) (List.seq 2 (Nat.sqrt n - 1)).

Definition primes (count : nat) : list N :=
  List.map N.of_nat (List.firstn count (List.filter isPrime (List.seq 2 400))).

(** The largest [r] between [lo] and [hi] whose cube is at most [n]. *)
Fixpoint cubeRootBetween (fuel : nat) (n lo hi : N) : N :=
  match fuel with
  | O => lo
  | S fuel' =>
      let mid := (lo + hi) / 2 in
      if mid * mid * mid <=? n
      then cubeRootBetween fuel' n mid hi
      else cubeRootBetween fuel' n lo mid
  end.

Definition cubeRootFraction (p : N) : N :=
  N.land (cubeRootBetween 40 (N.shiftl p 96) 0 (N.shiftl 1 36)) mask32.

Definition squareRootFraction (p : N) : N :=
  N.land (N.sqrt (N.shiftl p 64)) mask32.

Definition K : list N := Eval vm_compute in List.map cubeRootFraction (primes 64).

Definition H0 : list N := Eval vm_compute in List.map squareRootFraction (primes 8).

(** Big-endian bytes of a word, and back. *)
Definition bytesOfWord (n : nat) (x : N) : list N :=
  List.map (fun i => N.land (N.shiftr x (8 * N.of_nat i)) 0xff) (List.rev (List.seq 0 n)).

Definition wordOfBytes (bs : list N) : N :=
  List.fold_left (fun acc b => N.lor (N.shiftl acc 8) b) bs 0.

(** Padding: a one bit, zeros up to 56 modulo 64, the bit length on 64
    bits. *)
Definition pad (msg : list N) : list N :=
  let len := List.length msg in
  let zeros := ((64 - (len + 9) mod 64) mod 64)%nat in
  (msg ++ [0x80] ++ List.repeat 0 zeros ++ bytesOfWord 8 (8 * N.of_nat len))%list.

Fixpoint chunks (n : nat) (fuel : nat) (l : list N) : list (list N) :=
  match fuel with
  | O => []
  | S fuel' =>
      match l with
      | [] => []
      | _ => List.firstn n l :: chunks n fuel' (List.skipn n l)
      end
  end.

(** The message schedule, most recent word first. *)
Fixpoint extend (steps : nat) (w : list N) : list N :=
  match steps with
  | O => w
  | S k =>
      let next :=
        add32 (add32 (smallSigma1 (List.nth 1 w 0)) (List.nth 6 w 0))
              (add32 (smallSigma0 (List.nth 14 w 0)) (List.nth 15 w 0)) in
      extend k (next :: w)
  end.

Definition schedule (block : list N) : list N :=
  List.rev (extend 48 (List.rev (List.map wordOfBytes (chunks 4 16 block)))).

Record Regs : Type := { ra : N; rb : N; rc : N; rd : N; re : N; rf : N; rg : N; rh : N }.

Definition round (s : Regs) (kw : N * N) : Regs :=
  let t1 := add32 (add32 (add32 (rh s) (bigSigma1 (re s)))
                         (add32 (Ch (re s) (rf s) (rg s)) (fst kw))) (snd kw) in
  let t2 := add32 (bigSigma0 (ra s)) (Maj (ra s) (rb s) (rc s)) in
  {| ra := add32 t1 t2; rb := ra s; rc := rb s; rd := rc s;
     re := add32 (rd s) t1; rf := re s; rg := rf s; rh := rg s |}.

Definition regsOf (h : list N) : Regs :=
  {| ra := List.nth 0 h 0; rb := List.nth 1 h 0; rc := List.nth 2 h 0; rd := List.nth 3 h 0;
     re := List.nth 4 h 0; rf := List.nth 5 h 0; rg := List.nth 6 h 0; rh := List.nth 7 h 0 |}.

Definition listOf (s : Regs) : list N :=
  [ ra s; rb s; rc s; rd s; re s; rf s; rg s; rh s ].

Definition compress (h : list N) (block : list N) : list N :=
  let s := List.fold_left round (List.combine K (schedule block)) (regsOf h) in
  List.map (fun p => add32 (fst p) (snd p)) (List.combine h (listOf s)).

Definition sha256N (msg : list N) : list N :=
  let padded := pad msg in
  let h := List.fold_left compress (chunks 64 (List.length padded) padded) H0 in
  List.flat_map (bytesOfWord 4) h.

Definition hmacN (key msg : list N) : list N :=
  let key := if (64 <? List.length key)%nat then sha256N key else key in
  let key := (key ++ List.repeat 0 (64 - List.length key)%nat)%list in
  let inner := sha256N (List.map (N.lxor 0x36) key ++ msg)%list in
  sha256N (List.map (N.lxor 0x5c) key ++ inner)%list.

Definition toN (bs : list byte) : list N := List.map Byte.to_N bs.

Definition ofN (ns : list N) : list byte :=
  List.map (fun n => match Byte.of_N n with Some b => b | None => x00 end) ns.

#[global] Instance subtle : SubtleCrypto :=
  {| digestSHA256 := fun data => ofN (sha256N (toN data));
     signHMAC := fun key data => ofN (hmacN (toN key) (toN data)) |}.

End WebCrypto.

(** ** SNSClient (verify-phone.ts, lines 227-385) *)

Record SNSClient : Type := {
  accessKeyId : option string;
  secretAccessKey : option string;
  region : string;
  endpoint : string
}.

(** [a || 'us-east-1']: the default replaces [undefined] and the empty
    string. *)
Definition orDefault (a : option string) (d : string) : string :=
  match a with
  | Some s => if String.eqb s EmptyString then d else s
  | None => d
  end.

(** [new SNSClient({ accessKeyId, secretAccessKey, awsRegion })]. *)
Definition newSNSClient (optAccessKeyId optSecretAccessKey optAwsRegion : option string)
  : SNSClient :=
  let region := orDefault optAwsRegion "us-east-1" in
  {| accessKeyId := optAccessKeyId;
     secretAccessKey := optSecretAccessKey;
     region := region;
     endpoint := "https://sns." ++ region ++ ".amazonaws.com" |}.

(** [stringToUint8Array(str)]: [new TextEncoder().encode(str)]. *)
Definition stringToUint8Array (str : string) : list byte := list_byte_of_string str.

(** [b.toString(16)] for a byte. *)
Definition toString16 (b : byte) : string :=
  let n := N.to_nat (Byte.to_N b) in
  if n <? 16 then String (Js.hexDigit n) EmptyString
  else String (Js.hexDigit (n / 16)) (String (Js.hexDigit (n mod 16)) EmptyString).

(** [arrayBufferToHex(buffer)]. *)
Definition arrayBufferToHex (buffer : list byte) : string :=
  Js.join EmptyString (List.map (fun b => Js.padStart 2 "0" (toString16 b)) buffer).

(** [Date.prototype.toISOString]: [YYYY-MM-DDTHH:mm:ss.sssZ], the year in
    four digits from 0 to 9999 and as a sign and six digits otherwise. *)
Definition padNat (w n : nat) : string := Js.padStart w "0" (Js.ofNat n).

Definition isoYear (y : Z) : string :=
  if ((0 <=? y) && (y <=? 9999))%Z then padNat 4 (Z.to_nat y)
  else (if (y <? 0)%Z then "-" else "+") ++ padNat 6 (Z.to_nat (Z.abs y)).

Definition toISOString (d : JsDate) : string :=
  isoYear (year d) ++ "-" ++ padNat 2 (month d) ++ "-" ++ padNat 2 (day d) ++ "T" ++
  padNat 2 (hours d) ++ ":" ++ padNat 2 (minutes d) ++ ":" ++ padNat 2 (seconds d) ++ "." ++
  padNat 3 (milliseconds d) ++ "Z".

(** [iso.replace(/[:\-]|\.\d{3}/g, '')]: scanning from the left, a colon or
    a hyphen is dropped, a dot followed by three digits is dropped with
    them, any other code unit is kept. *)
Fixpoint stripIsoPunctuation (iso : string) : string :=
  match iso with
  | EmptyString => EmptyString
  | String c r =>
      if Ascii.eqb c ":" || Ascii.eqb c "-" then stripIsoPunctuation r
      else
        match r with
        | String d1 (String d2 (String d3 r')) =>
            if Ascii.eqb c "." && Js.isDigit d1 && Js.isDigit d2 && Js.isDigit d3
            then stripIsoPunctuation r'
            else String c (stripIsoPunctuation r)
        | _ => String c (stripIsoPunctuation r)
        end
  end.

(** The part of the ISO string before the fraction. *)
Definition isoToSeconds (d : JsDate) : string :=
  isoYear (year d) ++ "-" ++ padNat 2 (month d) ++ "-" ++ padNat 2 (day d) ++ "T" ++
  padNat 2 (hours d) ++ ":" ++ padNat 2 (minutes d) ++ ":" ++ padNat 2 (seconds d).

(** A string without a dot. *)
Definition noDot (s : string) : bool := Js.all (fun c => negb (Ascii.eqb c ".")) s.

(** [url.split('?')[1] || '']. *)
Definition queryOf (url : string) : string :=
  match Js.splitOn "?" url with
  | _ :: q :: _ => q
  | _ => EmptyString
  end.

(** The values [sign] computes, one field per [const] of the source, and
    the mutated [headers] object it returns. *)
Record SignLocals : Type := {
  amzDate : string;
  dateStamp : string;
  canonicalUri : string;
  canonicalQuerystring : string;
  payloadHash : string;
  sortedHeaders : string;
  signedHeaders : string;
  canonicalRequest : string;
  algorithm : string;
  credentialScope : string;
  canonicalRequestHash : string;
  stringToSign : string;
  kDate : list byte;
  kRegion : list byte;
  kService : list byte;
  kSigning : list byte;
  signature : string;
  headersOut : JsObject
}.

Section Signing.

Context {crypto : SubtleCrypto}.

(** The [headers] object at the point where [sign] canonicalises it: the
    caller's headers with [host], [x-amz-date] and [x-amz-content-sha256]
    assigned, in that order. *)
Definition headersToSign (this : SNSClient) (now : JsDate)
  (headers : JsObject) (payload : string) : JsObject :=
  setProp "x-amz-content-sha256"
    (arrayBufferToHex (digestSHA256 (stringToUint8Array payload)))
    (setProp "x-amz-date" (stripIsoPunctuation (toISOString now))
       (setProp "host" ("sns." ++ region this ++ ".amazonaws.com") headers)).

(** The body of [sign(method, url, headers, payload)] with [now] the value
    of [new Date()]. *)
Definition signAt (this : SNSClient) (now : JsDate)
  (method url : string) (headers : JsObject) (payload : string) : SignLocals :=
  let amzDate := stripIsoPunctuation (toISOString now) in
  let dateStamp := Js.slice0 8 amzDate in
  let canonicalUri := "/" in
  let canonicalQuerystring := queryOf url in
  let headers := setProp "host" ("sns." ++ region this ++ ".amazonaws.com") headers in
  let headers := setProp "x-amz-date" amzDate headers in
  let payloadHash := arrayBufferToHex (digestSHA256 (stringToUint8Array payload)) in
  let headers := setProp "x-amz-content-sha256" payloadHash headers in
  let sortedHeaders :=
    Js.join (String "010" EmptyString)
      (List.map (fun key => Js.toLowerCase key ++ ":" ++ Js.render (getProp key headers))
         (sort (keys headers))) in
  let signedHeaders :=
    Js.join ";" (List.map (fun key => Js.toLowerCase key) (sort (keys headers))) in
  let canonicalRequest :=
    Js.join (String "010" EmptyString)
      [method; canonicalUri; canonicalQuerystring; sortedHeaders; EmptyString;
       signedHeaders; payloadHash] in
  let algorithm := "AWS4-HMAC-SHA256" in
  let credentialScope := dateStamp ++ "/" ++ region this ++ "/sns/aws4_request" in
  let canonicalRequestHash :=
    arrayBufferToHex (digestSHA256 (stringToUint8Array canonicalRequest)) in
  let stringToSign :=
    Js.join (String "010" EmptyString)
      [algorithm; amzDate; credentialScope; canonicalRequestHash] in
  let kDate :=
    signHMAC (stringToUint8Array ("AWS4" ++ Js.render (secretAccessKey this)))
      (stringToUint8Array dateStamp) in
  let kRegion := signHMAC kDate (stringToUint8Array (region this)) in
  let kService := signHMAC kRegion (stringToUint8Array "sns") in
  let kSigning := signHMAC kService (stringToUint8Array "aws4_request") in
  let signature := arrayBufferToHex (signHMAC kSigning (stringToUint8Array stringToSign)) in
  let headers :=
    setProp "authorization"
      (algorithm ++ " Credential=" ++ Js.render (accessKeyId this) ++ "/" ++ credentialScope ++
       ", SignedHeaders=" ++ signedHeaders ++ ", Signature=" ++ signature)
      headers in
  {| amzDate := amzDate;
     dateStamp := dateStamp;
     canonicalUri := canonicalUri;
     canonicalQuerystring := canonicalQuerystring;
     payloadHash := payloadHash;
     sortedHeaders := sortedHeaders;
     signedHeaders := signedHeaders;
     canonicalRequest := canonicalRequest;
     algorithm := algorithm;
     credentialScope := credentialScope;
     canonicalRequestHash := canonicalRequestHash;
     stringToSign := stringToSign;
     kDate := kDate;
     kRegion := kRegion;
     kService := kService;
     kSigning := kSigning;
     signature := signature;
     headersOut := headers |}.

(** [sign], in a runtime that has [crypto.subtle] and [TextEncoder]: it
    reads the clock once and returns the mutated [headers].  The call in
    a runtime that may lack them is [signOn] below. *)
Definition sign (this : SNSClient) (method url : string) (headers : JsObject)
  (payload : string) : M JsObject :=
  w <- ask ;;
  emit (EvSign method url) ;;;
  ret (headersOut (signAt this (clock w) method url headers payload)).

End Signing.

(** ** The signing procedure as the specification words it

    Written from the specification's sentences, to be compared with
    [signAt]: the canonical header names are the names lower-cased and
    then sorted; the signing key is the four-stage HMAC cascade; the
    Authorization header has the stated form. *)

Module Spec.

Section Procedure.

Context {crypto : SubtleCrypto}.

Definition canonicalNames (headers : JsObject) : list string :=
  sort (List.map Js.toLowerCase (keys headers)).

Definition signedHeaderList (headers : JsObject) : string :=
  Js.join ";" (canonicalNames headers).




End Procedure.

End Spec.

(** Two readings of the clock within the same second. *)
Definition sameSecond (a b : JsDate) : Prop :=
  year a = year b /\ month a = month b /\ day a = day b /\
  hours a = hours b /\ minutes a = minutes b /\ seconds a = seconds b /\
  milliseconds a < 1000 /\ milliseconds b < 1000.

(** ** Response extractor and transport *)

(** What [parseXMLResponse] returns: an object with exactly one of these
    properties. *)
Inductive SnsReply : Type :=
| ReplyMessageId (id : string)
| ReplyTopicArn (arn : string)
| ReplySubscriptionArn (arn : string)
| ReplyRaw (raw : string).

(** [response.MessageId]. *)
Definition replyMessageId (r : SnsReply) : option string :=
  match r with
  | ReplyMessageId id => Some id
  | _ => None
  end.

(** Text: a string free of [<], what [[^<]+] can match. *)
Definition isText (v : string) : bool := Js.all (fun c => negb (Ascii.eqb c "<")) v.

(** The longest prefix of [s] free of [<], and what follows it. *)
Fixpoint spanText (s : string) : string * string :=
  match s with
  | EmptyString => (EmptyString, EmptyString)
  | String c r =>
      if Ascii.eqb c "<" then (EmptyString, s)
      else let (t, rest) := spanText r in (String c t, rest)
  end.

(** One attempt of [/<Tag>([^<]+)<\/Tag>/] at the start of [s]: the opening
    tag, a non-empty run without [<], the closing tag.  The run is maximal:
    a shorter one would be followed by a code unit other than [<]. *)
Definition matchTagHere (tag s : string) : option string :=
  let opening := "<" ++ tag ++ ">" in
  let closing := "</" ++ tag ++ ">" in
  if String.prefix opening s then
    let (captured, rest) := spanText (Js.drop (String.length opening) s) in
    if negb (String.eqb captured EmptyString) && String.prefix closing rest
    then Some captured else None
  else None.

(** [xmlText.match(/<Tag>([^<]+)<\/Tag>/)], giving group 1 of the leftmost
    match. *)
Fixpoint matchTag (tag xmlText : string) : option string :=
  match matchTagHere tag xmlText with
  | Some captured => Some captured
  | None =>
      match xmlText with
      | EmptyString => None
      | String _ r => matchTag tag r
      end
  end.

(** [parseXMLResponse(xmlText)] of verify-phone.ts. *)
Definition parseXMLResponse (xmlText : string) : M SnsReply :=
  let messageIdMatch := matchTag "MessageId" xmlText in
  let errorCodeMatch := matchTag "Code" xmlText in
  let errorMessageMatch := matchTag "Message" xmlText in
  match errorCodeMatch, errorMessageMatch with
  | Some errorCode, Some errorMessage => throwError (errorCode ++ ": " ++ errorMessage)
  | _, _ =>
      match messageIdMatch with
      | Some id => ret (ReplyMessageId id)
      | None => ret (ReplyRaw xmlText)
      end
  end.

(** [{ ...base, ...params }]: the properties of [base] as created, each
    property of [params] assigned after them.  The order in which the
    spread reads [params] does not show in the result: it is the order
    of creation among the names that are not array indices, and array
    indices are enumerated by their value. *)
Definition spread (base params : JsObject) : JsObject :=
  List.fold_left (fun o kv => setProp (fst kv) (snd kv) o) params base.

(** *** The order of enumeration

    The engine enumerates the own properties of an object with the array
    indices first, in ascending numeric order, and the other names after
    them in the order of their creation.  An array index is the
    canonical decimal numeral of an integer from 0 to 2^32 - 2. *)

Fixpoint decimalValue (acc : N) (s : string) : N :=
  match s with
  | EmptyString => acc
  | String c r => decimalValue (10 * acc + N.of_nat (Js.code c - 48)%nat)%N r
  end.

Definition arrayIndex (k : string) : option N :=
  match k with
  | EmptyString => None
  | String c r =>
      if Js.all Js.isDigit k && (negb (Ascii.eqb c "0") || String.eqb r EmptyString)
      then if (decimalValue 0 k <? 4294967295)%N then Some (decimalValue 0 k) else None
      else None
  end.

Fixpoint insertIndexed (x : N * (string * string)) (l : list (N * (string * string)))
  : list (N * (string * string)) :=
  match l with
  | [] => [x]
  | y :: r => if (fst x <=? fst y)%N then x :: y :: r else y :: insertIndexed x r
  end.

(** The properties whose name is an array index, ascending. *)
Definition indexed (o : JsObject) : list (N * (string * string)) :=
  List.fold_right
    (fun kv acc =>
       match arrayIndex (fst kv) with
       | Some n => insertIndexed (n, kv) acc
       | None => acc
       end)
    [] o.

(** The other properties, in the order of their creation. *)
Definition named (o : JsObject) : JsObject :=
  List.filter
    (fun kv => match arrayIndex (fst kv) with Some _ => false | None => true end) o.

(** The own properties as [Object.keys], the spread syntax and the
    constructor of [URLSearchParams] meet them. *)
Definition ownEntries (o : JsObject) : JsObject :=
  (List.map snd (indexed o) ++ named o)%list.

(** [new URLSearchParams(obj).toString()]. *)
Definition searchParamsToString (o : JsObject) : string :=
  Js.join "&"
    (List.map (fun kv => Js.formEncode (fst kv) ++ "=" ++ Js.formEncode (snd kv))
       (ownEntries o)).

Section Transport.

Context {crypto : SubtleCrypto}.

(** [makeRequest(action, params)], over the class's [parseXMLResponse],
    in a runtime that has Web Crypto ([makeRequestOn] below is the call
    in a runtime that may lack it). *)
Definition makeRequestWith (parse : string -> M SnsReply)
  (this : SNSClient) (action : string) (params : JsObject) : M SnsReply :=
  let queryParams := spread [("Action", action); ("Version", "2010-03-31")] params in
  let url := endpoint this ++ "/?" ++ searchParamsToString queryParams in
  let payload := EmptyString in
  let headers := [("Content-Type", "application/x-www-form-urlencoded; charset=utf-8")] in
  signedHeaders <- sign this "GET" url headers payload ;;
  tryCatch
    (emit (EvFetch url signedHeaders) ;;;
     w <- ask ;;
     response <- liftExc (fetch w url signedHeaders) ;;
     text <- liftExc (text response) ;;
     if negb (ok response)
     then throwError ("SNS API Error: " ++ Js.ofNat (status response) ++ " - " ++ text)
     else parse text)
    (fun error => throwError ("SNS Request failed: " ++ message error)).

Definition makeRequest : SNSClient -> string -> JsObject -> M SnsReply :=
  makeRequestWith parseXMLResponse.

End Transport.

(** ** The client of src/sns.js

    Its [sign] and [makeRequest] are those of verify-phone.ts line for line
    ([substr(0, 8)] for [slice(0, 8)]); the constructor reads
    [options.region] and [parseXMLResponse] differs. *)

Module SnsJs.

Definition newSNSClient (optAccessKeyId optSecretAccessKey optRegion : option string)
  : SNSClient :=
  let region := orDefault optRegion "us-east-1" in
  {| accessKeyId := optAccessKeyId;
     secretAccessKey := optSecretAccessKey;
     region := region;
     endpoint := "https://sns." ++ region ++ ".amazonaws.com" |}.

(** [parseXMLResponse(xmlText)] of sns.js. *)
Definition parseXMLResponse (xmlText : string) : M SnsReply :=
  let messageIdMatch := matchTag "MessageId" xmlText in
  let topicArnMatch := matchTag "TopicArn" xmlText in
  let subscriptionArnMatch := matchTag "SubscriptionArn" xmlText in
  match messageIdMatch with
  | Some id => ret (ReplyMessageId id)
  | None =>
      match topicArnMatch with
      | Some arn => ret (ReplyTopicArn arn)
      | None =>
          match subscriptionArnMatch with
          | Some arn => ret (ReplySubscriptionArn arn)
          | None => ret (ReplyRaw xmlText)
          end
      end
  end.

Definition makeRequest {crypto : SubtleCrypto}
  : SNSClient -> string -> JsObject -> M SnsReply :=
  makeRequestWith parseXMLResponse.

End SnsJs.

(** ** Web Crypto as the runtime has it

    [sign] calls [crypto.subtle.digest], [crypto.subtle.importKey],
    [crypto.subtle.sign] and [new TextEncoder()].  Where the runtime lacks
    them (a page in an insecure context, an engine without the [crypto]
    global) the first of these calls raises, [sign] rejects, and
    [makeRequest], which awaits [sign] before its [try] statement,
    rejects with that error. *)

Inductive WebCryptoGlobal : Type :=
| CryptoPresent (crypto : SubtleCrypto)
| CryptoAbsent (raised : JsError).

(** [this.sign(method, url, headers, payload)] in the runtime
    [platform]. *)
Definition signOn (platform : WebCryptoGlobal) (this : SNSClient)
  (method url : string) (headers : JsObject) (payload : string) : M JsObject :=
  match platform with
  | CryptoPresent crypto => @sign crypto this method url headers payload
  | CryptoAbsent raised => emit (EvSign method url) ;;; throw raised
  end.

(** [makeRequest(action, params)] in the runtime [platform], over the
    class's [parseXMLResponse]: the statements of the method, with the
    awaited [sign] before the [try]. *)
Definition makeRequestOn (platform : WebCryptoGlobal) (parse : string -> M SnsReply)
  (this : SNSClient) (action : string) (params : JsObject) : M SnsReply :=
  let queryParams := spread [("Action", action); ("Version", "2010-03-31")] params in
  let url := endpoint this ++ "/?" ++ searchParamsToString queryParams in
  let payload := EmptyString in
  let headers := [("Content-Type", "application/x-www-form-urlencoded; charset=utf-8")] in
  signedHeaders <- signOn platform this "GET" url headers payload ;;
  tryCatch
    (emit (EvFetch url signedHeaders) ;;;
     w <- ask ;;
     response <- liftExc (fetch w url signedHeaders) ;;
     text <- liftExc (text response) ;;
     if negb (ok response)
     then throwError ("SNS API Error: " ++ Js.ofNat (status response) ++ " - " ++ text)
     else parse text)
    (fun error => throwError ("SNS Request failed: " ++ message error)).

(** ** VoIP classifier, external lookup (verify-phone.ts, lines 394-420) *)

(** [!v] is [negb (truthy v)]. *)
Definition truthy (v : JsVal) : bool :=
  match v with
  | VUndefined | VNull => false
  | VBool b => b
  | VNum n => negb (n =? 0)%Z
  | VStr s => negb (String.eqb s EmptyString)
  | VArr _ | VObj _ => true
  end.

Fixpoint lookupField (k : string) (fields : list (string * JsVal)) : JsVal :=
  match fields with
  | [] => VUndefined
  | (k', v) :: r => if String.eqb k' k then v else lookupField k r
  end.

(** [v.k] for the property names the source reads ([carrier], [name],
    [type], [portability], [line_type]): a TypeError on [undefined] and
    [null], the property of an object, [undefined] on any other value. *)
Definition member (k : string) (v : JsVal) : M JsVal :=
  match v with
  | VUndefined => throwEngine (readOfUndefined k)
  | VNull => throwEngine (readOfNull k)
  | VObj fields => ret (lookupField k fields)
  | _ => ret VUndefined
  end.

(** [v.toLowerCase()]: only a string has the method. *)
Definition callToLowerCase (expr : string) (v : JsVal) : M string :=
  match v with
  | VStr s => ret (Js.toLowerCase s)
  | VUndefined => throwEngine (readOfUndefined "toLowerCase")
  | VNull => throwEngine (readOfNull "toLowerCase")
  | _ => throwEngine (notAFunction (expr ++ ".toLowerCase"))
  end.

Definition lookupUrl (phone : string) : string :=
  "https://www.sent.dm/api/phone-lookup?phone=" ++ Js.encodeURIComponent phone.

(** The verdict expression of [isPhoneNumberVoip], evaluated left to right
    with the short-circuit of [||]. *)
Definition lookupVerdict (phoneData : JsVal) : M bool :=
  carrier <- member "carrier" phoneData ;;
  carrierName <- member "name" carrier ;;
  name <- callToLowerCase "phoneData.carrier.name" carrierName ;;
  if Js.includes name "bandwidth" then ret true
  else
    carrier <- member "carrier" phoneData ;;
    carrierType <- member "type" carrier ;;
    type <- callToLowerCase "phoneData.carrier.type" carrierType ;;
    if String.eqb type "voip" then ret true
    else
      portability <- member "portability" phoneData ;;
      lineType <- member "line_type" portability ;;
      line <- callToLowerCase "phoneData.portability.line_type" lineType ;;
      ret (String.eqb line "mobile").

Definition isPhoneNumberVoip (phone : string) : M bool :=
  tryCatch
    (let url := lookupUrl phone in
     let headers := [("Accept", "application/json")] in
     emit (EvFetch url headers) ;;;
     w <- ask ;;
     response <- liftExc (fetch w url headers) ;;
     if negb (ok response)
     then emit (EvWarn "Phone lookup failed:") ;;; ret false
     else
       phoneData <- liftExc (json response) ;;
       if negb (truthy phoneData) then ret false
       else
         carrier <- member "carrier" phoneData ;;
         if negb (truthy carrier) then ret false
         else lookupVerdict phoneData)
    (fun error => emit (EvWarn "Phone lookup error:") ;;; ret false).

(** ** VoIP classifier, local heuristic (verify-phone.ts, lines 431-551) *)

Definition voipAreaCodes : list string :=
  [ "800"; "888"; "877"; "866"; "855"; "844"; "833";
    "900"; "976";
    "700";
    "500"; "521"; "522"; "523"; "524"; "525"; "526"; "527"; "528"; "529";
    "600"; "601"; "602"; "603"; "604"; "605"; "606"; "607"; "608"; "609" ].

(** [list.includes(x)]. *)
Definition arrayIncludes (l : list string) (x : string) : bool :=
  List.existsb (String.eqb x) l.

(** Rule 1: [country === 'US'] and the first three digits of the national
    number are a listed code. *)
Definition hasVoipAreaCode (phoneNumber : PhoneNumber) : bool :=
  match country phoneNumber with
  | Some c =>
      String.eqb c "US" &&
      arrayIncludes voipAreaCodes (Js.substring0 3 (nationalNumber phoneNumber))
  | None => false
  end.

(** [/(\d)\1{2,}/.test(s)]: some digit occurs three times in a row. *)
Fixpoint hasRepeatedDigits (s : string) : bool :=
  match s with
  | EmptyString => false
  | String a r =>
      match r with
      | String b (String c _) =>
          (Js.isDigit a && Ascii.eqb b a && Ascii.eqb c a) || hasRepeatedDigits r
      | _ => false
      end
  end.

(** One alternative [d(?=e)] of the sequential pattern: [a] is a digit
    from 0 to 8 and the next code unit is the following digit. *)
Definition stepsUp (a b : ascii) : bool :=
  (48 <=? Js.code a) && (Js.code a <=? 56) && (Js.code b =? Js.code a + 1).

(** [/(?:0(?=1)|1(?=2)|...|8(?=9)){3,}/.test(s)]: three alternatives in a
    row, so four code units rising by one. *)
Fixpoint hasSequentialDigits (s : string) : bool :=
  match s with
  | EmptyString => false
  | String a r =>
      match r with
      | String b (String c (String d _)) =>
          (stepsUp a b && stepsUp b c && stepsUp c d) || hasSequentialDigits r
      | _ => false
      end
  end.

Definition voipEndings : list string :=
  [ "0000"; "1111"; "2222"; "3333"; "4444"; "5555"; "6666"; "7777"; "8888"; "9999" ].

(** [voipEndings.some(ending => s.endsWith(ending))]. *)
Definition hasVoipEnding (s : string) : bool :=
  List.existsb (fun ending => Js.endsWith s ending) voipEndings.

(** [new Set(s.split('')).size]. *)
Definition uniqueDigitsSize (s : string) : nat :=
  List.length (List.nodup ascii_dec (list_ascii_of_string s)).

Definition hasFewUniqueDigits (s : string) : bool :=
  (uniqueDigitsSize s <=? 3) && (7 <=? String.length s).

(** Step 4 of the source: the pattern rules, in order. *)
Definition patternVerdict (nationalNumber : string) : bool :=
  if hasRepeatedDigits nationalNumber then true
  else if hasSequentialDigits nationalNumber then true
  else if hasVoipEnding nationalNumber then true
  else if hasFewUniqueDigits nationalNumber then true
  else false.

(** Step 3 of the source: what a number type decides, [None] when the
    function goes on to the pattern rules. *)
Definition numberTypeVerdict (numberType : option string) : option bool :=
  match numberType with
  | None => None
  | Some t =>
      if String.eqb t "VOIP" then Some true
      else if String.eqb t "PREMIUM_RATE" || String.eqb t "TOLL_FREE" then Some true
      else if String.eqb t "SHARED_COST" then Some true
      else if String.eqb t "MOBILE" then Some false
      else if String.eqb t "FIXED_LINE" then Some false
      else None
  end.

Definition isPhoneNumberVoipLibPhoneNumber (phone : string) (metadataType : string)
  : M bool :=
  tryCatch
    (w <- ask ;;
     parsed <- liftExc (parsePhoneNumber w (Some phone)) ;;
     match parsed with
     | None =>
         emit (EvWarn "Could not parse phone number with libphonenumber-js") ;;;
         ret false
     | Some phoneNumber =>
         if negb (isValid phoneNumber)
         then emit (EvWarn "Phone number is not valid according to libphonenumber-js") ;;;
              ret false
         else if hasVoipAreaCode phoneNumber then ret true
         else if isNonGeographic phoneNumber then ret true
         else
           decided <-
             (if String.eqb metadataType "full"
              then tryCatch
                     (numberType <- liftExc (getNumberType w phone) ;;
                      ret (numberTypeVerdict numberType))
                     (fun error =>
                        emit (EvWarn "Phone number type detection failed:") ;;; ret None)
              else ret None) ;;
           match decided with
           | Some verdict => ret verdict
           | None => ret (patternVerdict (nationalNumber phoneNumber))
           end
     end)
    (fun error => emit (EvWarn "libphonenumber-js VoIP detection error:") ;;; ret false).

(** ** libphonenumber-backed normaliser and the validator *)

(** [formatPhoneNumber(phone)] as called: [phone] may be [undefined], on
    which [phone.replace] raises. *)
Definition formatPhoneNumberCall (phone : option string) : M string :=
  match phone with
  | Some p => ret (formatPhoneNumber p)
  | None => throwEngine (readOfUndefined "replace")
  end.

Definition formatPhoneNumberLibPhoneNumber (phone : option string) : M string :=
  tryCatch
    (w <- ask ;;
     parsed <- liftExc (parsePhoneNumber w phone) ;;
     match parsed with
     | Some phoneNumber =>
         if isValid phoneNumber then ret (formatE164 phoneNumber)
         else formatPhoneNumberCall phone
     | None => formatPhoneNumberCall phone
     end)
    (fun error =>
       emit (EvWarn "libphonenumber-js formatting failed, falling back to basic formatting:") ;;;
       formatPhoneNumberCall phone).

Definition isValidPhoneNumber (phone : string) (useLibPhoneNumber : bool) : M bool :=
  decided <-
    (if useLibPhoneNumber
     then tryCatch
            (w <- ask ;;
             parsed <- liftExc (parsePhoneNumber w (Some phone)) ;;
             ret (Some (match parsed with
                        | Some phoneNumber => isValid phoneNumber
                        | None => false
                        end)))
            (fun error =>
               emit (EvWarn "libphonenumber-js validation failed, falling back to regex validation:") ;;;
               ret None)
     else ret None) ;;
  match decided with
  | Some verdict => ret verdict
  | None => ret (isValidPhoneNumberBasic phone)
  end.

(** ** The orchestrator (verify-phone.ts, lines 74-163) *)

Module Options.

(** [VerifyPhoneOptions]; every field may be absent, as in the default
    [options = {}]. *)
Record t : Type := {
  phoneNumber : option string;
  code : option string;
  accessKeyId : option string;
  secretAccessKey : option string;
  awsRegion : option string;
  blockVoip : option bool;
  voipDetectionMethod : option string;
  useLibPhoneNumber : option bool;
  metadataType : option string;
  senderId : option string;
  smsType : option string;
  messageTemplate : option string
}.

End Options.

Module Result.

(** The object [verifyPhone] resolves to; a property not written is
    [None]. *)
Record t : Type := {
  success : bool;
  message : option string;
  messageId : option string;
  code : option string;
  phoneNumber : option string;
  expiresIn : option nat;
  error : option string;
  details : option string;
  isVoip : option bool
}.

End Result.

(** [process?.env?.NAME]. *)
Definition processEnv (name : string) : M (option string) :=
  w <- ask ;;
  match processGlobal w with
  | ProcessUndeclared => throwEngine "process is not defined"
  | ProcessDeclared None => ret None
  | ProcessDeclared (Some env) => ret (env name)
  end.

(** A destructuring default [field = init]: [init] is evaluated only when
    the property is [undefined]. *)
Definition orElseM {A : Type} (v : option A) (init : M (option A)) : M (option A) :=
  match v with
  | Some _ => ret v
  | None => init
  end.

Definition orElse {A : Type} (v : option A) (d : A) : A :=
  match v with
  | Some a => a
  | None => d
  end.

(** [/^[a-zA-Z0-9]{4,}$/.test(code)]. *)
Definition codeRegex (code : string) : bool :=
  Js.all Js.isAlnum code && (4 <=? String.length code).

(** [error.stack || undefined]. *)
Definition stackOrUndefined (e : JsError) : option string :=
  match stack e with
  | Some s => if String.eqb s EmptyString then None else Some s
  | None => None
  end.

Definition voipRejection : Result.t :=
  {| Result.success := false;
     Result.message := None;
     Result.messageId := None;
     Result.code := None;
     Result.phoneNumber := None;
     Result.expiresIn := None;
     Result.error := Some "VoIP numbers are not allowed";
     Result.details :=
       Some "This phone number appears to be a VoIP number, which is not supported for verification";
     Result.isVoip := Some true |}.

Definition failure (e : JsError) : Result.t :=
  {| Result.success := false;
     Result.message := None;
     Result.messageId := None;
     Result.code := None;
     Result.phoneNumber := None;
     Result.expiresIn := None;
     Result.error := Some (message e);
     Result.details := stackOrUndefined e;
     Result.isVoip := None |}.

Definition sent (response : SnsReply) (code formattedPhone : string) : Result.t :=
  {| Result.success := true;
     Result.message := Some "Verification code sent successfully";
     Result.messageId := replyMessageId response;
     Result.code := Some code;
     Result.phoneNumber := Some formattedPhone;
     Result.expiresIn := Some 600;
     Result.error := None;
     Result.details := None;
     Result.isVoip := None |}.

Definition publishParams (message formattedPhone senderId smsType : string) : JsObject :=
  [ ("Message", message);
    ("PhoneNumber", formattedPhone);
    ("MessageAttributes.entry.1.Name", "AWS.SNS.SMS.SenderID");
    ("MessageAttributes.entry.1.Value.DataType", "String");
    ("MessageAttributes.entry.1.Value.StringValue", senderId);
    ("MessageAttributes.entry.2.Name", "AWS.SNS.SMS.SMSType");
    ("MessageAttributes.entry.2.Value.DataType", "String");
    ("MessageAttributes.entry.2.Value.StringValue", smsType) ].

(** The destructuring of [options]: the three defaults that read
    [process.env].  It runs before the [try] statement. *)
Definition bindCredentials (options : Options.t)
  : M (option string * option string * option string) :=
  accessKeyId <-
    orElseM (Options.accessKeyId options) (processEnv "AWS_ACCESS_KEY_ID") ;;
  secretAccessKey <-
    orElseM (Options.secretAccessKey options) (processEnv "AWS_SECRET_ACCESS_KEY") ;;
  awsRegion <-
    orElseM (Options.awsRegion options) (processEnv "AWS_REGION") ;;
  ret (accessKeyId, secretAccessKey, awsRegion).

(** What a destructured credential is bound to where [process] exists. *)
Definition resolved (given : option string) (env : option (string -> option string))
  (name : string) : option string :=
  match given with
  | Some _ => given
  | None => match env with Some table => table name | None => None end
  end.

(** [useLibPhoneNumber ? formatPhoneNumberLibPhoneNumber(phoneNumber)
                       : formatPhoneNumber(phoneNumber)]. *)
Definition normalise (useLibPhoneNumber : bool) (phoneNumber : option string) : M string :=
  if useLibPhoneNumber
  then formatPhoneNumberLibPhoneNumber phoneNumber
  else formatPhoneNumberCall phoneNumber.

(** [voipDetectionMethod === 'libphonenumber'
       ? isPhoneNumberVoipLibPhoneNumber(formattedPhone, metadataType)
       : isPhoneNumberVoip(formattedPhone)]. *)
Definition classify (voipDetectionMethod metadataType formattedPhone : string) : M bool :=
  if String.eqb voipDetectionMethod "libphonenumber"
  then isPhoneNumberVoipLibPhoneNumber formattedPhone metadataType
  else isPhoneNumberVoip formattedPhone.

(** The events of the transport: constructing the client, signing, and a
    request to the provider's endpoint. *)
Definition isTransportEvent (e : Event) : bool :=
  match e with
  | EvNewSNSClient _ _ _ => true
  | EvSign _ _ => true
  | EvFetch url _ => String.prefix "https://sns." url
  | EvWarn _ => false
  end.

(** A log without transport events. *)
Definition noTransport (log : list Event) : bool :=
  negb (List.existsb isTransportEvent log).

Section Orchestrator.

Context {crypto : SubtleCrypto}.

(** Steps 5 and 6: build the client and the message, publish, report. *)
Definition dispatch (accessKeyId secretAccessKey awsRegion : option string)
  (code formattedPhone senderId smsType messageTemplate : string) : M Result.t :=
  emit (EvNewSNSClient accessKeyId secretAccessKey
          (region (newSNSClient accessKeyId secretAccessKey awsRegion))) ;;;
  let snsClient := newSNSClient accessKeyId secretAccessKey awsRegion in
  let message := Js.replaceFirst "{code}" code messageTemplate in
  let params := publishParams message formattedPhone senderId smsType in
  response <- makeRequest snsClient "Publish" params ;;
  ret (sent response code formattedPhone).

(** The [try] block of [verifyPhone], after the defaults are bound. *)
Definition verifyPhoneBody
  (phoneNumber code accessKeyId secretAccessKey awsRegion : option string)
  (blockVoip : bool) (voipDetectionMethod : string) (useLibPhoneNumber : bool)
  (metadataType senderId smsType messageTemplate : string) : M Result.t :=
  match code with
  | None => throwError "Verification code is required"
  | Some code =>
      if String.eqb code EmptyString then throwError "Verification code is required"
      else if negb (codeRegex code)
      then throwError "Code must be alphanumeric and at least 4 characters"
      else
        formattedPhone <- normalise useLibPhoneNumber phoneNumber ;;
        valid <- isValidPhoneNumber formattedPhone useLibPhoneNumber ;;
        if negb valid
        then throwError "Invalid phone number format. Please use E.164 format (e.g., +1234567890)"
        else
          isVoip <-
            (if blockVoip
             then classify voipDetectionMethod metadataType formattedPhone
             else ret false) ;;
          if isVoip then ret voipRejection
          else dispatch accessKeyId secretAccessKey awsRegion
                 code formattedPhone senderId smsType messageTemplate
  end.

(** The [try] statement of [verifyPhone] on the bound variables. *)
Definition verifyPhoneTry (options : Options.t)
  (credentials : option string * option string * option string) : M Result.t :=
  let '(accessKeyId, secretAccessKey, awsRegion) := credentials in
  let blockVoip := orElse (Options.blockVoip options) false in
  let voipDetectionMethod := orElse (Options.voipDetectionMethod options) "api" in
  let useLibPhoneNumber := orElse (Options.useLibPhoneNumber options) false in
  let metadataType := orElse (Options.metadataType options) "minimal" in
  let senderId := orElse (Options.senderId options) "Verify" in
  let smsType := orElse (Options.smsType options) "Transactional" in
  let messageTemplate :=
    orElse (Options.messageTemplate options) "Your verification code is: {code}." in
  tryCatch
    (verifyPhoneBody (Options.phoneNumber options) (Options.code options)
       accessKeyId secretAccessKey awsRegion
       blockVoip voipDetectionMethod useLibPhoneNumber
       metadataType senderId smsType messageTemplate)
    (fun error => ret (failure error)).

(** [verifyPhone(options)]. *)
Definition verifyPhone (options : Options.t) : M Result.t :=
  credentials <- bindCredentials options ;;
  verifyPhoneTry options credentials.

End Orchestrator.

(** ** Failure of the lookup

    [LookupFailure w phone]: in world [w] the lookup for [phone] fails or
    its reply lacks a field the verdict reads.  The verdict reads
    [carrier.name], then [carrier.type] unless the name already decided,
    then [portability.line_type] unless the type already decided; a field
    is missing when it is not a string.

    [lacksVerdictField data] is the reading that does not look at the
    order: one of the three fields of the verdict is missing from the
    reply, whether or not the verdict comes to read it. *)

Definition lookupHeaders : JsObject := [("Accept", "application/json")].


(** [v.k] where it does not raise. *)
Definition field (k : string) (v : JsVal) : JsVal :=
  match v with
  | VObj fields => lookupField k fields
  | _ => VUndefined
  end.



(** ** Auxiliary notions for the statements about the code above *)

(** A lower-case hexadecimal digit. *)
Definition isLowerHex (c : ascii) : bool :=
  Js.isDigit c || ((97 <=? Js.code c) && (Js.code c <=? 102)).

(** Reading hexadecimal text back into bytes.  Not in the source: it is
    the inverse against which [arrayBufferToHex] is shown to lose
    nothing. *)
Definition hexValue (c : ascii) : N :=
  if Js.isDigit c then N.of_nat (Js.code c - 48) else N.of_nat (Js.code c - 87).

Fixpoint hexToBytes (s : string) : list byte :=
  match s with
  | String hi (String lo r) =>
      match Byte.of_N (16 * hexValue hi + hexValue lo) with
      | Some b => b :: hexToBytes r
      | None => []
      end
  | _ => []
  end.

(** A string without a question mark. *)
Definition noQuestion (s : string) : bool :=
  Js.all (fun c => negb (Ascii.eqb c "?")) s.

(** The URL [makeRequest] builds:
    [`${this.endpoint}/?${queryParams.toString()}`]. *)
Definition requestQuery (action : string) (params : JsObject) : string :=
  searchParamsToString (spread [("Action", action); ("Version", "2010-03-31")] params).

Definition requestUrl (this : SNSClient) (action : string) (params : JsObject) : string :=
  endpoint this ++ "/?" ++ requestQuery action params.

(** The headers [makeRequest] hands to [sign]. *)
Definition contentTypeHeader : JsObject :=
  [("Content-Type", "application/x-www-form-urlencoded; charset=utf-8")].

(** ** sns.js: the module's default client and [sendSMS]

    [sendSMS] starts the request and returns; the promise chain
    [.then(...).catch(...)] runs afterwards.  The embedding runs the chain
    to its end: the events are those of the call and of the chain, in
    order, and an error is either what [sendSMS] raises at the call or
    the rejection the chain is left with. *)

Module SnsModule.

(** The first argument of the callback: [err], and ['err.stack'] where
    the property is written. *)
Record ErrorReport : Type := {
  err : JsError;
  errStack : option (option string)
}.

(** The arguments of one call of the callback. *)
Record CallbackArgs : Type := {
  first : option ErrorReport;
  second : option string
}.

Definition Callback : Type := CallbackArgs -> M unit.

(** [callback({ err: new Error(...) })]. *)
Definition notInitialized (w : World) : CallbackArgs :=
  let text := "SNS client not initialized. Call createClient() first." in
  {| first := Some {| err := {| message := text; stack := stackOf w text |};
                      errStack := None |};
     second := None |}.

(** [callback(undefined, response.MessageId)]. *)
Definition delivered (response : SnsReply) : CallbackArgs :=
  {| first := None; second := replyMessageId response |}.

(** [callback({ err: error, 'err.stack': error.stack })]. *)
Definition failed (error : JsError) : CallbackArgs :=
  {| first := Some {| err := error; errStack := Some (stack error) |};
     second := None |}.

(** [createClient(options)]: the new client is returned and becomes the
    module's [defaultClient]. *)
Definition createClient (accessKeyId secretAccessKey region : option string)
  (defaultClient : option SNSClient) : SNSClient * option SNSClient :=
  let client := SnsJs.newSNSClient accessKeyId secretAccessKey region in
  (client, Some client).

(** [sendSMS(textmessage, phone, senderid, SMSType, callback, client)],
    read with the module's [defaultClient], in the runtime [platform]. *)
Definition sendSMS (platform : WebCryptoGlobal)
  (textmessage phone senderid SMSType : string) (callback : Callback)
  (client defaultClient : option SNSClient) : M unit :=
  let snsClient := match client with Some _ => client | None => defaultClient end in
  match snsClient with
  | None => w <- ask ;; callback (notInitialized w)
  | Some snsClient =>
      let params := publishParams textmessage phone senderid SMSType in
      tryCatch
        (response <-
           makeRequestOn platform SnsJs.parseXMLResponse snsClient "Publish" params ;;
         callback (delivered response))
        (fun error => callback (failed error))
  end.

End SnsModule.

(** ** verify-phone-server.js: the handlers

    Of the Hono context [c] a handler reads the request body, the
    environment and the request headers, and it answers with
    [c.json(body, status)].  The body is taken as the route's schema types
    it: string and boolean fields, each of which may be absent. *)

Module SendBody.

Record t : Type := {
  phoneNumber : option string;
  code : option string;
  blockVoip : option bool;
  senderId : option string;
  messageTemplate : option string;
  smsType : option string
}.

End SendBody.

Module Server.

Record Context (B : Type) : Type := {
  json : Exc B;
  env : option (string -> option string);
  header : string -> option string
}.

Arguments json {B} _.
Arguments env {B} _.
Arguments header {B} _.

(** [c.json(body, status)]; without a status, 200. *)
Record Reply : Type := {
  status : nat;
  body : list (string * JsVal)
}.

(** [c.env?.NAME]. *)
Definition envOf {B : Type} (c : Context B) (name : string) : option string :=
  match env c with
  | Some table => table name
  | None => None
  end.

Definition truthyString (v : option string) : bool :=
  match v with
  | Some s => negb (String.eqb s EmptyString)
  | None => false
  end.

(** [a || b] on strings that may be [undefined]. *)
Definition orString (a b : option string) : option string :=
  if truthyString a then a else b.

(** [a !== b]. *)
Definition strictNe (a b : option string) : bool :=
  match a, b with
  | Some x, Some y => negb (String.eqb x y)
  | None, None => false
  | _, _ => true
  end.

Definition ofString (v : option string) : JsVal :=
  match v with Some s => VStr s | None => VUndefined end.

Definition ofBool (v : option bool) : JsVal :=
  match v with Some b => VBool b | None => VUndefined end.

Definition ofNumber (v : option nat) : JsVal :=
  match v with Some n => VNum (Z.of_nat n) | None => VUndefined end.

(** [s.charAt(i)]: the empty string out of range. *)
Definition charAt (s : string) (i : nat) : string :=
  match String.get i s with
  | Some c => String c EmptyString
  | None => EmptyString
  end.

(** The loop of [generateCode]: [random i] is what
    [Math.floor(Math.random() * chars.length)] gives at the draw number
    [i]. *)
Fixpoint generateCodeFrom (random : nat -> nat) (i remaining : nat) (result : string)
  : string :=
  match remaining with
  | O => result
  | S remaining' =>
      generateCodeFrom random (S i) remaining'
        (result ++ charAt "0123456789" (random i))
  end.

(** [generateCode(length = 6)]. *)
Definition generateCode (random : nat -> nat) (length : option nat) : string :=
  generateCodeFrom random 0 (orElse length 6) EmptyString.

(** What [authenticateApiKey] does with a request: it answers itself, or
    it calls [next()]. *)
Inductive Passage : Type :=
| Answered (reply : Reply)
| Next.

Definition unauthorized : Reply :=
  {| status := 401;
     body := [ ("success", VBool false);
               ("error", VStr "Unauthorized");
               ("message", VStr "Invalid or missing API key") ] |}.

(** [authenticateApiKey(c, next)]. *)
Definition authenticateApiKey {B : Type} (c : Context B) : Passage :=
  let apiKey :=
    orString (header c "X-API-Key")
      (option_map (Js.replaceFirst "Bearer " EmptyString) (header c "Authorization")) in
  let expectedApiKey := envOf c "API_KEY" in
  if negb (truthyString apiKey) || strictNe apiKey expectedApiKey
  then Answered unauthorized
  else Next.

Definition notConfigured : Reply :=
  {| status := 500;
     body := [ ("success", VBool false);
               ("error", VStr "AWS credentials not configured");
               ("details",
                VStr "Please set AWS_ACCESS_KEY_ID and AWS_SECRET_ACCESS_KEY environment variables") ] |}.

Definition internalError (error : JsError) : Reply :=
  {| status := 500;
     body := [ ("success", VBool false);
               ("error", VStr "Internal server error");
               ("details", VStr (message error)) ] |}.

(** The two answers of the send handler to a result of [verifyPhone]. *)
Definition sendReply (result : Result.t) : Reply :=
  if Result.success result
  then {| status := 200;
          body := [ ("success", VBool true);
                    ("message", ofString (Result.message result));
                    ("messageId", ofString (Result.messageId result));
                    ("code", ofString (Result.code result));
                    ("phoneNumber", ofString (Result.phoneNumber result));
                    ("expiresIn", ofNumber (Result.expiresIn result)) ] |}
  else {| status := 400;
          body := [ ("success", VBool false);
                    ("error", ofString (Result.error result));
                    ("details", ofString (Result.details result));
                    ("isVoip", ofBool (Result.isVoip result)) ] |}.

(** The options the send handler passes to [verifyPhone]. *)
Definition sendOptions (random : nat -> nat) (c : Context SendBody.t) (body : SendBody.t)
  : Options.t :=
  let verificationCode :=
    if truthyString (SendBody.code body)
    then SendBody.code body
    else Some (generateCode random None) in
  {| Options.phoneNumber := SendBody.phoneNumber body;
     Options.code := verificationCode;
     Options.accessKeyId := envOf c "AWS_ACCESS_KEY_ID";
     Options.secretAccessKey := envOf c "AWS_SECRET_ACCESS_KEY";
     Options.awsRegion := orString (envOf c "AWS_REGION") (Some "us-east-1");
     Options.blockVoip := SendBody.blockVoip body;
     Options.voipDetectionMethod := None;
     Options.useLibPhoneNumber := None;
     Options.metadataType := None;
     Options.senderId :=
       orString (orString (SendBody.senderId body) (envOf c "SMS_SENDER_ID")) (Some "Verify");
     Options.smsType := SendBody.smsType body;
     Options.messageTemplate := SendBody.messageTemplate body |}.

(** The handler of [POST /api/send]. *)
Definition sendHandler {crypto : SubtleCrypto} (random : nat -> nat)
  (c : Context SendBody.t) : M Reply :=
  tryCatch
    (body <- liftExc (json c) ;;
     let options := sendOptions random c body in
     if negb (truthyString (Options.accessKeyId options))
        || negb (truthyString (Options.secretAccessKey options))
     then ret notConfigured
     else
       result <- verifyPhone options ;;
       ret (sendReply result))
    (fun error => ret (internalError error)).

End Server.

(** ** Concrete requests and callbacks, for running the handlers *)

Module Requests.

(** A Worker environment with the AWS credentials and the API key set. *)
Definition configured (name : string) : option string :=
  if String.eqb name "AWS_ACCESS_KEY_ID" then Some "AKIDEXAMPLE"
  else if String.eqb name "AWS_SECRET_ACCESS_KEY"
       then Some "wJalrXUtnFEMI/K7MDENG+bPxRfiCYEXAMPLEKEY"
       else if String.eqb name "API_KEY" then Some "s3cret" else None.

Definition sendBody (phone : string) (code : option string) : SendBody.t :=
  {| SendBody.phoneNumber := Some phone;
     SendBody.code := code;
     SendBody.blockVoip := None;
     SendBody.senderId := None;
     SendBody.messageTemplate := None;
     SendBody.smsType := None |}.

Definition context {B : Type} (payload : Exc B) (env : option (string -> option string))
  (headers : list (string * string)) : Server.Context B :=
  {| Server.json := payload;
     Server.env := env;
     Server.header := fun name => getProp name headers |}.

(** [Math.random] stuck on one digit. *)
Definition sevens (i : nat) : nat := 7.

(** A callback that raises when it is told of a success and otherwise
    logs what it was told. *)
Definition fragile : SnsModule.Callback :=
  fun args =>
    match SnsModule.first args with
    | None => throwError "callback failed"
    | Some report => emit (EvWarn (message (SnsModule.err report)))
    end.

End Requests.

(** A request to the phone-lookup service. *)
Definition isLookupEvent (e : Event) : bool :=
  match e with
  | EvFetch url _ => String.prefix "https://www.sent.dm/" url
  | _ => false
  end.

(** A string without an opening brace. *)
Definition noBrace (s : string) : bool :=
  Js.all (fun c => negb (Ascii.eqb c "{")) s.

(** An event that is a console warning. *)
Definition isWarning (e : Event) : bool :=
  match e with
  | EvWarn _ => true
  | _ => false
  end.

(** ** Concrete worlds, for running the embedding *)

Module Worlds.

Definition someDate : JsDate :=
  {| year := 2024; month := 5; day := 17;
     hours := 9; minutes := 30; seconds := 5; milliseconds := 123 |}.

Definition plainError (msg : string) : JsError :=
  {| message := msg; stack := Some ("Error: " ++ msg) |}.

(** A stand-in for libphonenumber-js that knows North American numbers
    written [+1] and ten digits. *)
Definition usNumber (national : string) : PhoneNumber :=
  {| country := Some "US";
     nationalNumber := national;
     isValid := true;
     isNonGeographic := false;
     formatE164 := "+1" ++ national |}.

Definition parseNanp (input : option string) : Exc (option PhoneNumber) :=
  match input with
  | None => inl (plainError "A text for parsing must be a string.")
  | Some s =>
      if String.prefix "+1" s && (String.length s =? 12) && Js.all Js.isDigit (Js.drop 1 s)
      then inr (Some (usNumber (Js.drop 2 s)))
      else inl (plainError "INVALID_COUNTRY")
  end.

Definition reply (isOk : bool) (code : nat) (body : string) (parsed : Exc JsVal) : Response :=
  {| ok := isOk; status := code; text := inr body; json := parsed |}.

Definition notJson : Exc JsVal := inl (plainError "Unexpected token < in JSON").

Definition mk (p : ProcessGlobal) (f : string -> JsObject -> Exc Response) : World :=
  {| processGlobal := p;
     clock := someDate;
     stackOf := fun msg => Some ("Error: " ++ msg);
     parsePhoneNumber := parseNanp;
     getNumberType := fun _ => inr None;
     fetch := f |}.

Definition emptyEnv : ProcessGlobal := ProcessDeclared (Some (fun _ => None)).

(** No network. *)
Definition offline : World :=
  mk emptyEnv (fun _ _ => inl (plainError "fetch failed")).

(** The lookup service answers with [data]; the publish endpoint accepts
    every request. *)
Definition publishOk : Response :=
  reply true 200
    "<PublishResponse><PublishResult><MessageId>abc123</MessageId></PublishResult></PublishResponse>"
    notJson.

Definition online (p : ProcessGlobal) (data : JsVal) : World :=
  mk p (fun url _ =>
          if String.prefix "https://www.sent.dm/" url
          then inr (reply true 200 "{}" (inr data))
          else inr publishOk).

Definition bandwidthCarrier : JsVal :=
  VObj [ ("carrier", VObj [ ("name", VStr "Bandwidth.com"); ("type", VStr "voip") ]);
         ("portability", VObj [ ("line_type", VStr "landline") ]) ].



Definition landlineCarrier : JsVal :=
  VObj [ ("carrier", VObj [ ("name", VStr "Lumen"); ("type", VStr "landline") ]);
         ("portability", VObj [ ("line_type", VStr "landline") ]) ].

(** A runtime without a [process] binding (a browser). *)
Definition browser : World := online ProcessUndeclared landlineCarrier.

(** [offline] read 864 milliseconds later by a runtime that differs in
    everything else: no [process], another engine, another library
    state, a network that answers. *)
Definition otherRun : World :=
  {| processGlobal := ProcessUndeclared;
     clock := {| year := 2024; month := 5; day := 17;
                 hours := 9; minutes := 30; seconds := 5; milliseconds := 987 |};
     stackOf := fun _ => None;
     parsePhoneNumber := fun _ => inr None;
     getNumberType := fun _ => inr (Some "MOBILE");
     fetch := fun _ _ => inr publishOk |}.

(** A client with the example credentials of the AWS documentation. *)
Definition client : SNSClient :=
  newSNSClient (Some "AKIDEXAMPLE") (Some "wJalrXUtnFEMI/K7MDENG+bPxRfiCYEXAMPLEKEY") None.

(** Options that give a phone number and a code and leave the rest to
    the defaults. *)
Definition request (phone code : string) (block : option bool) : Options.t :=
  {| Options.phoneNumber := Some phone;
     Options.code := Some code;
     Options.accessKeyId := None;
     Options.secretAccessKey := None;
     Options.awsRegion := None;
     Options.blockVoip := block;
     Options.voipDetectionMethod := None;
     Options.useLibPhoneNumber := None;
     Options.metadataType := None;
     Options.senderId := None;
     Options.smsType := None;
     Options.messageTemplate := None |}.

(** libphonenumber-js with the full metadata loaded, which types every
    number it parses as a mobile number. *)
Definition fullMetadata : World :=
  {| processGlobal := emptyEnv;
     clock := someDate;
     stackOf := fun msg => Some ("Error: " ++ msg);
     parsePhoneNumber := parseNanp;
     getNumberType := fun _ => inr (Some "MOBILE");
     fetch := fun _ _ => inl (plainError "fetch failed") |}.

End Worlds.

(* ================================================================= *)
(** * Part II.  Theorems *)
(* ================================================================= *)

(** ** Normaliser *)

Example formatPhoneNumber_ten_digits :
  formatPhoneNumber "(123) 456-7890" = "+11234567890".
Proof. reflexivity. Qed.

Example formatPhoneNumber_eleven_digits :
  formatPhoneNumber "1-123-456-7890" = "+11234567890".
Proof. reflexivity. Qed.

Example formatPhoneNumber_edge :
  formatPhoneNumber "123abc456" = "+123456" /\ formatPhoneNumber "" = "+".
Proof. split; reflexivity. Qed.

Lemma filter_of_all (p : ascii -> bool) (s : string) :
  Js.all p s = true -> Js.filter p s = s.
Proof.
  induction s as [|c r IH]; simpl; intro H.
  - reflexivity.
  - apply andb_prop in H as [Hc Hr]. rewrite Hc, (IH Hr). reflexivity.
Qed.

Lemma all_of_filter (p : ascii -> bool) (s : string) :
  Js.all p (Js.filter p s) = true.
Proof.
  induction s as [|c r IH]; simpl.
  - reflexivity.
  - destruct (p c) eqn:Hc; simpl; [rewrite Hc|]; exact IH.
Qed.

Lemma stripNonDigits_digits (s : string) :
  Js.all Js.isDigit s = true -> stripNonDigits s = s.
Proof. apply filter_of_all. Qed.

Lemma stripNonDigits_idempotent (s : string) :
  stripNonDigits (stripNonDigits s) = stripNonDigits s.
Proof. apply stripNonDigits_digits, all_of_filter. Qed.

Lemma stripNonDigits_plus (s : string) :
  stripNonDigits ("+" ++ s) = stripNonDigits s.
Proof. reflexivity. Qed.

Lemma stripNonDigits_plus_one (s : string) :
  stripNonDigits ("+1" ++ s) = "1" ++ stripNonDigits s.
Proof. reflexivity. Qed.

Lemma isDigit19_isDigit (c : ascii) : isDigit19 c = true -> Js.isDigit c = true.
Proof.
  unfold isDigit19, Js.isDigit. intro H.
  apply andb_prop in H as [H1 H2].
  apply Nat.leb_le in H1. apply Nat.leb_le in H2.
  apply andb_true_intro; split; apply Nat.leb_le; lia.
Qed.

(** A string the validator's pattern accepts is a plus sign followed by
    digits only. *)
Lemma phoneRegex_shape (x : string) :
  phoneRegex x = true ->
  exists digits, x = "+" ++ digits /\ Js.all Js.isDigit digits = true.
Proof.
  destruct x as [|p [|c rest]]; simpl; try discriminate.
  - destruct p as [[] [] [] [] [] [] [] []]; discriminate.
  - destruct p as [[] [] [] [] [] [] [] []]; try discriminate.
    intro H.
    apply andb_prop in H as [H _].
    apply andb_prop in H as [H _].
    apply andb_prop in H as [Hc Hrest].
    exists (String c rest). split; [reflexivity|].
    simpl. rewrite (isDigit19_isDigit _ Hc). exact Hrest.
Qed.

Lemma startsWith_plus (d : string) : Js.startsWith ("+" ++ d) "+" = true.
Proof. destruct d; reflexivity. Qed.

(** What the normaliser returns once the digits are known. *)
Lemma formatPhoneNumber_of_plus_digits (d : string) :
  Js.all Js.isDigit d = true ->
  String.length d <> 10 ->
  formatPhoneNumber ("+" ++ d) = "+" ++ d.
Proof.
  intros Hd Hlen. unfold formatPhoneNumber.
  rewrite stripNonDigits_plus, (stripNonDigits_digits _ Hd).
  apply Nat.eqb_neq in Hlen. rewrite Hlen.
  rewrite startsWith_plus.
  destruct ((String.length d =? 11) && Js.startsWith d "1"); reflexivity.
Qed.

Lemma startsWith_one (d : string) : Js.startsWith ("1" ++ d) "1" = true.
Proof. destruct d; reflexivity. Qed.

Lemma formatPhoneNumber_idempotent (s : string) :
  formatPhoneNumber (formatPhoneNumber s) = formatPhoneNumber s.
Proof.
  remember (formatPhoneNumber s) as r eqn:Hr.
  unfold formatPhoneNumber in Hr.
  set (cleaned := stripNonDigits s) in Hr.
  assert (Hc : Js.all Js.isDigit cleaned = true) by apply all_of_filter.
  destruct (String.length cleaned =? 10) eqn:H10.
  - (* ten digits: the result carries eleven, the first of them 1 *)
    apply Nat.eqb_eq in H10. subst r.
    unfold formatPhoneNumber.
    rewrite stripNonDigits_plus_one, (stripNonDigits_digits _ Hc), startsWith_one.
    simpl String.length. rewrite H10. reflexivity.
  - destruct ((String.length cleaned =? 11) && Js.startsWith cleaned "1") eqn:H11.
    + subst r. unfold formatPhoneNumber.
      rewrite stripNonDigits_plus, (stripNonDigits_digits _ Hc), H10, H11.
      reflexivity.
    + destruct (Js.startsWith s "+") eqn:Hplus.
      * subst r. unfold formatPhoneNumber. fold cleaned.
        rewrite H10, H11, Hplus. reflexivity.
      * subst r. unfold formatPhoneNumber.
        rewrite stripNonDigits_plus, (stripNonDigits_digits _ Hc), H10, H11.
        rewrite startsWith_plus. reflexivity.
Qed.

(** What holds of the normaliser on E.164 input.  A string in E.164 form
    (accepted by the validator's pattern [^\+[1-9]\d{1,14}$]) is returned
    unchanged by [formatPhoneNumber] provided it does not hold exactly
    ten digits, and [formatPhoneNumber] is idempotent on every string. *)
Theorem formatPhoneNumber_e164_fixed_and_idempotent (x s : string) :
  (phoneRegex x = true ->
   String.length (stripNonDigits x) <> 10 ->
   formatPhoneNumber x = x) /\
  formatPhoneNumber (formatPhoneNumber s) = formatPhoneNumber s.
Proof.
  split; [|apply formatPhoneNumber_idempotent].
  intros Hx Hlen.
  destruct (phoneRegex_shape x Hx) as [d [-> Hd]].
  rewrite stripNonDigits_plus, (stripNonDigits_digits _ Hd) in Hlen.
  apply formatPhoneNumber_of_plus_digits; assumption.
Qed.

Lemma formatPhoneNumber_e164_fixed_and_idempotent_witness :
  formatPhoneNumber "+44123456789" = "+44123456789" /\
  formatPhoneNumber (formatPhoneNumber "(206) 555-0100") = formatPhoneNumber "(206) 555-0100".
Proof.
  destruct (formatPhoneNumber_e164_fixed_and_idempotent "+44123456789" "(206) 555-0100")
    as [Hfixed Hidem].
  split; [apply Hfixed|exact Hidem].
  - reflexivity.
  - simpl. discriminate.
Defined.

(** C7.  [formatPhoneNumber] does not return every E.164 string
    unchanged: ["+1234567890"] is in E.164 form (the validator accepts
    it), and the normaliser, which counts the digits before it looks at
    the leading plus sign, returns ["+11234567890"]. *)
Theorem formatPhoneNumber_rewrites_ten_digit_e164 :
  isValidPhoneNumberBasic "+1234567890" = true /\
  formatPhoneNumber "+1234567890" = "+11234567890" /\
  formatPhoneNumber "+1234567890" <> "+1234567890".
Proof.
  split; [reflexivity|]. split; [reflexivity|]. discriminate.
Qed.

(** ** Running the monad *)

Lemma tryCatch_returns {A : Type} (m : M A) (h : JsError -> M A) (w : World) :
  (forall e, exists a, fst (h e w) = inr a) ->
  exists a, fst (tryCatch m h w) = inr a.
Proof.
  intro Hh. unfold tryCatch.
  destruct (m w) as [[e|a] t].
  - destruct (Hh e) as [a Ha]. destruct (h e w) as [r t']. exists a. exact Ha.
  - exists a. reflexivity.
Qed.

Lemma tryCatch_absorbs {A : Type} (m : M A) (h : JsError -> M A) (w : World) (a : A) :
  (forall e, fst (h e w) = inr a) ->
  fst (m w) = inr a \/ (exists e, fst (m w) = inl e) ->
  fst (tryCatch m h w) = inr a.
Proof.
  intros Hh Hm. unfold tryCatch.
  destruct (m w) as [[e|a'] t]; simpl in Hm.
  - specialize (Hh e). destruct (h e w) as [r t']. exact Hh.
  - destruct Hm as [Hm|[e He]]; [exact Hm|discriminate].
Qed.




(** ** VoIP classifier: external lookup *)

Lemma member_field (k : string) (v : JsVal) (w : World) :
  truthy v = true -> member k v w = (inr (field k v), []).
Proof. destruct v; simpl; intro H; try discriminate; reflexivity. Qed.






Section LookupVerdict.

Variables (data : JsVal) (w : World).
Hypothesis data_truthy : truthy data = true.
Hypothesis carrier_truthy : truthy (field "carrier" data) = true.

Let carrier := field "carrier" data.







End LookupVerdict.

(** The classifier in closed form: it always returns, and what. *)
Lemma isPhoneNumberVoip_run (phone : string) (w : World) :
  fst (isPhoneNumberVoip phone w) =
  inr match fetch w (lookupUrl phone) lookupHeaders with
      | inl _ => false
      | inr r =>
          if negb (ok r) then false
          else match json r with
               | inl _ => false
               | inr data =>
                   if negb (truthy data) then false
                   else if negb (truthy (field "carrier" data)) then false
                   else match fst (lookupVerdict data w) with
                        | inr verdict => verdict
                        | inl _ => false
                        end
               end
      end.
Proof.
  unfold isPhoneNumberVoip, lookupHeaders, tryCatch, bind, emit, ask, liftExc, ret.
  destruct (fetch w (lookupUrl phone) [("Accept", "application/json")]) as [e|r];
    [reflexivity|].
  destruct (ok r); [|reflexivity]. cbn [negb].
  destruct (json r) as [e|data]; [reflexivity|].
  destruct (truthy data) eqn:Hdata; [|reflexivity]. cbn [negb].
  rewrite (member_field "carrier" data w Hdata).
  destruct (truthy (field "carrier" data)); [|reflexivity]. cbn [negb].
  destruct (lookupVerdict data w) as [[e|verdict] t]; reflexivity.
Qed.





(** The verdict is decided from the left: a carrier name holding
    [bandwidth] gives [true] whatever else the reply holds or lacks. *)
Example isPhoneNumberVoip_name_alone_decides :
  fst (isPhoneNumberVoip "+12065550100"
         (Worlds.online Worlds.emptyEnv
            (VObj [ ("carrier", VObj [ ("name", VStr "Bandwidth.com") ]) ]))) = inr true.
Proof. reflexivity. Qed.

Example isPhoneNumberVoip_mobile_line :
  fst (isPhoneNumberVoip "+12065550100"
         (Worlds.online Worlds.emptyEnv
            (VObj [ ("carrier", VObj [ ("name", VStr "Verizon Wireless"); ("type", VStr "mobile") ]);
                    ("portability", VObj [ ("line_type", VStr "mobile") ]) ]))) = inr true.
Proof. reflexivity. Qed.

(** ** VoIP classifier: local heuristic *)

(** Without the number-type oracle the cascade is rules 1, 2 and the
    pattern rules, in that order. *)
Lemma isPhoneNumberVoipLibPhoneNumber_minimal
  (phone metadataType : string) (w : World) (parsed : PhoneNumber) :
  parsePhoneNumber w (Some phone) = inr (Some parsed) ->
  isValid parsed = true ->
  String.eqb metadataType "full" = false ->
  isPhoneNumberVoipLibPhoneNumber phone metadataType w =
  (inr (hasVoipAreaCode parsed || isNonGeographic parsed ||
        patternVerdict (nationalNumber parsed)), []).
Proof.
  intros Hparse Hvalid Hmeta.
  unfold isPhoneNumberVoipLibPhoneNumber, tryCatch, bind, ask, liftExc, ret.
  rewrite Hparse, Hvalid, Hmeta. cbn [negb].
  destruct (hasVoipAreaCode parsed); [reflexivity|].
  destruct (isNonGeographic parsed); reflexivity.
Qed.

(** Malformed input: a number the library cannot parse, or finds invalid,
    is never classified as VoIP. *)
Lemma isPhoneNumberVoipLibPhoneNumber_unparsed
  (phone metadataType : string) (w : World) :
  (forall parsed, parsePhoneNumber w (Some phone) = inr (Some parsed) ->
                  isValid parsed = false) ->
  fst (isPhoneNumberVoipLibPhoneNumber phone metadataType w) = inr false.
Proof.
  intro H.
  unfold isPhoneNumberVoipLibPhoneNumber, tryCatch, bind, ask, liftExc, ret, emit.
  destruct (parsePhoneNumber w (Some phone)) as [e|[parsed|]]; try reflexivity.
  rewrite (H parsed eq_refl). reflexivity.
Qed.

(** C4, as the code has it.  With minimal metadata the classifier answers
    [true] for a valid US number whose national number is ["8005551234"],
    by the reserved-prefix rule, and it also answers [true] for a valid
    number whose national number is ["2065551234"]: the prefix rule does
    not apply, the repeated-digit rule matches the run [555]. *)
Theorem isPhoneNumberVoipLibPhoneNumber_examples
  (phone metadataType : string) (w : World) (parsed : PhoneNumber) :
  parsePhoneNumber w (Some phone) = inr (Some parsed) ->
  isValid parsed = true ->
  String.eqb metadataType "full" = false ->
  (country parsed = Some "US" ->
   nationalNumber parsed = "8005551234" ->
   hasVoipAreaCode parsed = true /\
   fst (isPhoneNumberVoipLibPhoneNumber phone metadataType w) = inr true) /\
  (nationalNumber parsed = "2065551234" ->
   hasVoipAreaCode parsed = false /\
   hasRepeatedDigits (nationalNumber parsed) = true /\
   fst (isPhoneNumberVoipLibPhoneNumber phone metadataType w) = inr true).
Proof.
  intros Hparse Hvalid Hmeta.
  rewrite (isPhoneNumberVoipLibPhoneNumber_minimal _ _ _ _ Hparse Hvalid Hmeta).
  split.
  - intros Hcountry Hnational.
    assert (Hrule : hasVoipAreaCode parsed = true).
    { unfold hasVoipAreaCode. rewrite Hcountry, Hnational. reflexivity. }
    rewrite Hrule. split; reflexivity.
  - intro Hnational.
    assert (Hrule : hasVoipAreaCode parsed = false).
    { unfold hasVoipAreaCode. rewrite Hnational.
      destruct (country parsed) as [c|]; [|reflexivity].
      apply andb_false_r. }
    rewrite Hrule, Hnational. split; [reflexivity|]. split; [reflexivity|].
    simpl fst. f_equal.
    destruct (isNonGeographic parsed); reflexivity.
Qed.

Lemma isPhoneNumberVoipLibPhoneNumber_examples_witness :
  (hasVoipAreaCode (Worlds.usNumber "8005551234") = true /\
   fst (isPhoneNumberVoipLibPhoneNumber "+18005551234" "minimal" Worlds.offline) = inr true).
Proof.
  destruct (isPhoneNumberVoipLibPhoneNumber_examples
              "+18005551234" "minimal" Worlds.offline (Worlds.usNumber "8005551234")
              eq_refl eq_refl eq_refl) as [Htollfree _].
  apply Htollfree; reflexivity.
Defined.

(** C4 as written fails on its second number: the classifier does not
    answer [false] for the national number ["2065551234"]. *)
Lemma isPhoneNumberVoipLibPhoneNumber_flags_2065551234 :
  nationalNumber (Worlds.usNumber "2065551234") = "2065551234" /\
  parsePhoneNumber Worlds.offline (Some "+12065551234") =
    inr (Some (Worlds.usNumber "2065551234")) /\
  fst (isPhoneNumberVoipLibPhoneNumber "+12065551234" "minimal" Worlds.offline) = inr true /\
  fst (isPhoneNumberVoipLibPhoneNumber "+12065551234" "minimal" Worlds.offline) <> inr false.
Proof.
  split; [reflexivity|]. split; [reflexivity|]. split; [reflexivity|].
  discriminate.
Qed.

Example pattern_rules :
  hasRepeatedDigits "2065551234" = true /\
  hasSequentialDigits "2065551234" = true /\
  hasSequentialDigits "2065391237" = false /\
  hasVoipEnding "2065394444" = true /\
  hasFewUniqueDigits "2022022020" = true /\
  patternVerdict "2065390147" = false.
Proof. repeat split; reflexivity. Qed.

(** ** Response extractor *)

Lemma prefix_app (p s : string) : String.prefix p (p ++ s) = true.
Proof.
  induction p as [|c p IH]; simpl.
  - destruct s; reflexivity.
  - destruct (ascii_dec c c) as [_|n]; [exact IH|contradiction].
Qed.

Lemma drop_app (p s : string) : Js.drop (String.length p) (p ++ s) = s.
Proof. induction p as [|c p IH]; simpl; [destruct s; reflexivity|exact IH]. Qed.

Lemma app_assoc_string (a b c : string) : (a ++ b) ++ c = a ++ (b ++ c).
Proof. induction a as [|x a IH]; simpl; [reflexivity|rewrite IH; reflexivity]. Qed.

Lemma spanText_text (v rest : string) :
  isText v = true -> spanText (v ++ String "<" rest) = (v, String "<" rest).
Proof.
  induction v as [|c v IH]; simpl; intro H.
  - reflexivity.
  - apply andb_prop in H as [Hc Hv].
    apply negb_true_iff in Hc. rewrite Hc, (IH Hv). reflexivity.
Qed.

(** The pattern matches where a well-formed element starts. *)
Lemma matchTagHere_element (tag v rest : string) :
  isText v = true -> v <> EmptyString ->
  matchTagHere tag (("<" ++ tag ++ ">") ++ v ++ ("</" ++ tag ++ ">") ++ rest) = Some v.
Proof.
  intros Htext Hne. unfold matchTagHere.
  rewrite prefix_app, drop_app.
  cbn [append].
  rewrite (spanText_text v _ Htext).
  apply String.eqb_neq in Hne. rewrite Hne. cbn [negb andb].
  cbn [String.prefix].
  destruct (ascii_dec "<" "<") as [_|n]; [|contradiction].
  destruct (ascii_dec "/" "/") as [_|n]; [|contradiction].
  rewrite prefix_app. reflexivity.
Qed.

Lemma matchTag_here (tag s v : string) :
  matchTagHere tag s = Some v -> matchTag tag s = Some v.
Proof. intro H. destruct s; cbn [matchTag]; rewrite H; reflexivity. Qed.

Lemma matchTag_later (tag s : string) (c : ascii) :
  matchTag tag (String c s) =
  match matchTagHere tag (String c s) with
  | Some v => Some v
  | None => matchTag tag s
  end.
Proof. reflexivity. Qed.

(** A body that contains an element [<tag>v</tag>] with text [v] always
    yields a match (the text of the leftmost match). *)
Lemma matchTag_contains (tag before v rest : string) :
  isText v = true -> v <> EmptyString ->
  exists found,
    matchTag tag (before ++ ("<" ++ tag ++ ">") ++ v ++ ("</" ++ tag ++ ">") ++ rest)
    = Some found.
Proof.
  intros Htext Hne. induction before as [|c before IH].
  - exists v. apply matchTag_here.
    exact (matchTagHere_element tag v rest Htext Hne).
  - destruct IH as [found IH].
    change (String c before ++ ?x) with (String c (before ++ x)).
    rewrite matchTag_later.
    destruct (matchTagHere tag _) as [early|].
    + exists early. reflexivity.
    + exists found. exact IH.
Qed.

(** The three outcomes of the extractor of verify-phone.ts. *)
Lemma parseXMLResponse_error (xmlText errorCode errorMessage : string) (w : World) :
  matchTag "Code" xmlText = Some errorCode ->
  matchTag "Message" xmlText = Some errorMessage ->
  exists e, fst (parseXMLResponse xmlText w) = inl e /\
            message e = errorCode ++ ": " ++ errorMessage.
Proof.
  intros Hc Hm. unfold parseXMLResponse. rewrite Hc, Hm.
  eexists. split; reflexivity.
Qed.

Lemma parseXMLResponse_message_id (xmlText id : string) (w : World) :
  matchTag "Code" xmlText = None \/ matchTag "Message" xmlText = None ->
  matchTag "MessageId" xmlText = Some id ->
  parseXMLResponse xmlText w = (inr (ReplyMessageId id), []).
Proof.
  intros Hno Hid. unfold parseXMLResponse. rewrite Hid.
  destruct Hno as [-> | ->]; [|destruct (matchTag "Code" xmlText)]; reflexivity.
Qed.

Lemma parseXMLResponse_raw (xmlText : string) (w : World) :
  matchTag "Code" xmlText = None \/ matchTag "Message" xmlText = None ->
  matchTag "MessageId" xmlText = None ->
  parseXMLResponse xmlText w = (inr (ReplyRaw xmlText), []).
Proof.
  intros Hno Hid. unfold parseXMLResponse. rewrite Hid.
  destruct Hno as [-> | ->]; [|destruct (matchTag "Code" xmlText)]; reflexivity.
Qed.

(** A body with both error elements makes the extractor of
    verify-phone.ts raise, wherever the elements stand. *)
Lemma parseXMLResponse_raises_on_error_body
  (a errorCode b errorMessage c : string) (w : World) :
  isText errorCode = true -> errorCode <> EmptyString ->
  isText errorMessage = true -> errorMessage <> EmptyString ->
  exists e,
    fst (parseXMLResponse
           (a ++ "<Code>" ++ errorCode ++ "</Code>" ++ b ++
            "<Message>" ++ errorMessage ++ "</Message>" ++ c) w) = inl e.
Proof.
  intros Hc Hcne Hm Hmne.
  set (body := a ++ "<Code>" ++ errorCode ++ "</Code>" ++ b ++
               "<Message>" ++ errorMessage ++ "</Message>" ++ c).
  assert (E1 : body =
               a ++ ("<" ++ "Code" ++ ">") ++ errorCode ++ ("</" ++ "Code" ++ ">") ++
               (b ++ "<Message>" ++ errorMessage ++ "</Message>" ++ c))
    by reflexivity.
  assert (E2 : body =
               (a ++ "<Code>" ++ errorCode ++ "</Code>" ++ b) ++
               ("<" ++ "Message" ++ ">") ++ errorMessage ++ ("</" ++ "Message" ++ ">") ++ c).
  { unfold body. repeat rewrite app_assoc_string. reflexivity. }
  destruct (matchTag_contains "Code" a errorCode
              (b ++ "<Message>" ++ errorMessage ++ "</Message>" ++ c) Hc Hcne)
    as [foundCode HfoundCode].
  destruct (matchTag_contains "Message" (a ++ "<Code>" ++ errorCode ++ "</Code>" ++ b)
              errorMessage c Hm Hmne)
    as [foundMessage HfoundMessage].
  rewrite <- E1 in HfoundCode. rewrite <- E2 in HfoundMessage.
  destruct (parseXMLResponse_error _ _ _ w HfoundCode HfoundMessage) as [e [He _]].
  exists e. exact He.
Qed.

Example parseXMLResponse_examples (w : World) :
  parseXMLResponse "<MessageId>abc123</MessageId>" w = (inr (ReplyMessageId "abc123"), []) /\
  (exists e,
     parseXMLResponse "<Code>Throttled</Code><Message>rate exceeded</Message>" w = (inl e, []) /\
     message e = "Throttled: rate exceeded") /\
  parseXMLResponse "<ok/>" w = (inr (ReplyRaw "<ok/>"), []).
Proof.
  split; [reflexivity|]. split; [|reflexivity].
  eexists. split; reflexivity.
Qed.

(** C8 at the extractor of src/sns.js.  On a body holding an error code
    and an error message it raises nothing and returns the body as [raw];
    the extractor of verify-phone.ts raises on the same body, with both
    values in the message. *)
Theorem snsjs_parseXMLResponse_returns_error_body_raw (w : World) :
  let body := "<Code>Throttled</Code><Message>rate exceeded</Message>" in
  SnsJs.parseXMLResponse body w = (inr (ReplyRaw body), []) /\
  exists e, parseXMLResponse body w = (inl e, []) /\
            message e = "Throttled: rate exceeded".
Proof.
  split; [reflexivity|].
  eexists. split; reflexivity.
Qed.

(** ** Canonical request and signing key chain *)

Section SigningTheorems.

Context {crypto : SubtleCrypto}.

Let newline : string := String "010" EmptyString.

(** The canonical request is the seven parts, one per line. *)
Lemma canonicalRequest_layout
  (this : SNSClient) (now : JsDate) (method url : string) (headers : JsObject)
  (payload : string) :
  let L := signAt this now method url headers payload in
  canonicalRequest L =
  method ++ newline ++ "/" ++ newline ++ queryOf url ++ newline ++
  sortedHeaders L ++ newline ++ newline ++ signedHeaders L ++ newline ++ payloadHash L.
Proof. reflexivity. Qed.

Lemma getProp_setProp (k v : string) (o : JsObject) :
  getProp k (setProp k v o) = Some v.
Proof.
  induction o as [|[k' v'] o IH]; simpl.
  - rewrite String.eqb_refl. reflexivity.
  - destruct (String.eqb k' k) eqn:E; simpl.
    + rewrite String.eqb_refl. reflexivity.
    + rewrite E. exact IH.
Qed.



(** [sign] reads the clock through [amzDate] only. *)
Lemma signAt_clock (this : SNSClient) (a b : JsDate)
  (method url : string) (headers : JsObject) (payload : string) :
  stripIsoPunctuation (toISOString a) = stripIsoPunctuation (toISOString b) ->
  signAt this a method url headers payload = signAt this b method url headers payload.
Proof. intro H. unfold signAt. rewrite H. reflexivity. Qed.

End SigningTheorems.

(** The compact timestamp drops the milliseconds. *)

Lemma stripIsoPunctuation_step (c : ascii) (r : string) :
  Ascii.eqb c "." = false ->
  stripIsoPunctuation (String c r) =
  (if Ascii.eqb c ":" || Ascii.eqb c "-" then EmptyString else String c EmptyString)
  ++ stripIsoPunctuation r.
Proof.
  intro Hdot. cbn [stripIsoPunctuation]. rewrite Hdot.
  destruct (Ascii.eqb c ":" || Ascii.eqb c "-"); [reflexivity|].
  destruct r as [|d1 [|d2 [|d3 r']]]; reflexivity.
Qed.

Lemma stripIsoPunctuation_app (p rest : string) :
  noDot p = true ->
  stripIsoPunctuation (p ++ rest) = stripIsoPunctuation p ++ stripIsoPunctuation rest.
Proof.
  induction p as [|c p IH]; intro H.
  - reflexivity.
  - simpl in H. apply andb_prop in H as [Hc Hp]. apply negb_true_iff in Hc.
    change (String c p ++ rest) with (String c (p ++ rest)).
    rewrite (stripIsoPunctuation_step c (p ++ rest) Hc).
    rewrite (stripIsoPunctuation_step c p Hc).
    rewrite (IH Hp), app_assoc_string. reflexivity.
Qed.

Lemma noDot_app (a b : string) : noDot (a ++ b) = noDot a && noDot b.
Proof.
  induction a as [|c a IH]; simpl; [reflexivity|].
  unfold noDot in *. simpl. rewrite IH, andb_assoc. reflexivity.
Qed.

Lemma digits_noDot (s : string) : Js.all Js.isDigit s = true -> noDot s = true.
Proof.
  induction s as [|c s IH]; simpl; intro H; [reflexivity|].
  apply andb_prop in H as [Hc Hs]. unfold noDot in *. simpl.
  rewrite (IH Hs), andb_true_r.
  destruct (Ascii.eqb_spec c ".") as [->|_]; [discriminate Hc|reflexivity].
Qed.

Lemma string_of_uint_digits (u : Decimal.uint) :
  Js.all Js.isDigit (NilEmpty.string_of_uint u) = true.
Proof. induction u; simpl; try reflexivity; exact IHu. Qed.

Lemma ofNat_digits (n : nat) : Js.all Js.isDigit (Js.ofNat n) = true.
Proof.
  unfold Js.ofNat, NilZero.string_of_uint.
  destruct (Nat.to_uint n) eqn:E; try reflexivity;
    rewrite <- E; apply string_of_uint_digits.
Qed.

Lemma all_app (p : ascii -> bool) (a b : string) :
  Js.all p (a ++ b) = Js.all p a && Js.all p b.
Proof.
  induction a as [|c a IH]; simpl; [reflexivity|].
  rewrite IH, andb_assoc. reflexivity.
Qed.

Lemma repeatChar_all (p : ascii -> bool) (c : ascii) (n : nat) :
  p c = true -> Js.all p (Js.repeatChar c n) = true.
Proof. intro H. induction n as [|n IH]; simpl; [reflexivity|]. rewrite H, IH. reflexivity. Qed.

Lemma padNat_digits (width n : nat) : Js.all Js.isDigit (padNat width n) = true.
Proof.
  unfold padNat, Js.padStart. rewrite all_app, ofNat_digits, andb_true_r.
  apply repeatChar_all. reflexivity.
Qed.

Lemma padNat_noDot (width n : nat) : noDot (padNat width n) = true.
Proof. apply digits_noDot, padNat_digits. Qed.

Lemma isoYear_noDot (y : Z) : noDot (isoYear y) = true.
Proof.
  unfold isoYear.
  destruct ((0 <=? y)%Z && (y <=? 9999)%Z); [apply padNat_noDot|].
  rewrite noDot_app, padNat_noDot. destruct (y <? 0)%Z; reflexivity.
Qed.

(** The fraction of every millisecond count below 1000 is dropped whole. *)
Lemma fraction_dropped (ms : nat) :
  ms < 1000 -> stripIsoPunctuation ("." ++ padNat 3 ms ++ "Z") = "Z".
Proof.
  intro H.
  assert (Hall : List.forallb
                   (fun ms => String.eqb (stripIsoPunctuation ("." ++ padNat 3 ms ++ "Z")) "Z")
                   (List.seq 0 1000) = true) by (vm_compute; reflexivity).
  rewrite List.forallb_forall in Hall.
  apply String.eqb_eq, Hall, List.in_seq. lia.
Qed.

Lemma toISOString_split (d : JsDate) :
  toISOString d = isoToSeconds d ++ "." ++ padNat 3 (milliseconds d) ++ "Z".
Proof.
  unfold toISOString, isoToSeconds. repeat rewrite app_assoc_string. reflexivity.
Qed.

Lemma isoToSeconds_noDot (d : JsDate) : noDot (isoToSeconds d) = true.
Proof.
  unfold isoToSeconds.
  repeat rewrite noDot_app. repeat rewrite padNat_noDot. rewrite isoYear_noDot.
  reflexivity.
Qed.

Lemma amzDate_to_seconds (d : JsDate) :
  milliseconds d < 1000 ->
  stripIsoPunctuation (toISOString d) = stripIsoPunctuation (isoToSeconds d) ++ "Z".
Proof.
  intro H. rewrite toISOString_split.
  rewrite (stripIsoPunctuation_app _ _ (isoToSeconds_noDot d)).
  rewrite (fraction_dropped _ H). reflexivity.
Qed.

Lemma amzDate_sameSecond (a b : JsDate) :
  sameSecond a b ->
  stripIsoPunctuation (toISOString a) = stripIsoPunctuation (toISOString b).
Proof.
  intros (Hy & Hmo & Hd & Hh & Hmi & Hs & Ha & Hb).
  rewrite (amzDate_to_seconds a Ha), (amzDate_to_seconds b Hb).
  unfold isoToSeconds. rewrite Hy, Hmo, Hd, Hh, Hmi, Hs. reflexivity.
Qed.

Example amzDate_example :
  stripIsoPunctuation (toISOString Worlds.someDate) = "20240517T093005Z" /\
  toISOString Worlds.someDate = "2024-05-17T09:30:05.123Z".
Proof. split; reflexivity. Qed.

(** C3.  Two runs of [sign] on the same client, method, URL, headers and
    payload, in any two worlds whose clocks read the same second, return
    the same signed headers and compute the same signature (and every
    other intermediate value).  The worlds may differ in everything else:
    environment variables, network, library state, milliseconds. *)
Theorem sign_reproducible {crypto : SubtleCrypto}
  (this : SNSClient) (method url : string) (headers : JsObject) (payload : string)
  (w1 w2 : World) :
  sameSecond (clock w1) (clock w2) ->
  sign this method url headers payload w1 = sign this method url headers payload w2 /\
  signature (signAt this (clock w1) method url headers payload) =
  signature (signAt this (clock w2) method url headers payload) /\
  signAt this (clock w1) method url headers payload =
  signAt this (clock w2) method url headers payload.
Proof.
  intro Hclock.
  assert (E : signAt this (clock w1) method url headers payload =
              signAt this (clock w2) method url headers payload)
    by (apply signAt_clock, amzDate_sameSecond, Hclock).
  split; [|split; [rewrite E; reflexivity|exact E]].
  unfold sign, bind, ask, emit, ret. cbn [fst snd]. rewrite E. reflexivity.
Qed.

Lemma sign_reproducible_witness :
  sign Worlds.client "GET" "https://sns.us-east-1.amazonaws.com/?Action=Publish"
       [("Content-Type", "text/plain")] EmptyString Worlds.offline =
  sign Worlds.client "GET" "https://sns.us-east-1.amazonaws.com/?Action=Publish"
       [("Content-Type", "text/plain")] EmptyString Worlds.otherRun.
Proof.
  apply (sign_reproducible Worlds.client "GET"
           "https://sns.us-east-1.amazonaws.com/?Action=Publish"
           [("Content-Type", "text/plain")] EmptyString Worlds.offline Worlds.otherRun).
  unfold sameSecond. simpl. repeat split; lia.
Defined.

(** ** Canonical headers *)

Section CanonicalHeaders.

Context {crypto : SubtleCrypto}.

Lemma signedHeaders_unfold
  (this : SNSClient) (now : JsDate) (method url : string) (headers : JsObject)
  (payload : string) :
  signedHeaders (signAt this now method url headers payload) =
  Js.join ";" (List.map Js.toLowerCase (sort (keys (headersToSign this now headers payload)))).
Proof. reflexivity. Qed.

Lemma map_fixed {A : Type} (f : A -> A) (l : list A) :
  (forall x, In x l -> f x = x) -> List.map f l = l.
Proof.
  induction l as [|a l IH]; simpl; intro H; [reflexivity|].
  rewrite (H a (or_introl eq_refl)), IH; [reflexivity|].
  intros x Hx. apply H. right. exact Hx.
Qed.

Lemma in_insertSorted (x y : string) (l : list string) :
  In x (insertSorted y l) -> x = y \/ In x l.
Proof.
  induction l as [|z l IH]; simpl.
  - intros [H|[]]. left. symmetry. exact H.
  - destruct (String.leb y z); simpl.
    + intros [H|H]; [left; symmetry; exact H|right; exact H].
    + intros [H|H]; [right; left; exact H|].
      destruct (IH H) as [E|I]; [left; exact E|right; right; exact I].
Qed.

Lemma in_sort (x : string) (l : list string) : In x (sort l) -> In x l.
Proof.
  induction l as [|y l IH]; simpl; [tauto|].
  intro H. destruct (in_insertSorted _ _ _ H) as [E|I].
  - left. symmetry. exact E.
  - right. apply IH, I.
Qed.

Lemma in_keys_setProp (x k v : string) (o : JsObject) :
  In x (keys (setProp k v o)) -> x = k \/ In x (keys o).
Proof.
  induction o as [|[k' v'] o IH]; simpl.
  - intros [H|[]]. left. symmetry. exact H.
  - destruct (String.eqb_spec k' k) as [->|Hne]; simpl.
    + intros [H|H]; [left; symmetry; exact H|right; right; exact H].
    + intros [H|H]; [right; left; exact H|].
      destruct (IH H) as [E|I]; [left; exact E|right; right; exact I].
Qed.

(** Where the caller's header names are already in lower case, the signed
    header list is the lower-cased names sorted, as the specification
    words it. *)
Lemma signedHeaders_of_lowercase_names
  (this : SNSClient) (now : JsDate) (method url : string) (headers : JsObject)
  (payload : string) :
  (forall name, In name (keys headers) -> Js.toLowerCase name = name) ->
  signedHeaders (signAt this now method url headers payload) =
  Spec.signedHeaderList (headersToSign this now headers payload).
Proof.
  intro Hlower. rewrite signedHeaders_unfold. unfold Spec.signedHeaderList, Spec.canonicalNames.
  assert (Hall : forall name,
             In name (keys (headersToSign this now headers payload)) ->
             Js.toLowerCase name = name).
  { intros name Hin. unfold headersToSign in Hin.
    apply in_keys_setProp in Hin as [->|Hin]; [reflexivity|].
    apply in_keys_setProp in Hin as [->|Hin]; [reflexivity|].
    apply in_keys_setProp in Hin as [->|Hin]; [reflexivity|].
    apply Hlower, Hin. }
  rewrite (map_fixed Js.toLowerCase (keys _) Hall).
  rewrite map_fixed; [reflexivity|].
  intros name Hin. apply Hall, in_sort, Hin.
Qed.

(** The one header [makeRequest] passes, [Content-Type], happens to sort
    the same way before and after lower-casing. *)
Example signedHeaders_of_makeRequest (this : SNSClient) (now : JsDate) (url : string) :
  let headers := [("Content-Type", "application/x-www-form-urlencoded; charset=utf-8")] in
  signedHeaders (signAt this now "GET" url headers EmptyString) =
    "content-type;host;x-amz-content-sha256;x-amz-date" /\
  Spec.signedHeaderList (headersToSign this now headers EmptyString) =
    "content-type;host;x-amz-content-sha256;x-amz-date".
Proof. split; reflexivity. Qed.

(** C1 at a header map with an upper-case name.  [sign] sorts the names
    as the caller wrote them and lower-cases afterwards, so
    [X-Amz-Security-Token] (upper-case [X] sorts before every lower-case
    letter) comes first in the signed-header list and in the canonical
    headers, where the lower-cased names sorted put it last. *)
Theorem sign_sorts_before_lowercasing
  (this : SNSClient) (now : JsDate) (method url payload : string) :
  let headers := [("X-Amz-Security-Token", "token")] in
  let L := signAt this now method url headers payload in
  signedHeaders L = "x-amz-security-token;host;x-amz-content-sha256;x-amz-date" /\
  Spec.signedHeaderList (headersToSign this now headers payload) =
    "host;x-amz-content-sha256;x-amz-date;x-amz-security-token" /\
  signedHeaders L <> Spec.signedHeaderList (headersToSign this now headers payload) /\
  sortedHeaders L =
    Js.join (String "010" EmptyString)
      [ "x-amz-security-token:token";
        "host:sns." ++ region this ++ ".amazonaws.com";
        "x-amz-content-sha256:" ++ payloadHash L;
        "x-amz-date:" ++ amzDate L ].
Proof.
  cbv zeta.
  split; [reflexivity|]. split; [reflexivity|]. split; [discriminate|].
  reflexivity.
Qed.

End CanonicalHeaders.

(** ** The orchestrator *)

(** Inversion of a sequence of two statements. *)
Lemma bind_inl {A B : Type} (m : M A) (k : A -> M B) (w : World) (e : JsError) :
  fst (bind m k w) = inl e ->
  fst (m w) = inl e \/ exists a, fst (m w) = inr a /\ fst (k a w) = inl e.
Proof.
  unfold bind. destruct (m w) as [[e'|a] t]; simpl.
  - intro H. left. injection H as ->. reflexivity.
  - destruct (k a w) as [r t'] eqn:E. simpl. intro H.
    right. exists a. rewrite E. split; [reflexivity|exact H].
Qed.

Lemma bind_inr {A B : Type} (m : M A) (k : A -> M B) (w : World) (b : B) :
  fst (bind m k w) = inr b ->
  exists a, fst (m w) = inr a /\ fst (k a w) = inr b.
Proof.
  unfold bind. destruct (m w) as [[e'|a] t]; simpl.
  - discriminate.
  - destruct (k a w) as [r t'] eqn:E. simpl. intro H.
    exists a. rewrite E. split; [reflexivity|exact H].
Qed.

Lemma snd_bind {A B : Type} (m : M A) (k : A -> M B) (w : World) :
  snd (bind m k w) =
  match fst (m w) with
  | inl _ => snd (m w)
  | inr a => (snd (m w) ++ snd (k a w))%list
  end.
Proof.
  unfold bind. destruct (m w) as [[e|a] t]; simpl; [reflexivity|].
  destruct (k a w); reflexivity.
Qed.

(** *** The destructuring *)

Lemma processEnv_declared (name : string) (w : World) (env : option (string -> option string)) :
  processGlobal w = ProcessDeclared env ->
  processEnv name w =
  (inr match env with Some table => table name | None => None end, []).
Proof.
  intro H. unfold processEnv, bind, ask. rewrite H. destruct env; reflexivity.
Qed.

Lemma processEnv_undeclared (name : string) (w : World) :
  processGlobal w = ProcessUndeclared ->
  processEnv name w =
  (inl {| message := "process is not defined";
          stack := stackOf w "process is not defined" |}, []).
Proof. intro H. unfold processEnv, bind, ask. rewrite H. reflexivity. Qed.


Lemma bindCredentials_declared (options : Options.t) (w : World)
  (env : option (string -> option string)) :
  processGlobal w = ProcessDeclared env ->
  bindCredentials options w =
  (inr (resolved (Options.accessKeyId options) env "AWS_ACCESS_KEY_ID",
        resolved (Options.secretAccessKey options) env "AWS_SECRET_ACCESS_KEY",
        resolved (Options.awsRegion options) env "AWS_REGION"), []).
Proof.
  intro H. unfold bindCredentials, bind, orElseM, resolved.
  destruct (Options.accessKeyId options), (Options.secretAccessKey options),
    (Options.awsRegion options);
    repeat rewrite (processEnv_declared _ w env H); reflexivity.
Qed.

Lemma bindCredentials_given (options : Options.t) (w : World) (keyId secret region : string) :
  Options.accessKeyId options = Some keyId ->
  Options.secretAccessKey options = Some secret ->
  Options.awsRegion options = Some region ->
  bindCredentials options w = (inr (Some keyId, Some secret, Some region), []).
Proof. intros H1 H2 H3. unfold bindCredentials. rewrite H1, H2, H3. reflexivity. Qed.

(** Without a [process] binding the first absent credential or region
    raises, before the [try] statement is entered. *)
Lemma bindCredentials_undeclared (options : Options.t) (w : World) :
  processGlobal w = ProcessUndeclared ->
  Options.accessKeyId options = None \/
  Options.secretAccessKey options = None \/
  Options.awsRegion options = None ->
  bindCredentials options w =
  (inl {| message := "process is not defined";
          stack := stackOf w "process is not defined" |}, []).
Proof.
  intros H Hmissing. unfold bindCredentials, bind, orElseM.
  destruct (Options.accessKeyId options), (Options.secretAccessKey options),
    (Options.awsRegion options);
    repeat rewrite (processEnv_undeclared _ w H); try reflexivity.
  destruct Hmissing as [E|[E|E]]; discriminate E.
Qed.

Lemma bindCredentials_silent (options : Options.t) (w : World) :
  snd (bindCredentials options w) = [].
Proof.
  unfold bindCredentials, orElseM, processEnv, bind, ask, ret, throwEngine.
  destruct (Options.accessKeyId options), (Options.secretAccessKey options),
    (Options.awsRegion options), (processGlobal w) as [|[env|]]; reflexivity.
Qed.

Lemma tryCatch_inl {A : Type} (m : M A) (h : JsError -> M A) (w : World) (e : JsError) :
  fst (tryCatch m h w) = inl e ->
  exists thrown, fst (m w) = inl thrown /\ fst (h thrown w) = inl e.
Proof.
  unfold tryCatch. destruct (m w) as [[thrown|a] t]; simpl.
  - destruct (h thrown w) as [r t'] eqn:E. simpl. intro H.
    exists thrown. rewrite E. split; [reflexivity|exact H].
  - discriminate.
Qed.

Lemma snd_tryCatch {A : Type} (m : M A) (h : JsError -> M A) (w : World) :
  snd (tryCatch m h w) =
  match fst (m w) with
  | inl e => (snd (m w) ++ snd (h e w))%list
  | inr _ => snd (m w)
  end.
Proof.
  unfold tryCatch. destruct (m w) as [[e|a] t]; simpl; [|reflexivity].
  destruct (h e w); reflexivity.
Qed.

Lemma noTransport_app (a b : list Event) :
  noTransport (a ++ b) = noTransport a && noTransport b.
Proof. unfold noTransport. rewrite List.existsb_app, negb_orb. reflexivity. Qed.

(** *** Normalising and validating *)

Lemma normalise_log (useLib : bool) (phone : option string) (w : World) :
  noTransport (snd (normalise useLib phone w)) = true.
Proof.
  unfold normalise, formatPhoneNumberLibPhoneNumber, formatPhoneNumberCall,
    tryCatch, bind, ask, liftExc, ret, emit, throwEngine.
  destruct useLib; [|destruct phone; reflexivity].
  destruct (parsePhoneNumber w phone) as [e|[parsed|]], phone;
    try destruct (isValid parsed); reflexivity.
Qed.

Lemma normalise_error (useLib : bool) (phone : option string) (w : World) (e : JsError) :
  fst (normalise useLib phone w) = inl e ->
  message e = readOfUndefined "replace".
Proof.
  unfold normalise, formatPhoneNumberLibPhoneNumber, formatPhoneNumberCall,
    tryCatch, bind, ask, liftExc, ret, emit, throwEngine.
  destruct useLib.
  - destruct (parsePhoneNumber w phone) as [e'|[parsed|]], phone;
      try destruct (isValid parsed); simpl; intro H;
      try discriminate H; injection H as <-; reflexivity.
  - destruct phone; simpl; intro H; [discriminate H|].
    injection H as <-. reflexivity.
Qed.

Lemma isValidPhoneNumber_returns (phone : string) (useLib : bool) (w : World) :
  exists valid, fst (isValidPhoneNumber phone useLib w) = inr valid.
Proof.
  unfold isValidPhoneNumber, tryCatch, bind, ask, liftExc, ret, emit.
  destruct useLib; [|eexists; reflexivity].
  destruct (parsePhoneNumber w (Some phone)) as [e|[parsed|]]; eexists; reflexivity.
Qed.

Lemma isValidPhoneNumber_log (phone : string) (useLib : bool) (w : World) :
  noTransport (snd (isValidPhoneNumber phone useLib w)) = true.
Proof.
  unfold isValidPhoneNumber, tryCatch, bind, ask, liftExc, ret, emit.
  destruct useLib; [|reflexivity].
  destruct (parsePhoneNumber w (Some phone)) as [e|[parsed|]]; reflexivity.
Qed.

(** *** Classifying *)

Lemma member_silent (k : string) (v : JsVal) (w : World) : snd (member k v w) = [].
Proof. destruct v; reflexivity. Qed.

Lemma callToLowerCase_silent (expr : string) (v : JsVal) (w : World) :
  snd (callToLowerCase expr v w) = [].
Proof. destruct v; reflexivity. Qed.

Lemma bind_silent {A B : Type} (m : M A) (k : A -> M B) (w : World) :
  snd (m w) = [] -> (forall a, snd (k a w) = []) -> snd (bind m k w) = [].
Proof.
  intros Hm Hk. rewrite snd_bind, Hm.
  destruct (fst (m w)); [reflexivity|apply Hk].
Qed.

Lemma lookupVerdict_silent (data : JsVal) (w : World) : snd (lookupVerdict data w) = [].
Proof.
  unfold lookupVerdict.
  repeat first
    [ apply bind_silent; [first [apply member_silent | apply callToLowerCase_silent]|intro]
    | match goal with |- snd ((if ?c then _ else _) w) = [] => destruct c end
    | reflexivity ].
Qed.

Lemma isPhoneNumberVoip_log (phone : string) (w : World) :
  noTransport (snd (isPhoneNumberVoip phone w)) = true.
Proof.
  unfold isPhoneNumberVoip, tryCatch, bind, emit, ask, liftExc, ret.
  destruct (fetch w (lookupUrl phone) [("Accept", "application/json")]) as [e|r];
    [reflexivity|].
  destruct (ok r); [|reflexivity]. cbn [negb].
  destruct (json r) as [e|data]; [reflexivity|].
  destruct (truthy data) eqn:Hdata; [|reflexivity]. cbn [negb].
  rewrite (member_field "carrier" data w Hdata).
  destruct (truthy (field "carrier" data)); [|reflexivity]. cbn [negb].
  pose proof (lookupVerdict_silent data w) as Hs.
  destruct (lookupVerdict data w) as [[e|verdict] t]; simpl in Hs; subst t; reflexivity.
Qed.

Lemma isPhoneNumberVoipLibPhoneNumber_returns (phone metadataType : string) (w : World) :
  exists verdict, fst (isPhoneNumberVoipLibPhoneNumber phone metadataType w) = inr verdict.
Proof. apply tryCatch_returns. intro e. eexists. reflexivity. Qed.

Lemma isPhoneNumberVoipLibPhoneNumber_log (phone metadataType : string) (w : World) :
  noTransport (snd (isPhoneNumberVoipLibPhoneNumber phone metadataType w)) = true.
Proof.
  unfold isPhoneNumberVoipLibPhoneNumber, tryCatch, bind, ask, liftExc, ret, emit.
  destruct (parsePhoneNumber w (Some phone)) as [e|[parsed|]]; try reflexivity.
  destruct (isValid parsed); [|reflexivity]. cbn [negb].
  destruct (hasVoipAreaCode parsed); [reflexivity|].
  destruct (isNonGeographic parsed); [reflexivity|].
  destruct (String.eqb metadataType "full"); [|reflexivity].
  destruct (getNumberType w phone) as [e|numberType]; [reflexivity|].
  destruct (numberTypeVerdict numberType); reflexivity.
Qed.

Lemma classify_returns (method metadataType phone : string) (w : World) :
  exists verdict, fst (classify method metadataType phone w) = inr verdict.
Proof.
  unfold classify. destruct (String.eqb method "libphonenumber").
  - apply isPhoneNumberVoipLibPhoneNumber_returns.
  - rewrite isPhoneNumberVoip_run. eexists. reflexivity.
Qed.

Lemma classify_log (method metadataType phone : string) (w : World) :
  noTransport (snd (classify method metadataType phone w)) = true.
Proof.
  unfold classify. destruct (String.eqb method "libphonenumber").
  - apply isPhoneNumberVoipLibPhoneNumber_log.
  - apply isPhoneNumberVoip_log.
Qed.

Section OrchestratorTheorems.

Context {crypto : SubtleCrypto}.

Lemma verifyPhone_bound (options : Options.t) (w : World)
  (credentials : option string * option string * option string) :
  fst (bindCredentials options w) = inr credentials ->
  verifyPhone options w = verifyPhoneTry options credentials w.
Proof.
  intro H. unfold verifyPhone, bind.
  pose proof (bindCredentials_silent options w) as Hs.
  destruct (bindCredentials options w) as [r t]. simpl in H, Hs. subst r t.
  destruct (verifyPhoneTry options credentials w). reflexivity.
Qed.

Lemma verifyPhone_unbound (options : Options.t) (w : World) (e : JsError) :
  fst (bindCredentials options w) = inl e ->
  verifyPhone options w = (inl e, []).
Proof.
  intro H. unfold verifyPhone, bind.
  pose proof (bindCredentials_silent options w) as Hs.
  destruct (bindCredentials options w) as [r t]. simpl in H, Hs. subst r t.
  reflexivity.
Qed.

Lemma codeRegex_nonempty (code : string) :
  codeRegex code = true -> String.eqb code EmptyString = false.
Proof. destruct code; [discriminate|reflexivity]. Qed.

(** C6.  Whenever VoIP blocking is requested and the classifier, reached
    with the normalised number, answers [true], [verifyPhone] returns the
    rejection [{success: false, error: 'VoIP numbers are not allowed',
    isVoip: true}] and the run holds no transport event: no client is
    constructed, nothing is signed, no request goes to the provider. *)
Theorem verifyPhone_voip_short_circuit
  (options : Options.t) (w : World)
  (credentials : option string * option string * option string)
  (code formattedPhone : string) (t1 t2 t3 : list Event) :
  let useLib := orElse (Options.useLibPhoneNumber options) false in
  let method := orElse (Options.voipDetectionMethod options) "api" in
  let metadataType := orElse (Options.metadataType options) "minimal" in
  fst (bindCredentials options w) = inr credentials ->
  Options.code options = Some code ->
  codeRegex code = true ->
  normalise useLib (Options.phoneNumber options) w = (inr formattedPhone, t1) ->
  isValidPhoneNumber formattedPhone useLib w = (inr true, t2) ->
  Options.blockVoip options = Some true ->
  classify method metadataType formattedPhone w = (inr true, t3) ->
  verifyPhone options w = (inr voipRejection, (t1 ++ t2 ++ t3)%list) /\
  Result.success voipRejection = false /\
  Result.isVoip voipRejection = Some true /\
  Result.error voipRejection = Some "VoIP numbers are not allowed" /\
  List.existsb isTransportEvent (t1 ++ t2 ++ t3)%list = false.
Proof.
  intros useLib method metadataType Hbound Hcode Hregex Hnormalise Hvalid Hblock Hclassify.
  split; [|split; [reflexivity|split; [reflexivity|split; [reflexivity|]]]].
  - rewrite (verifyPhone_bound options w credentials Hbound).
    destruct credentials as [[keyId secret] awsRegion].
    unfold verifyPhoneTry, verifyPhoneBody, tryCatch, bind.
    rewrite Hcode, Hblock, (codeRegex_nonempty code Hregex), Hregex. cbn [negb orElse].
    fold useLib method metadataType.
    rewrite Hnormalise, Hvalid. cbn [negb]. rewrite Hclassify.
    cbn [ret]. rewrite List.app_nil_r. reflexivity.
  - apply negb_true_iff. fold (noTransport (t1 ++ t2 ++ t3)).
    rewrite !noTransport_app.
    pose proof (normalise_log useLib (Options.phoneNumber options) w) as H1.
    pose proof (isValidPhoneNumber_log formattedPhone useLib w) as H2.
    pose proof (classify_log method metadataType formattedPhone w) as H3.
    rewrite Hnormalise in H1. rewrite Hvalid in H2. rewrite Hclassify in H3.
    simpl in H1, H2, H3. rewrite H1, H2, H3. reflexivity.
Qed.

(** *** Dispatch *)

Lemma makeRequest_error (this : SNSClient) (action : string) (params : JsObject)
  (w : World) (e : JsError) :
  fst (makeRequest this action params w) = inl e ->
  exists detail, message e = "SNS Request failed: " ++ detail.
Proof.
  unfold makeRequest, makeRequestWith. intro H.
  apply bind_inl in H as [H|[signed [_ H]]].
  - unfold sign, bind, ask, emit, ret in H. discriminate H.
  - apply tryCatch_inl in H as [thrown [_ H]].
    unfold throwError in H. simpl in H. injection H as <-.
    exists (message thrown). reflexivity.
Qed.

Lemma dispatch_error (keyId secret awsRegion : option string)
  (code phone senderId smsType template : string) (w : World) (e : JsError) :
  fst (dispatch keyId secret awsRegion code phone senderId smsType template w) = inl e ->
  exists detail, message e = "SNS Request failed: " ++ detail.
Proof.
  unfold dispatch. intro H.
  apply bind_inl in H as [H|[u [_ H]]]; [discriminate H|].
  apply bind_inl in H as [H|[response [_ H]]]; [|discriminate H].
  exact (makeRequest_error _ _ _ _ _ H).
Qed.

Lemma dispatch_result (keyId secret awsRegion : option string)
  (code phone senderId smsType template : string) (w : World) (result : Result.t) :
  fst (dispatch keyId secret awsRegion code phone senderId smsType template w) = inr result ->
  Result.success result = true.
Proof.
  unfold dispatch. intro H.
  apply bind_inr in H as [u [_ H]].
  apply bind_inr in H as [response [_ H]].
  unfold ret in H. simpl in H. injection H as <-. reflexivity.
Qed.

(** *** What the [try] block can raise and return *)

Lemma verifyPhoneBody_error
  (phone code keyId secret awsRegion : option string)
  (blockVoip : bool) (method : string) (useLib : bool)
  (metadataType senderId smsType template : string) (w : World) (e : JsError) :
  fst (verifyPhoneBody phone code keyId secret awsRegion blockVoip method useLib
         metadataType senderId smsType template w) = inl e ->
  message e <> EmptyString.
Proof.
  unfold verifyPhoneBody.
  destruct code as [code|]; [|intro H; injection H as <-; discriminate].
  destruct (String.eqb code EmptyString); [intro H; injection H as <-; discriminate|].
  destruct (codeRegex code); cbn [negb]; [|intro H; injection H as <-; discriminate].
  intro H.
  apply bind_inl in H as [H|[formatted [_ H]]].
  { rewrite (normalise_error _ _ _ _ H). discriminate. }
  apply bind_inl in H as [H|[valid [_ H]]].
  { destruct (isValidPhoneNumber_returns formatted useLib w) as [v Hv].
    rewrite Hv in H. discriminate H. }
  destruct valid; cbn [negb] in H; [|injection H as <-; discriminate].
  apply bind_inl in H as [H|[isVoip [_ H]]].
  { destruct blockVoip; [|discriminate H].
    destruct (classify_returns method metadataType formatted w) as [v Hv].
    rewrite Hv in H. discriminate H. }
  destruct isVoip; [discriminate H|].
  destruct (dispatch_error _ _ _ _ _ _ _ _ _ _ H) as [detail ->]. discriminate.
Qed.

Lemma verifyPhoneBody_result
  (phone code keyId secret awsRegion : option string)
  (blockVoip : bool) (method : string) (useLib : bool)
  (metadataType senderId smsType template : string) (w : World) (result : Result.t) :
  fst (verifyPhoneBody phone code keyId secret awsRegion blockVoip method useLib
         metadataType senderId smsType template w) = inr result ->
  result = voipRejection \/ Result.success result = true.
Proof.
  unfold verifyPhoneBody.
  destruct code as [code|]; [|discriminate].
  destruct (String.eqb code EmptyString); [discriminate|].
  destruct (codeRegex code); cbn [negb]; [|discriminate].
  intro H.
  apply bind_inr in H as [formatted [_ H]].
  apply bind_inr in H as [valid [_ H]].
  destruct valid; cbn [negb] in H; [|discriminate H].
  apply bind_inr in H as [isVoip [_ H]].
  destruct isVoip.
  - left. injection H as <-. reflexivity.
  - right. exact (dispatch_result _ _ _ _ _ _ _ _ _ _ H).
Qed.

(** Once the destructuring has completed, [verifyPhone] returns a result
    whatever the options hold and whatever the network and the libraries
    do, and a result that is not a success carries a non-empty [error]. *)
Lemma verifyPhone_returns_when_bound (options : Options.t) (w : World)
  (credentials : option string * option string * option string) :
  fst (bindCredentials options w) = inr credentials ->
  exists result,
    fst (verifyPhone options w) = inr result /\
    (Result.success result = false ->
     exists text, Result.error result = Some text /\ text <> EmptyString).
Proof.
  intro Hbound. rewrite (verifyPhone_bound options w credentials Hbound).
  destruct credentials as [[keyId secret] awsRegion].
  unfold verifyPhoneTry, tryCatch.
  match goal with |- context [verifyPhoneBody ?a ?b ?c ?d ?e ?f ?g ?h ?i ?j ?k ?l w] =>
    pose proof (verifyPhoneBody_error a b c d e f g h i j k l w) as Herr;
    pose proof (verifyPhoneBody_result a b c d e f g h i j k l w) as Hres;
    destruct (verifyPhoneBody a b c d e f g h i j k l w) as [[thrown|result] t]
  end; simpl in Herr, Hres |- *.
  - exists (failure thrown). split; [reflexivity|]. intros _.
    exists (message thrown). split; [reflexivity|]. apply Herr. reflexivity.
  - exists result. split; [reflexivity|]. intro Hfail.
    destruct (Hres result eq_refl) as [->|Hok].
    + eexists. split; [reflexivity|discriminate].
    + rewrite Hok in Hfail. discriminate Hfail.
Qed.

(** In a runtime that declares [process], or when the caller passes both
    credentials and the region, the destructuring completes. *)
Lemma bindCredentials_completes (options : Options.t) (w : World) :
  processGlobal w <> ProcessUndeclared \/
  (Options.accessKeyId options <> None /\
   Options.secretAccessKey options <> None /\
   Options.awsRegion options <> None) ->
  exists credentials, fst (bindCredentials options w) = inr credentials.
Proof.
  intros [Hdeclared|(H1 & H2 & H3)].
  - destruct (processGlobal w) as [|env] eqn:E; [contradiction|].
    rewrite (bindCredentials_declared options w env E). eexists. reflexivity.
  - destruct (Options.accessKeyId options) as [keyId|] eqn:E1; [|contradiction].
    destruct (Options.secretAccessKey options) as [secret|] eqn:E2; [|contradiction].
    destruct (Options.awsRegion options) as [awsRegion|] eqn:E3; [|contradiction].
    rewrite (bindCredentials_given options w keyId secret awsRegion E1 E2 E3).
    eexists. reflexivity.
Qed.

(** C9 at a runtime without a [process] binding.  With a credential left
    to its default, the default initialiser [process?.env?.AWS_ACCESS_KEY_ID]
    raises a ReferenceError; the destructuring stands before the [try]
    statement, so the error leaves [verifyPhone] and no result is
    returned. *)
Theorem verifyPhone_raises_without_process :
  verifyPhone (Worlds.request "+12065550100" "123456" None) Worlds.browser =
  (inl {| message := "process is not defined";
          stack := Some "Error: process is not defined" |}, []).
Proof.
  apply verifyPhone_unbound.
  rewrite bindCredentials_undeclared; [reflexivity|reflexivity|].
  left. reflexivity.
Qed.

End OrchestratorTheorems.

Lemma verifyPhone_voip_short_circuit_witness :
  verifyPhone (Worlds.request "5551234567" "123456" (Some true))
    (Worlds.online Worlds.emptyEnv Worlds.bandwidthCarrier) =
  (inr voipRejection,
   [EvFetch "https://www.sent.dm/api/phone-lookup?phone=%2B15551234567"
      [("Accept", "application/json")]]).
Proof.
  apply (verifyPhone_voip_short_circuit
           (Worlds.request "5551234567" "123456" (Some true))
           (Worlds.online Worlds.emptyEnv Worlds.bandwidthCarrier)
           (None, None, None) "123456" "+15551234567" [] []
           [EvFetch "https://www.sent.dm/api/phone-lookup?phone=%2B15551234567"
              [("Accept", "application/json")]]);
    reflexivity.
Defined.

(** C10 at options and an environment without credentials.  [verifyPhone]
    constructs the client with both credentials [undefined], signs with
    [Credential=undefined/...] (the key is derived from the text
    [AWS4undefined]) and sends the request; with an endpoint that accepts
    it the call reports success. *)
Theorem verifyPhone_signs_with_absent_credentials :
  let url :=
    "https://sns.us-east-1.amazonaws.com/?Action=Publish&Version=2010-03-31&Message=Your+verification+code+is%3A+123456.&PhoneNumber=%2B12065550100&MessageAttributes.entry.1.Name=AWS.SNS.SMS.SenderID&MessageAttributes.entry.1.Value.DataType=String&MessageAttributes.entry.1.Value.StringValue=Verify&MessageAttributes.entry.2.Name=AWS.SNS.SMS.SMSType&MessageAttributes.entry.2.Value.DataType=String&MessageAttributes.entry.2.Value.StringValue=Transactional" in
  bindCredentials (Worlds.request "+12065550100" "123456" None)
    (Worlds.online Worlds.emptyEnv Worlds.landlineCarrier) = (inr (None, None, None), []) /\
  verifyPhone (Worlds.request "+12065550100" "123456" None)
    (Worlds.online Worlds.emptyEnv Worlds.landlineCarrier) =
  (inr (sent (ReplyMessageId "abc123") "123456" "+12065550100"),
   [ EvNewSNSClient None None "us-east-1";
     EvSign "GET" url;
     EvFetch url
       [ ("Content-Type", "application/x-www-form-urlencoded; charset=utf-8");
         ("host", "sns.us-east-1.amazonaws.com");
         ("x-amz-date", "20240517T093005Z");
         ("x-amz-content-sha256",
          "e3b0c44298fc1c149afbf4c8996fb92427ae41e4649b934ca495991b7852b855");
         ("authorization",
          "AWS4-HMAC-SHA256 Credential=undefined/20240517/us-east-1/sns/aws4_request, SignedHeaders=content-type;host;x-amz-content-sha256;x-amz-date, Signature=d947495da813f7b5a396a04a2c2a5618ce2aa8fd97211c579f05b0e7ba5d8644") ] ]).
Proof. split; vm_compute; reflexivity. Qed.

(** ** Platform model: published test vectors *)

Example sha256_empty :
  arrayBufferToHex (digestSHA256 (stringToUint8Array EmptyString)) =
  "e3b0c44298fc1c149afbf4c8996fb92427ae41e4649b934ca495991b7852b855".
Proof. vm_compute. reflexivity. Qed.

Example sha256_abc :
  arrayBufferToHex (digestSHA256 (stringToUint8Array "abc")) =
  "ba7816bf8f01cfea414140de5dae2223b00361a396177a9cb410ff61f20015ad".
Proof. vm_compute. reflexivity. Qed.

Example sha256_two_blocks :
  arrayBufferToHex (digestSHA256 (stringToUint8Array
    "abcdbcdecdefdefgefghfghighijhijkijkljklmklmnlmnomnopnopq")) =
  "248d6a61d20638b8e5c026930c3e6039a33ce45964ff2167f6ecedd419db06c1".
Proof. vm_compute. reflexivity. Qed.

Example hmac_rfc4231_case2 :
  arrayBufferToHex (signHMAC (stringToUint8Array "Jefe")
                             (stringToUint8Array "what do ya want for nothing?")) =
  "5bdcc146bf60754e6a042426089575c75a003f089d2739839dec58b964ec3843".
Proof. vm_compute. reflexivity. Qed.

(* ================================================================= *)
(** * Part III.  Further properties of the code *)
(* ================================================================= *)

(** ** Normaliser and validator *)

(** X1.  Whatever the input, [formatPhoneNumber] returns a string that
    starts with a plus sign. *)
Theorem formatPhoneNumber_starts_with_plus (phone : string) :
  Js.startsWith (formatPhoneNumber phone) "+" = true.
Proof.
  unfold formatPhoneNumber.
  destruct (String.length (stripNonDigits phone) =? 10).
  - change ("+1" ++ stripNonDigits phone) with ("+" ++ "1" ++ stripNonDigits phone).
    apply startsWith_plus.
  - destruct ((String.length (stripNonDigits phone) =? 11) &&
              Js.startsWith (stripNonDigits phone) "1").
    + apply startsWith_plus.
    + destruct (Js.startsWith phone "+") eqn:E; [exact E|apply startsWith_plus].
Qed.

Lemma length_append (a b : string) :
  String.length (a ++ b) = String.length a + String.length b.
Proof. induction a as [|c a IH]; simpl; [reflexivity|rewrite IH; reflexivity]. Qed.

Lemma startsWith_one_shape (d : string) :
  Js.startsWith d "1" = true -> exists rest, d = String "1" rest.
Proof.
  destruct d as [|c rest]; [discriminate|].
  unfold Js.startsWith. cbn [String.prefix].
  destruct (ascii_dec "1" c) as [E|E]; [|discriminate].
  intros _. exists rest. rewrite <- E. reflexivity.
Qed.

(** X2.  An input holding exactly ten digits, however it is punctuated,
    is normalised to [+1] and those digits, and an input holding eleven
    digits of which the first is 1 to [+] and those digits; in both cases
    the validator accepts the result. *)
Theorem formatPhoneNumber_us_numbers_valid (phone : string) :
  (String.length (stripNonDigits phone) = 10 ->
   formatPhoneNumber phone = "+1" ++ stripNonDigits phone /\
   isValidPhoneNumberBasic (formatPhoneNumber phone) = true) /\
  (String.length (stripNonDigits phone) = 11 ->
   Js.startsWith (stripNonDigits phone) "1" = true ->
   formatPhoneNumber phone = "+" ++ stripNonDigits phone /\
   isValidPhoneNumberBasic (formatPhoneNumber phone) = true).
Proof.
  assert (Hd : Js.all Js.isDigit (stripNonDigits phone) = true) by apply all_of_filter.
  split.
  - intro H10.
    assert (E : formatPhoneNumber phone = "+1" ++ stripNonDigits phone).
    { unfold formatPhoneNumber. rewrite H10. reflexivity. }
    split; [exact E|]. rewrite E.
    unfold isValidPhoneNumberBasic, phoneRegex. cbn [append].
    rewrite Hd. simpl String.length. rewrite H10. reflexivity.
  - intros H11 H1.
    assert (E : formatPhoneNumber phone = "+" ++ stripNonDigits phone).
    { unfold formatPhoneNumber. rewrite H11, H1. reflexivity. }
    split; [exact E|]. rewrite E.
    destruct (startsWith_one_shape _ H1) as [rest Hrest].
    rewrite Hrest in Hd, H11 |- *.
    unfold isValidPhoneNumberBasic, phoneRegex. cbn [append].
    simpl in Hd. rewrite Hd. simpl String.length in H11 |- *.
    injection H11 as H11. rewrite H11. reflexivity.
Qed.

Lemma formatPhoneNumber_us_numbers_valid_witness :
  formatPhoneNumber "(206) 555-0100" = "+12065550100" /\
  isValidPhoneNumberBasic (formatPhoneNumber "(206) 555-0100") = true.
Proof.
  destruct (formatPhoneNumber_us_numbers_valid "(206) 555-0100") as [Hten _].
  apply Hten. reflexivity.
Defined.

Lemma phoneRegex_inv (p c : ascii) (rest : string) :
  phoneRegex (String p (String c rest)) = true ->
  p = "+"%char /\ isDigit19 c = true /\ Js.all Js.isDigit rest = true /\
  1 <= String.length rest <= 14.
Proof.
  unfold phoneRegex. destruct p as [[] [] [] [] [] [] [] []]; cbv beta iota;
    try discriminate.
  intro H.
  apply andb_prop in H as [H Hmax]. apply andb_prop in H as [H Hmin].
  apply andb_prop in H as [Hc Hrest].
  apply Nat.leb_le in Hmax. apply Nat.leb_le in Hmin.
  repeat split; assumption.
Qed.

(** X3.  The validator accepts exactly the strings made of a plus sign, a
    digit from 1 to 9 and between five and fourteen further digits: six
    to fifteen digits in all.  The pattern alone would accept two digits;
    the lower length bound raises that to six, and the upper length bound
    never rejects anything the pattern accepts. *)
Theorem isValidPhoneNumberBasic_iff (phone : string) :
  isValidPhoneNumberBasic phone = true <->
  exists (first : ascii) (rest : string),
    phone = String "+" (String first rest) /\
    isDigit19 first = true /\
    Js.all Js.isDigit rest = true /\
    5 <= String.length rest <= 14.
Proof.
  unfold isValidPhoneNumberBasic. split.
  - intro H.
    apply andb_prop in H as [H _]. apply andb_prop in H as [Hre Hmin].
    destruct phone as [|p [|c rest]].
    { discriminate Hre. }
    { unfold phoneRegex in Hre.
      destruct p as [[] [] [] [] [] [] [] []]; discriminate Hre. }
    destruct (phoneRegex_inv p c rest Hre) as (-> & Hc & Hrest & Hlen).
    exists c, rest. repeat split; try assumption.
    + cbn [String.length] in Hmin. apply Nat.leb_le in Hmin. lia.
    + apply Hlen.
  - intros (c & rest & -> & Hc & Hrest & Hlo & Hhi).
    unfold phoneRegex. cbv beta iota. cbn [String.length].
    rewrite Hc, Hrest.
    replace (1 <=? String.length rest) with true by (symmetry; apply Nat.leb_le; lia).
    replace (String.length rest <=? 14) with true by (symmetry; apply Nat.leb_le; lia).
    replace (7 <=? S (S (String.length rest))) with true
      by (symmetry; apply Nat.leb_le; lia).
    replace (S (S (String.length rest)) <=? 16) with true
      by (symmetry; apply Nat.leb_le; lia).
    reflexivity.
Qed.

(** X4.  Normalising never drops, adds or reorders a digit of the input,
    except for the country code 1 it puts before exactly ten digits. *)
Theorem formatPhoneNumber_keeps_digits (phone : string) :
  stripNonDigits (formatPhoneNumber phone) =
  if String.length (stripNonDigits phone) =? 10
  then "1" ++ stripNonDigits phone
  else stripNonDigits phone.
Proof.
  assert (Hd : Js.all Js.isDigit (stripNonDigits phone) = true) by apply all_of_filter.
  unfold formatPhoneNumber.
  destruct (String.length (stripNonDigits phone) =? 10).
  - rewrite stripNonDigits_plus_one, stripNonDigits_idempotent. reflexivity.
  - destruct ((String.length (stripNonDigits phone) =? 11) &&
              Js.startsWith (stripNonDigits phone) "1").
    + rewrite stripNonDigits_plus, stripNonDigits_idempotent. reflexivity.
    + destruct (Js.startsWith phone "+"); [reflexivity|].
      rewrite stripNonDigits_plus, stripNonDigits_idempotent. reflexivity.
Qed.

(** X5.  When libphonenumber-js throws (on the input and on the
    normalised number), the library-backed strategy degrades to the basic
    one: the number is formatted by [formatPhoneNumber] and judged by the
    pattern, and nothing is raised. *)
Theorem library_failure_degrades_to_basic (phone : string) (w : World) (e1 e2 : JsError) :
  parsePhoneNumber w (Some phone) = inl e1 ->
  parsePhoneNumber w (Some (formatPhoneNumber phone)) = inl e2 ->
  fst (normalise true (Some phone) w) = inr (formatPhoneNumber phone) /\
  fst (isValidPhoneNumber (formatPhoneNumber phone) true w) =
    inr (isValidPhoneNumberBasic (formatPhoneNumber phone)).
Proof.
  intros H1 H2. split.
  - unfold normalise, formatPhoneNumberLibPhoneNumber, tryCatch, bind, ask, liftExc.
    rewrite H1. reflexivity.
  - unfold isValidPhoneNumber, tryCatch, bind, ask, liftExc.
    rewrite H2. reflexivity.
Qed.

Lemma library_failure_degrades_to_basic_witness :
  fst (normalise true (Some "020 7946 0958") Worlds.offline) = inr "+02079460958" /\
  fst (isValidPhoneNumber "+02079460958" true Worlds.offline) = inr false.
Proof.
  exact (library_failure_degrades_to_basic "020 7946 0958" Worlds.offline
           (Worlds.plainError "INVALID_COUNTRY") (Worlds.plainError "INVALID_COUNTRY")
           eq_refl eq_refl).
Defined.

(** ** Hexadecimal rendering *)

Lemma join_empty_cons (x : string) (l : list string) :
  Js.join EmptyString (x :: l) = x ++ Js.join EmptyString l.
Proof.
  unfold Js.join. destruct l as [|y l]; simpl; [|reflexivity].
  induction x as [|c x IH]; simpl; [reflexivity|rewrite <- IH; reflexivity].
Qed.

Lemma byteHex_shape (b : byte) :
  exists hi lo,
    Js.padStart 2 "0" (toString16 b) = String hi (String lo EmptyString) /\
    isLowerHex hi = true /\ isLowerHex lo = true /\
    Byte.of_N (16 * hexValue hi + hexValue lo) = Some b.
Proof. destruct b; do 2 eexists; repeat split. Qed.

(** X6.  [arrayBufferToHex] writes two characters for every byte, each a
    digit or a letter from [a] to [f]: a leading zero is never lost. *)
Theorem arrayBufferToHex_two_digits_per_byte (buffer : list byte) :
  String.length (arrayBufferToHex buffer) = 2 * List.length buffer /\
  Js.all isLowerHex (arrayBufferToHex buffer) = true.
Proof.
  unfold arrayBufferToHex.
  induction buffer as [|b buffer [IHlen IHall]].
  - split; reflexivity.
  - cbn [List.map]. rewrite join_empty_cons.
    destruct (byteHex_shape b) as (hi & lo & -> & Hhi & Hlo & _).
    cbn [append String.length Js.all List.length].
    rewrite IHlen, IHall, Hhi, Hlo. split; [lia|reflexivity].
Qed.

(** X7.  The hexadecimal rendering loses nothing: reading the text back
    gives the bytes, so different buffers never render alike. *)
Theorem arrayBufferToHex_round_trip (buffer : list byte) :
  hexToBytes (arrayBufferToHex buffer) = buffer.
Proof.
  unfold arrayBufferToHex.
  induction buffer as [|b buffer IH].
  - reflexivity.
  - cbn [List.map]. rewrite join_empty_cons.
    destruct (byteHex_shape b) as (hi & lo & -> & _ & _ & Hb).
    cbn [append hexToBytes]. rewrite Hb, IH. reflexivity.
Qed.

(** ** The compact timestamp *)

Lemma stripIsoPunctuation_digits (s : string) :
  Js.all Js.isDigit s = true -> stripIsoPunctuation s = s.
Proof.
  induction s as [|c s IH]; intro H; [reflexivity|].
  cbn [Js.all] in H. apply andb_prop in H as [Hc Hs].
  assert (Hdot : Ascii.eqb c "." = false).
  { destruct (Ascii.eqb_spec c ".") as [->|_]; [discriminate Hc|reflexivity]. }
  assert (Hcolon : Ascii.eqb c ":" = false).
  { destruct (Ascii.eqb_spec c ":") as [->|_]; [discriminate Hc|reflexivity]. }
  assert (Hhyphen : Ascii.eqb c "-" = false).
  { destruct (Ascii.eqb_spec c "-") as [->|_]; [discriminate Hc|reflexivity]. }
  rewrite (stripIsoPunctuation_step c s Hdot), Hcolon, Hhyphen, (IH Hs).
  reflexivity.
Qed.

Lemma padNat_length (width bound n : nat) :
  List.forallb (fun n => String.length (padNat width n) =? width) (List.seq 0 bound) = true ->
  n < bound -> String.length (padNat width n) = width.
Proof.
  intros Hall Hn. rewrite List.forallb_forall in Hall.
  apply Nat.eqb_eq, Hall, List.in_seq. lia.
Qed.

Lemma padNat2_length (n : nat) : n < 100 -> String.length (padNat 2 n) = 2.
Proof. apply padNat_length. vm_compute. reflexivity. Qed.

Lemma padNat4_length (n : nat) : n < 100 * 100 -> String.length (padNat 4 n) = 4.
Proof. apply padNat_length. vm_compute. reflexivity. Qed.

Lemma substring_prefix (a b : string) :
  String.substring 0 (String.length a) (a ++ b) = a.
Proof.
  induction a as [|c a IH]; simpl.
  - destruct b; reflexivity.
  - rewrite IH. reflexivity.
Qed.

(** X8.  For a date whose year has four digits, the timestamp [sign] puts
    in [x-amz-date] is the sixteen characters [YYYYMMDD], [T], [HHMMSS],
    [Z], and the date stamp of the credential scope is its first eight,
    [YYYYMMDD]. *)
Theorem sign_timestamp_shape {crypto : SubtleCrypto}
  (this : SNSClient) (now : JsDate) (method url : string) (headers : JsObject)
  (payload : string) :
  (0 <= year now <= 9999)%Z ->
  month now < 100 -> day now < 100 ->
  hours now < 100 -> minutes now < 100 -> seconds now < 100 ->
  milliseconds now < 1000 ->
  let L := signAt this now method url headers payload in
  let date := padNat 4 (Z.to_nat (year now)) ++ padNat 2 (month now) ++ padNat 2 (day now) in
  let time := padNat 2 (hours now) ++ padNat 2 (minutes now) ++ padNat 2 (seconds now) in
  amzDate L = date ++ "T" ++ time ++ "Z" /\
  String.length (amzDate L) = 16 /\
  dateStamp L = date /\
  credentialScope L = date ++ "/" ++ region this ++ "/sns/aws4_request".
Proof.
  intros Hy Hmo Hd Hh Hmi Hs Hms L date time.
  assert (Hamz : amzDate L = date ++ "T" ++ time ++ "Z").
  { unfold L, signAt. cbn [amzDate].
    rewrite (amzDate_to_seconds now Hms). unfold isoToSeconds, isoYear.
    replace ((0 <=? year now)%Z && (year now <=? 9999)%Z) with true
      by (symmetry; apply andb_true_intro; split; apply Z.leb_le; lia).
    repeat (rewrite stripIsoPunctuation_app;
            [|first [apply padNat_noDot | reflexivity]]).
    repeat rewrite (stripIsoPunctuation_digits _ (padNat_digits _ _)).
    unfold date, time. cbn [stripIsoPunctuation Ascii.eqb Bool.eqb orb andb].
    repeat rewrite app_assoc_string. cbn [append]. reflexivity. }
  assert (Hlen : String.length date = 8).
  { unfold date. rewrite !length_append, padNat4_length, !padNat2_length; lia. }
  assert (Hstamp : dateStamp L = date).
  { change (dateStamp L) with (Js.slice0 8 (amzDate L)). rewrite Hamz.
    unfold Js.slice0. rewrite <- Hlen. apply substring_prefix. }
  repeat split.
  - exact Hamz.
  - rewrite Hamz. change ("T" ++ time ++ "Z") with (String "T" (time ++ "Z")).
    rewrite !length_append. cbn [String.length]. rewrite !length_append.
    unfold time. rewrite !length_append, !padNat2_length by assumption.
    rewrite Hlen. reflexivity.
  - exact Hstamp.
  - change (credentialScope L) with (dateStamp L ++ "/" ++ region this ++ "/sns/aws4_request").
    rewrite Hstamp. reflexivity.
Qed.

Lemma sign_timestamp_shape_witness :
  amzDate (signAt Worlds.client Worlds.someDate "GET" "https://sns.us-east-1.amazonaws.com/"
             [] EmptyString) = "20240517T093005Z" /\
  dateStamp (signAt Worlds.client Worlds.someDate "GET" "https://sns.us-east-1.amazonaws.com/"
               [] EmptyString) = "20240517".
Proof.
  destruct (sign_timestamp_shape Worlds.client Worlds.someDate "GET"
              "https://sns.us-east-1.amazonaws.com/" [] EmptyString)
    as (Hamz & _ & Hstamp & _); simpl; try lia.
  split; [exact Hamz|exact Hstamp].
Defined.

(** ** The headers [sign] returns *)

Lemma getProp_setProp_other (k k' v : string) (o : JsObject) :
  k <> k' -> getProp k (setProp k' v o) = getProp k o.
Proof.
  intro Hne. induction o as [|[k0 v0] o IH]; simpl.
  - destruct (String.eqb_spec k' k) as [E|_]; [symmetry in E; contradiction|reflexivity].
  - destruct (String.eqb_spec k0 k') as [->|Hk0]; simpl.
    + destruct (String.eqb_spec k' k) as [E|_]; [symmetry in E; contradiction|].
      reflexivity.
    + destruct (String.eqb k0 k); [reflexivity|exact IH].
Qed.

(** X9.  The object [sign] returns holds the caller's headers unchanged
    under every name other than [host], [x-amz-date],
    [x-amz-content-sha256] and [authorization]; under those four it holds
    the values [sign] computed, whatever the caller had put there: the
    host of the region, the timestamp, the hash of the payload, and the
    authorization built from the algorithm, the access key, the
    credential scope, the signed-header list and the signature. *)
Theorem sign_headers_kept_and_overridden {crypto : SubtleCrypto}
  (this : SNSClient) (now : JsDate) (method url : string) (headers : JsObject)
  (payload : string) :
  let L := signAt this now method url headers payload in
  (forall name,
     name <> "host" -> name <> "x-amz-date" -> name <> "x-amz-content-sha256" ->
     name <> "authorization" ->
     getProp name (headersOut L) = getProp name headers) /\
  getProp "host" (headersOut L) = Some ("sns." ++ region this ++ ".amazonaws.com") /\
  getProp "x-amz-date" (headersOut L) = Some (amzDate L) /\
  getProp "x-amz-content-sha256" (headersOut L) = Some (payloadHash L) /\
  getProp "authorization" (headersOut L) =
    Some (algorithm L ++ " Credential=" ++ Js.render (accessKeyId this) ++ "/" ++
          credentialScope L ++ ", SignedHeaders=" ++ signedHeaders L ++
          ", Signature=" ++ signature L).
Proof.
  cbv zeta. unfold signAt.
  cbn [headersOut amzDate payloadHash algorithm credentialScope signedHeaders signature].
  split; [|split; [|split; [|split]]].
  - intros name H1 H2 H3 H4.
    rewrite !getProp_setProp_other by assumption. reflexivity.
  - rewrite !(getProp_setProp_other "host") by discriminate. apply getProp_setProp.
  - rewrite !(getProp_setProp_other "x-amz-date") by discriminate. apply getProp_setProp.
  - rewrite (getProp_setProp_other "x-amz-content-sha256") by discriminate.
    apply getProp_setProp.
  - apply getProp_setProp.
Qed.

(** A caller's [authorization] and [host] do not survive [sign]. *)
Example sign_overrides_caller_authorization :
  getProp "authorization"
    (headersOut (signAt Worlds.client Worlds.someDate "GET" "https://example.org/?a=b"
                   [("authorization", "mine"); ("host", "example.org")] EmptyString))
  <> Some "mine" /\
  getProp "host"
    (headersOut (signAt Worlds.client Worlds.someDate "GET" "https://example.org/?a=b"
                   [("authorization", "mine"); ("host", "example.org")] EmptyString))
  = Some "sns.us-east-1.amazonaws.com".
Proof. split; [vm_compute; discriminate|vm_compute; reflexivity]. Qed.

Lemma in_keys_setProp_back (x k v : string) (o : JsObject) :
  x = k \/ In x (keys o) -> In x (keys (setProp k v o)).
Proof.
  induction o as [|[k' v'] o IH]; simpl.
  - intros [->|[]]. left. reflexivity.
  - destruct (String.eqb_spec k' k) as [->|Hne]; simpl.
    + intros [->|[->|H]]; [left|left|right]; try reflexivity. exact H.
    + intros [->|[->|H]].
      * right. apply IH. left. reflexivity.
      * left. reflexivity.
      * right. apply IH. right. exact H.
Qed.

Lemma in_keys_setProp_inv (x k v : string) (o : JsObject) :
  In x (keys (setProp k v o)) -> x = k \/ In x (keys o).
Proof.
  induction o as [|[k' v'] o IH]; simpl.
  - intros [H|[]]. left. symmetry. exact H.
  - destruct (String.eqb_spec k' k) as [->|Hne]; simpl.
    + intros [H|H]; [left; symmetry; exact H|right; right; exact H].
    + intros [H|H]; [right; left; exact H|].
      destruct (IH H) as [E|I]; [left; exact E|right; right; exact I].
Qed.

Lemma setProp_NoDup (k v : string) (o : JsObject) :
  NoDup (keys o) -> NoDup (keys (setProp k v o)).
Proof.
  induction o as [|[k' v'] o IH]; simpl; intro H.
  - constructor; [intros []|constructor].
  - inversion H as [|? ? Hnotin Hrest]; subst.
    destruct (String.eqb_spec k' k) as [->|Hne]; simpl.
    + constructor; assumption.
    + constructor; [|apply IH, Hrest].
      intro Hin. apply in_keys_setProp_inv in Hin as [E|Hin]; [contradiction|].
      contradiction.
Qed.

(** X10.  Assigning the signing headers never duplicates a property: an
    object with distinct names goes in, an object with distinct names
    comes out, and every name of the caller is still among them. *)
Theorem sign_keeps_names_distinct {crypto : SubtleCrypto}
  (this : SNSClient) (now : JsDate) (method url : string) (headers : JsObject)
  (payload : string) :
  NoDup (keys headers) ->
  let L := signAt this now method url headers payload in
  NoDup (keys (headersOut L)) /\
  (forall name, In name (keys headers) -> In name (keys (headersOut L))).
Proof.
  intros Hdistinct L. unfold L, signAt. cbn [headersOut]. split.
  - repeat apply setProp_NoDup. exact Hdistinct.
  - intros name Hin. repeat (apply in_keys_setProp_back; right). exact Hin.
Qed.

Lemma sign_keeps_names_distinct_witness :
  NoDup (keys (headersOut
                 (signAt Worlds.client Worlds.someDate "GET"
                    "https://sns.us-east-1.amazonaws.com/"
                    [("Content-Type", "text/plain"); ("host", "example.org")] EmptyString))).
Proof.
  apply (sign_keeps_names_distinct Worlds.client Worlds.someDate "GET"
           "https://sns.us-east-1.amazonaws.com/"
           [("Content-Type", "text/plain"); ("host", "example.org")] EmptyString).
  simpl. constructor; [|constructor; [|constructor]].
  - intros [H|[]]. discriminate H.
  - intros [].
Defined.

(** ** The query string that is signed *)

Lemma noQuestion_app (a b : string) : noQuestion (a ++ b) = noQuestion a && noQuestion b.
Proof. unfold noQuestion. apply all_app. Qed.

Lemma percent_noQuestion (c : ascii) : noQuestion (Js.percent c) = true.
Proof. destruct c as [[] [] [] [] [] [] [] []]; reflexivity. Qed.

Lemma formEncode_noQuestion (s : string) : noQuestion (Js.formEncode s) = true.
Proof.
  induction s as [|c s IH]; [reflexivity|].
  cbn [Js.formEncode]. rewrite noQuestion_app, IH, andb_true_r.
  destruct (Js.isAlnum c || Js.isOneOf "*-._" c) eqn:Hkeep.
  - destruct (Ascii.eqb_spec c "?") as [->|Hne]; [discriminate Hkeep|].
    unfold noQuestion. cbn [Js.all]. apply Ascii.eqb_neq in Hne. rewrite Hne. reflexivity.
  - destruct (Ascii.eqb c " "); [reflexivity|apply percent_noQuestion].
Qed.

Lemma encodedEntries_noQuestion (o : JsObject) :
  noQuestion
    (Js.join "&"
       (List.map (fun kv => Js.formEncode (fst kv) ++ "=" ++ Js.formEncode (snd kv)) o))
  = true.
Proof.
  unfold Js.join.
  induction o as [|[k v] o IH]; [reflexivity|].
  cbn [List.map fst snd].
  assert (Hkv : noQuestion (Js.formEncode k ++ "=" ++ Js.formEncode v) = true).
  { rewrite !noQuestion_app, !formEncode_noQuestion. reflexivity. }
  destruct o as [|kv o]; cbn [List.map String.concat] in IH |- *; [exact Hkv|].
  rewrite noQuestion_app, Hkv. rewrite noQuestion_app, IH. reflexivity.
Qed.

Lemma searchParamsToString_noQuestion (o : JsObject) :
  noQuestion (searchParamsToString o) = true.
Proof. unfold searchParamsToString. apply encodedEntries_noQuestion. Qed.

(** Array indices come first in the query string, by their value. *)
Example searchParamsToString_order :
  searchParamsToString [("b", "x"); ("10", "y"); ("2", "z"); ("02", "w")] = "2=z&10=y&b=x&02=w".
Proof. reflexivity. Qed.

Lemma splitOn_noQuestion (s : string) :
  noQuestion s = true -> Js.splitOn "?" s = [s].
Proof.
  induction s as [|c s IH]; intro H; [reflexivity|].
  unfold noQuestion in H. cbn [Js.all] in H. apply andb_prop in H as [Hc Hs].
  apply negb_true_iff in Hc. cbn [Js.splitOn]. rewrite Hc, (IH Hs). reflexivity.
Qed.

Lemma splitOn_first_question (a b : string) :
  noQuestion a = true -> noQuestion b = true ->
  Js.splitOn "?" (a ++ "?" ++ b) = [a; b].
Proof.
  intros Ha Hb. induction a as [|c a IH].
  - cbn [append Js.splitOn Ascii.eqb Bool.eqb]. simpl.
    rewrite (splitOn_noQuestion b Hb). reflexivity.
  - unfold noQuestion in Ha. cbn [Js.all] in Ha. apply andb_prop in Ha as [Hc Ha].
    apply negb_true_iff in Hc.
    change (String c a ++ "?" ++ b) with (String c (a ++ "?" ++ b)).
    cbn [Js.splitOn]. rewrite Hc, (IH Ha). reflexivity.
Qed.

(** X11.  The query string [sign] puts in the canonical request is exactly
    the query string of the URL [makeRequest] sends, for every action and
    every parameter object, provided the client's region holds no
    question mark: parameter names and values cannot break the split,
    because the URL encoding leaves no question mark in them. *)
Theorem signed_query_is_sent_query {crypto : SubtleCrypto}
  (this : SNSClient) (now : JsDate) (action : string) (params headers : JsObject)
  (payload : string) :
  noQuestion (endpoint this) = true ->
  canonicalQuerystring
    (signAt this now "GET" (requestUrl this action params) headers payload) =
  requestQuery action params.
Proof.
  intro Hendpoint. unfold signAt. cbn [canonicalQuerystring]. unfold queryOf, requestUrl.
  replace (endpoint this ++ "/?" ++ requestQuery action params)
    with ((endpoint this ++ "/") ++ "?" ++ requestQuery action params)
    by (rewrite app_assoc_string; reflexivity).
  rewrite splitOn_first_question; [reflexivity| |].
  - rewrite noQuestion_app, Hendpoint. reflexivity.
  - apply searchParamsToString_noQuestion.
Qed.

Lemma signed_query_is_sent_query_witness :
  canonicalQuerystring
    (signAt Worlds.client Worlds.someDate "GET"
       (requestUrl Worlds.client "Publish" [("Message", "is it 5?"); ("PhoneNumber", "+12065550100")])
       [] EmptyString) =
  "Action=Publish&Version=2010-03-31&Message=is+it+5%3F&PhoneNumber=%2B12065550100".
Proof.
  apply (signed_query_is_sent_query Worlds.client Worlds.someDate "Publish"
           [("Message", "is it 5?"); ("PhoneNumber", "+12065550100")] [] EmptyString).
  reflexivity.
Defined.

(** ** Transport *)

Lemma parseXMLResponse_silent (xmlText : string) (w : World) :
  snd (parseXMLResponse xmlText w) = [].
Proof.
  unfold parseXMLResponse.
  destruct (matchTag "Code" xmlText), (matchTag "Message" xmlText),
    (matchTag "MessageId" xmlText); reflexivity.
Qed.

Lemma snsjs_parseXMLResponse_silent (xmlText : string) (w : World) :
  snd (SnsJs.parseXMLResponse xmlText w) = [].
Proof.
  unfold SnsJs.parseXMLResponse.
  destruct (matchTag "MessageId" xmlText), (matchTag "TopicArn" xmlText),
    (matchTag "SubscriptionArn" xmlText); reflexivity.
Qed.

Lemma makeRequestWith_log {crypto : SubtleCrypto} (parse : string -> M SnsReply)
  (this : SNSClient) (action : string) (params : JsObject) (w : World) :
  (forall xmlText, snd (parse xmlText w) = []) ->
  let url := requestUrl this action params in
  snd (makeRequestWith parse this action params w) =
  [ EvSign "GET" url;
    EvFetch url (headersOut (signAt this (clock w) "GET" url contentTypeHeader EmptyString)) ].
Proof.
  intros Hparse url.
  unfold makeRequestWith, sign, tryCatch, bind, ask, emit, ret, liftExc, throwError.
  fold (requestQuery action params). fold (requestUrl this action params). fold url.
  fold contentTypeHeader.
  destruct (fetch w url _) as [e|r]; [reflexivity|].
  destruct (text r) as [e|body]; [reflexivity|].
  destruct (ok r); cbn [negb]; [|reflexivity].
  pose proof (Hparse body) as Hs.
  destruct (parse body w) as [[e|reply] t]; cbn [snd] in Hs; subst t; reflexivity.
Qed.

Lemma makeRequestOn_present (crypto : SubtleCrypto) (parse : string -> M SnsReply)
  (this : SNSClient) (action : string) (params : JsObject) :
  makeRequestOn (CryptoPresent crypto) parse this action params
  = @makeRequestWith crypto parse this action params.
Proof. reflexivity. Qed.

(** With Web Crypto present the two clients are the runs modelled above. *)
Lemma makeRequestOn_present_clients (crypto : SubtleCrypto)
  (this : SNSClient) (action : string) (params : JsObject) :
  makeRequestOn (CryptoPresent crypto) parseXMLResponse this action params
    = @makeRequest crypto this action params /\
  makeRequestOn (CryptoPresent crypto) SnsJs.parseXMLResponse this action params
    = @SnsJs.makeRequest crypto this action params.
Proof. split; reflexivity. Qed.

Lemma makeRequestOn_absent (raised : JsError) (parse : string -> M SnsReply)
  (this : SNSClient) (action : string) (params : JsObject) (w : World) :
  makeRequestOn (CryptoAbsent raised) parse this action params w
  = (inl raised, [EvSign "GET" (requestUrl this action params)]).
Proof. reflexivity. Qed.

(** What [makeRequest] can raise: an error of its [try] block, which the
    [catch] prefixes, or the error of [sign], which it awaits before the
    [try]. *)
Lemma makeRequestOn_error (platform : WebCryptoGlobal) (parse : string -> M SnsReply)
  (this : SNSClient) (action : string) (params : JsObject) (w : World) (thrown : JsError) :
  fst (makeRequestOn platform parse this action params w) = inl thrown ->
  (exists detail, message thrown = "SNS Request failed: " ++ detail) \/
  platform = CryptoAbsent thrown.
Proof.
  destruct platform as [crypto|raised].
  - rewrite makeRequestOn_present. unfold makeRequestWith. intro H. left.
    apply bind_inl in H as [H|[signed [_ H]]].
    + unfold sign, bind, ask, emit, ret in H. discriminate H.
    + apply tryCatch_inl in H as [inner [_ H]].
      unfold throwError in H. simpl in H. injection H as <-.
      exists (message inner). reflexivity.
  - rewrite makeRequestOn_absent. cbn [fst]. intro H. injection H as ->.
    right. reflexivity.
Qed.

(** X12.  Every call of [makeRequest], of either client, signs once and
    sends at most one request.  In a runtime with Web Crypto it sends
    exactly one, to the URL it signed and with the headers [sign]
    returned; whether the request fails, is refused or succeeds, nothing
    is retried and nothing else is called.  In a runtime without it,
    [sign] rejects before the [try] statement: the error leaves
    [makeRequest] as it is and no request is sent. *)
Theorem makeRequest_one_signed_request (platform : WebCryptoGlobal)
  (this : SNSClient) (action : string) (params : JsObject) (w : World) :
  let url := requestUrl this action params in
  match platform with
  | CryptoPresent crypto =>
      let sent :=
        [ EvSign "GET" url;
          EvFetch url
            (headersOut
               (@signAt crypto this (clock w) "GET" url contentTypeHeader EmptyString)) ] in
      snd (makeRequestOn (CryptoPresent crypto) parseXMLResponse this action params w)
        = sent /\
      snd (makeRequestOn (CryptoPresent crypto) SnsJs.parseXMLResponse this action params w)
        = sent
  | CryptoAbsent raised =>
      makeRequestOn (CryptoAbsent raised) parseXMLResponse this action params w
        = (inl raised, [EvSign "GET" url]) /\
      makeRequestOn (CryptoAbsent raised) SnsJs.parseXMLResponse this action params w
        = (inl raised, [EvSign "GET" url])
  end.
Proof.
  intro url. destruct platform as [crypto|raised].
  - rewrite !makeRequestOn_present. split.
    + apply makeRequestWith_log. intro. apply parseXMLResponse_silent.
    + apply makeRequestWith_log. intro. apply snsjs_parseXMLResponse_silent.
  - split; apply makeRequestOn_absent.
Qed.

(** X13.  How [makeRequest] fails, with the extractor of either client.
    In a runtime with Web Crypto, a rejected [fetch] gives the message
    [SNS Request failed: ] followed by the network error's message, and a
    reply with a non-success status gives [SNS Request failed: SNS API
    Error: <status> - <body>]; its body is not looked into, even when it
    holds a message id.  In a runtime without Web Crypto the error of
    [sign] leaves [makeRequest] unchanged, without the prefix and with no
    request sent.  Every error [makeRequest] raises is one or the other:
    it carries the prefix [SNS Request failed: ], or it is the error of
    [sign]. *)
Theorem makeRequest_failures (platform : WebCryptoGlobal) (parse : string -> M SnsReply)
  (this : SNSClient) (action : string) (params : JsObject) (w : World) :
  let url := requestUrl this action params in
  let run := makeRequestOn platform parse this action params w in
  (forall crypto e,
     platform = CryptoPresent crypto ->
     fetch w url
       (headersOut (@signAt crypto this (clock w) "GET" url contentTypeHeader EmptyString))
       = inl e ->
     exists thrown, fst run = inl thrown /\
                    message thrown = "SNS Request failed: " ++ message e) /\
  (forall crypto r body,
     platform = CryptoPresent crypto ->
     fetch w url
       (headersOut (@signAt crypto this (clock w) "GET" url contentTypeHeader EmptyString))
       = inr r ->
     ok r = false -> text r = inr body ->
     exists thrown, fst run = inl thrown /\
                    message thrown =
                    "SNS Request failed: SNS API Error: " ++ Js.ofNat (status r) ++ " - " ++ body) /\
  (forall raised,
     platform = CryptoAbsent raised ->
     run = (inl raised, [EvSign "GET" url])) /\
  (forall thrown,
     fst run = inl thrown ->
     (exists detail, message thrown = "SNS Request failed: " ++ detail) \/
     platform = CryptoAbsent thrown).
Proof.
  intros url run. split; [|split; [|split]].
  - intros crypto e -> Hfetch. unfold run.
    rewrite makeRequestOn_present.
    unfold makeRequestWith, sign, tryCatch, bind, ask, emit, ret, liftExc, throwError.
    fold (requestQuery action params). fold (requestUrl this action params). fold url.
    fold contentTypeHeader. rewrite Hfetch.
    eexists. split; reflexivity.
  - intros crypto r body -> Hfetch Hok Htext. unfold run.
    rewrite makeRequestOn_present.
    unfold makeRequestWith, sign, tryCatch, bind, ask, emit, ret, liftExc, throwError.
    fold (requestQuery action params). fold (requestUrl this action params). fold url.
    fold contentTypeHeader. rewrite Hfetch, Htext, Hok.
    eexists. split; reflexivity.
  - intros raised ->. apply makeRequestOn_absent.
  - intros thrown H. exact (makeRequestOn_error platform parse this action params w thrown H).
Qed.

Lemma makeRequest_failures_witness :
  (exists thrown,
     fst (makeRequestOn (CryptoPresent WebCrypto.subtle) SnsJs.parseXMLResponse
            Worlds.client "Publish" [] Worlds.offline) = inl thrown /\
     message thrown = "SNS Request failed: fetch failed") /\
  makeRequestOn (CryptoAbsent (Worlds.plainError "crypto is not defined"))
    parseXMLResponse Worlds.client "Publish" [] Worlds.offline
  = (inl (Worlds.plainError "crypto is not defined"),
     [EvSign "GET" (requestUrl Worlds.client "Publish" [])]).
Proof.
  split.
  - destruct (makeRequest_failures (CryptoPresent WebCrypto.subtle) SnsJs.parseXMLResponse
                Worlds.client "Publish" [] Worlds.offline) as [Hnet _].
    apply (Hnet WebCrypto.subtle (Worlds.plainError "fetch failed") eq_refl).
    reflexivity.
  - destruct (makeRequest_failures (CryptoAbsent (Worlds.plainError "crypto is not defined"))
                parseXMLResponse Worlds.client "Publish" [] Worlds.offline)
      as [_ [_ [Habsent _]]].
    apply (Habsent (Worlds.plainError "crypto is not defined") eq_refl).
Defined.

(** ** What the extractors return *)

Lemma prefix_split (p s : string) :
  String.prefix p s = true -> s = p ++ Js.drop (String.length p) s.
Proof.
  revert s. induction p as [|c p IH]; intros s H.
  - destruct s; reflexivity.
  - destruct s as [|d s]; [discriminate H|].
    cbn [String.prefix] in H. destruct (ascii_dec c d) as [<-|_]; [|discriminate H].
    cbn [String.length Js.drop append]. rewrite <- (IH s H). reflexivity.
Qed.

Lemma spanText_spec (s : string) :
  s = fst (spanText s) ++ snd (spanText s) /\ isText (fst (spanText s)) = true.
Proof.
  induction s as [|c s [IHeq IHtext]]; [split; reflexivity|].
  cbn [spanText]. destruct (Ascii.eqb c "<") eqn:E.
  - split; reflexivity.
  - destruct (spanText s) as [t rest]. cbn [fst snd] in *. split.
    + cbn [append]. rewrite <- IHeq. reflexivity.
    + unfold isText in *. cbn [Js.all]. rewrite E, IHtext. reflexivity.
Qed.

Lemma matchTagHere_sound (tag s v : string) :
  matchTagHere tag s = Some v ->
  v <> EmptyString /\ isText v = true /\
  exists rest, s = ("<" ++ tag ++ ">") ++ v ++ ("</" ++ tag ++ ">") ++ rest.
Proof.
  unfold matchTagHere.
  destruct (String.prefix ("<" ++ tag ++ ">") s) eqn:Hopen; [|discriminate].
  pose proof (spanText_spec (Js.drop (String.length ("<" ++ tag ++ ">")) s)) as [Heq Htext].
  destruct (spanText (Js.drop (String.length ("<" ++ tag ++ ">")) s)) as [captured rest].
  cbn [fst snd] in Heq, Htext.
  destruct (negb (String.eqb captured EmptyString)) eqn:Hne; [|discriminate].
  destruct (String.prefix ("</" ++ tag ++ ">") rest) eqn:Hclose; [|discriminate].
  cbn [andb]. intro H. injection H as <-.
  split; [|split; [exact Htext|]].
  - apply negb_true_iff, String.eqb_neq in Hne. exact Hne.
  - exists (Js.drop (String.length ("</" ++ tag ++ ">")) rest).
    rewrite (prefix_split _ _ Hopen) at 1. rewrite Heq at 1.
    rewrite (prefix_split _ _ Hclose) at 1. reflexivity.
Qed.

Lemma matchTag_sound (tag s v : string) :
  matchTag tag s = Some v ->
  v <> EmptyString /\ isText v = true /\
  exists before rest,
    s = before ++ ("<" ++ tag ++ ">") ++ v ++ ("</" ++ tag ++ ">") ++ rest.
Proof.
  induction s as [|c s IH].
  - cbn [matchTag]. destruct (matchTagHere tag EmptyString) as [found|] eqn:E; [|discriminate].
    intro H. injection H as <-.
    destruct (matchTagHere_sound _ _ _ E) as (Hne & Htext & rest & Heq).
    split; [exact Hne|split; [exact Htext|]]. exists EmptyString, rest. exact Heq.
  - rewrite matchTag_later.
    destruct (matchTagHere tag (String c s)) as [found|] eqn:E.
    + intro H. injection H as <-.
      destruct (matchTagHere_sound _ _ _ E) as (Hne & Htext & rest & Heq).
      split; [exact Hne|split; [exact Htext|]]. exists EmptyString, rest. exact Heq.
    + intro H. destruct (IH H) as (Hne & Htext & before & rest & Heq).
      split; [exact Hne|split; [exact Htext|]].
      exists (String c before), rest. rewrite Heq at 1. reflexivity.
Qed.

(** X14.  A message id returned by either extractor is never empty, holds
    no [<], and stands in the body between [<MessageId>] and
    [</MessageId>]: the extractor invents nothing. *)
Theorem extracted_message_id_is_in_body (xmlText id : string) (w : World) :
  fst (parseXMLResponse xmlText w) = inr (ReplyMessageId id) \/
  fst (SnsJs.parseXMLResponse xmlText w) = inr (ReplyMessageId id) ->
  id <> EmptyString /\ isText id = true /\
  exists before rest, xmlText = before ++ "<MessageId>" ++ id ++ "</MessageId>" ++ rest.
Proof.
  intro H.
  assert (Hmatch : matchTag "MessageId" xmlText = Some id).
  { destruct H as [H|H].
    - unfold parseXMLResponse in H.
      destruct (matchTag "Code" xmlText), (matchTag "Message" xmlText),
        (matchTag "MessageId" xmlText); simpl in H; try discriminate H;
        injection H as <-; reflexivity.
    - unfold SnsJs.parseXMLResponse in H.
      destruct (matchTag "MessageId" xmlText), (matchTag "TopicArn" xmlText),
        (matchTag "SubscriptionArn" xmlText); simpl in H; try discriminate H;
        injection H as <-; reflexivity. }
  exact (matchTag_sound "MessageId" xmlText id Hmatch).
Qed.

Lemma extracted_message_id_is_in_body_witness :
  "abc123" <> EmptyString /\ isText "abc123" = true /\
  exists before rest,
    "<PublishResult><MessageId>abc123</MessageId></PublishResult>" =
    before ++ "<MessageId>" ++ "abc123" ++ "</MessageId>" ++ rest.
Proof.
  apply (extracted_message_id_is_in_body
           "<PublishResult><MessageId>abc123</MessageId></PublishResult>" "abc123"
           Worlds.offline).
  left. reflexivity.
Defined.

(** X15.  The two extractors differ only where the sources differ: on a
    body that does not hold both an error code and an error message, and
    that holds a message id or neither a topic ARN nor a subscription
    ARN, [parseXMLResponse] of sns.js and of verify-phone.ts return the
    same. *)
Theorem extractors_agree (xmlText : string) (w : World) :
  matchTag "Code" xmlText = None \/ matchTag "Message" xmlText = None ->
  matchTag "MessageId" xmlText <> None \/
  (matchTag "TopicArn" xmlText = None /\ matchTag "SubscriptionArn" xmlText = None) ->
  SnsJs.parseXMLResponse xmlText w = parseXMLResponse xmlText w.
Proof.
  intros Herr Hshape. unfold SnsJs.parseXMLResponse, parseXMLResponse.
  destruct (matchTag "MessageId" xmlText) as [id|].
  - destruct Herr as [-> | ->]; [|destruct (matchTag "Code" xmlText)]; reflexivity.
  - destruct Hshape as [Hid|[-> ->]]; [contradiction|].
    destruct Herr as [-> | ->]; [|destruct (matchTag "Code" xmlText)]; reflexivity.
Qed.

Lemma extractors_agree_witness :
  SnsJs.parseXMLResponse "<MessageId>abc123</MessageId>" Worlds.offline =
  parseXMLResponse "<MessageId>abc123</MessageId>" Worlds.offline.
Proof.
  apply (extractors_agree "<MessageId>abc123</MessageId>" Worlds.offline).
  - left. reflexivity.
  - left. discriminate.
Defined.

(** ** The heuristic cascade *)

Lemma hasRepeatedDigits_later (c : ascii) (s : string) :
  hasRepeatedDigits s = true -> hasRepeatedDigits (String c s) = true.
Proof.
  intro H. destruct s as [|a [|b s]]; try discriminate H.
  cbn [hasRepeatedDigits] in H |- *. rewrite H. apply orb_true_r.
Qed.

Lemma hasRepeatedDigits_app (before s : string) :
  hasRepeatedDigits s = true -> hasRepeatedDigits (before ++ s) = true.
Proof.
  intro H. induction before as [|c before IH]; [exact H|].
  cbn [append]. apply hasRepeatedDigits_later, IH.
Qed.

Lemma substring_split (n m : nat) (s e : string) :
  String.substring n m s = e -> String.length e = m ->
  exists before rest, s = before ++ e ++ rest.
Proof.
  revert m s e. induction n as [|n IH]; intros m s e.
  - revert s e. induction m as [|m IHm]; intros s e H Hlen.
    + destruct e; [|discriminate Hlen]. exists EmptyString, s. reflexivity.
    + destruct s as [|c s]; cbn [String.substring] in H.
      * subst e. discriminate Hlen.
      * destruct e as [|c' e]; [discriminate H|].
        injection H as -> H. injection Hlen as Hlen.
        destruct (IHm s e H Hlen) as (before & rest & Heq).
        destruct before as [|b before].
        -- exists EmptyString, rest. cbn [append] in Heq |- *. rewrite <- Heq. reflexivity.
        -- exists EmptyString, (Js.drop (String.length e) s). cbn [append]. f_equal.
           clear - H. revert m e H. induction s as [|x s IHs]; intros m e H.
           ++ destruct m; cbn [String.substring] in H; subst e; reflexivity.
           ++ destruct m; cbn [String.substring] in H; subst e; [reflexivity|].
              cbn [String.length Js.drop append]. f_equal. apply (IHs m). reflexivity.
  - intros H Hlen. destruct s as [|c s]; cbn [String.substring] in H.
    + destruct m; subst e; cbn [String.length] in Hlen; subst;
        exists EmptyString, EmptyString; reflexivity.
    + destruct (IH m s e H Hlen) as (before & rest & Heq).
      exists (String c before), rest. cbn [append]. rewrite <- Heq. reflexivity.
Qed.

Lemma hasVoipEnding_repeats (s : string) :
  hasVoipEnding s = true -> hasRepeatedDigits s = true.
Proof.
  unfold hasVoipEnding. intro H.
  apply List.existsb_exists in H as (ending & Hin & Hends).
  unfold Js.endsWith in Hends. apply andb_prop in Hends as [_ Heq].
  apply String.eqb_eq in Heq.
  destruct (substring_split _ _ s ending Heq eq_refl) as (before & rest & ->).
  apply hasRepeatedDigits_app.
  unfold voipEndings in Hin. cbn [In] in Hin.
  repeat (destruct Hin as [<-|Hin]; [reflexivity|]). destruct Hin.
Qed.

(** X16.  The rule on the ten quadruple endings never decides a verdict:
    a number that ends in four equal digits already holds three equal
    digits in a row, so the pattern rules amount to the repeated-digit,
    the sequential-digit and the few-distinct-digits rules. *)
Theorem patternVerdict_without_endings (nationalNumber : string) :
  patternVerdict nationalNumber =
  hasRepeatedDigits nationalNumber || hasSequentialDigits nationalNumber ||
  hasFewUniqueDigits nationalNumber.
Proof.
  unfold patternVerdict.
  destruct (hasRepeatedDigits nationalNumber) eqn:Hrep; [reflexivity|].
  destruct (hasSequentialDigits nationalNumber); [reflexivity|].
  destruct (hasVoipEnding nationalNumber) eqn:Hend.
  - rewrite (hasVoipEnding_repeats _ Hend) in Hrep. discriminate Hrep.
  - destruct (hasFewUniqueDigits nationalNumber); reflexivity.
Qed.



(** X18.  The local classifier never touches the network and never
    raises: in every world it returns a verdict, and all it emits is at
    most one console warning. *)
Theorem heuristic_classifier_is_local (phone metadataType : string) (w : World) :
  (exists verdict, fst (isPhoneNumberVoipLibPhoneNumber phone metadataType w) = inr verdict) /\
  List.forallb isWarning (snd (isPhoneNumberVoipLibPhoneNumber phone metadataType w)) = true /\
  List.length (snd (isPhoneNumberVoipLibPhoneNumber phone metadataType w)) <= 1.
Proof.
  unfold isPhoneNumberVoipLibPhoneNumber, tryCatch, bind, ask, liftExc, ret, emit.
  destruct (parsePhoneNumber w (Some phone)) as [e|[parsed|]];
    try (split; [eexists; reflexivity|split; [reflexivity|simpl; lia]]).
  destruct (isValid parsed); cbn [negb];
    try (split; [eexists; reflexivity|split; [reflexivity|simpl; lia]]).
  destruct (hasVoipAreaCode parsed);
    try (split; [eexists; reflexivity|split; [reflexivity|simpl; lia]]).
  destruct (isNonGeographic parsed);
    try (split; [eexists; reflexivity|split; [reflexivity|simpl; lia]]).
  destruct (String.eqb metadataType "full");
    try (split; [eexists; reflexivity|split; [reflexivity|simpl; lia]]).
  destruct (getNumberType w phone) as [e|numberType];
    try (split; [eexists; reflexivity|split; [reflexivity|simpl; lia]]).
  destruct (numberTypeVerdict numberType);
    split; try (eexists; reflexivity); split; try reflexivity; simpl; lia.
Qed.

(** X19.  The first two rules come before everything else: a valid number
    with a listed US prefix, or one flagged non-geographic, is classified
    as VoIP whatever the metadata type and whatever the number-type
    lookup would say. *)
Theorem reserved_numbers_always_flagged
  (phone metadataType : string) (w : World) (parsed : PhoneNumber) :
  parsePhoneNumber w (Some phone) = inr (Some parsed) ->
  isValid parsed = true ->
  hasVoipAreaCode parsed || isNonGeographic parsed = true ->
  isPhoneNumberVoipLibPhoneNumber phone metadataType w = (inr true, []).
Proof.
  intros Hparse Hvalid Hrule.
  unfold isPhoneNumberVoipLibPhoneNumber, tryCatch, bind, ask, liftExc, ret, emit.
  rewrite Hparse, Hvalid. cbn [negb].
  destruct (hasVoipAreaCode parsed); [reflexivity|].
  cbn [orb] in Hrule. rewrite Hrule. reflexivity.
Qed.

Lemma reserved_numbers_always_flagged_witness :
  isPhoneNumberVoipLibPhoneNumber "+18885550100" "full" Worlds.fullMetadata = (inr true, []).
Proof.
  exact (reserved_numbers_always_flagged "+18885550100" "full" Worlds.fullMetadata
           (Worlds.usNumber "8885550100") eq_refl eq_refl eq_refl).
Defined.

Lemma makeRequest_one_signed_request_log {crypto : SubtleCrypto}
  (this : SNSClient) (action : string) (params : JsObject) (w : World) :
  snd (makeRequest this action params w) =
  [ EvSign "GET" (requestUrl this action params);
    EvFetch (requestUrl this action params)
      (headersOut (signAt this (clock w) "GET" (requestUrl this action params)
                     contentTypeHeader EmptyString)) ].
Proof. apply makeRequestWith_log. intro. apply parseXMLResponse_silent. Qed.

(** ** The orchestrator: what reaches the network *)

Lemma forallb_app_true {A : Type} (p : A -> bool) (a b : list A) :
  List.forallb p a = true -> List.forallb p b = true -> List.forallb p (a ++ b) = true.
Proof. intros Ha Hb. rewrite List.forallb_app, Ha, Hb. reflexivity. Qed.

Lemma normalise_warnings (useLib : bool) (phone : option string) (w : World) :
  List.forallb isWarning (snd (normalise useLib phone w)) = true.
Proof.
  unfold normalise, formatPhoneNumberLibPhoneNumber, formatPhoneNumberCall,
    tryCatch, bind, ask, liftExc, ret, emit, throwEngine.
  destruct useLib; [|destruct phone; reflexivity].
  destruct (parsePhoneNumber w phone) as [e|[parsed|]], phone;
    try destruct (isValid parsed); reflexivity.
Qed.

Lemma isValidPhoneNumber_warnings (phone : string) (useLib : bool) (w : World) :
  List.forallb isWarning (snd (isValidPhoneNumber phone useLib w)) = true.
Proof.
  unfold isValidPhoneNumber, tryCatch, bind, ask, liftExc, ret, emit.
  destruct useLib; [|reflexivity].
  destruct (parsePhoneNumber w (Some phone)) as [e|[parsed|]]; reflexivity.
Qed.

Section Reach.

Context {crypto : SubtleCrypto}.

(** X20.  A missing, empty or malformed code is refused before anything
    else happens: the result is a failure with the code's error message,
    and the run has emitted nothing, not a warning and not a request. *)
Theorem verifyPhone_refuses_bad_code_silently
  (options : Options.t) (w : World)
  (credentials : option string * option string * option string) :
  fst (bindCredentials options w) = inr credentials ->
  match Options.code options with
  | Some code => codeRegex code = false
  | None => True
  end ->
  exists text,
    verifyPhone options w = (inr (failure {| message := text; stack := stackOf w text |}), []) /\
    (text = "Verification code is required" \/
     text = "Code must be alphanumeric and at least 4 characters").
Proof.
  intros Hbound Hcode.
  rewrite (verifyPhone_bound options w credentials Hbound).
  destruct credentials as [[keyId secret] awsRegion].
  unfold verifyPhoneTry, verifyPhoneBody, tryCatch, throwError, ret.
  destruct (Options.code options) as [code|].
  - destruct (String.eqb code EmptyString).
    + eexists. split; [reflexivity|left; reflexivity].
    + rewrite Hcode. cbn [negb]. eexists. split; [reflexivity|right; reflexivity].
  - eexists. split; [reflexivity|left; reflexivity].
Qed.

(** X21.  A phone number the validator refuses ends the call with the
    format error before any request: the run has emitted nothing but the
    warnings of the normaliser and the validator. *)
Theorem verifyPhone_refuses_bad_phone_offline
  (options : Options.t) (w : World)
  (credentials : option string * option string * option string)
  (code formattedPhone : string) (t1 t2 : list Event) :
  let useLib := orElse (Options.useLibPhoneNumber options) false in
  let text := "Invalid phone number format. Please use E.164 format (e.g., +1234567890)" in
  fst (bindCredentials options w) = inr credentials ->
  Options.code options = Some code ->
  codeRegex code = true ->
  normalise useLib (Options.phoneNumber options) w = (inr formattedPhone, t1) ->
  isValidPhoneNumber formattedPhone useLib w = (inr false, t2) ->
  verifyPhone options w =
    (inr (failure {| message := text; stack := stackOf w text |}), (t1 ++ t2)%list) /\
  List.forallb isWarning (t1 ++ t2) = true.
Proof.
  intros useLib text Hbound Hcode Hregex Hnormalise Hvalid. split.
  - rewrite (verifyPhone_bound options w credentials Hbound).
    destruct credentials as [[keyId secret] awsRegion].
    unfold verifyPhoneTry, verifyPhoneBody, tryCatch, bind.
    rewrite Hcode, (codeRegex_nonempty code Hregex), Hregex. cbn [negb].
    fold useLib. rewrite Hnormalise, Hvalid. cbn [negb throwError ret].
    rewrite !List.app_nil_r. reflexivity.
  - apply forallb_app_true.
    + pose proof (normalise_warnings useLib (Options.phoneNumber options) w) as H.
      rewrite Hnormalise in H. exact H.
    + pose proof (isValidPhoneNumber_warnings formattedPhone useLib w) as H.
      rewrite Hvalid in H. exact H.
Qed.

Lemma dispatch_log (keyId secret awsRegion : option string)
  (code phone senderId smsType template : string) (w : World) :
  let client := newSNSClient keyId secret awsRegion in
  let url :=
    requestUrl client "Publish"
      (publishParams (Js.replaceFirst "{code}" code template) phone senderId smsType) in
  snd (dispatch keyId secret awsRegion code phone senderId smsType template w) =
  [ EvNewSNSClient keyId secret (region client);
    EvSign "GET" url;
    EvFetch url (headersOut (signAt client (clock w) "GET" url contentTypeHeader EmptyString)) ].
Proof.
  intros client url. unfold dispatch.
  rewrite snd_bind. cbn [emit fst snd].
  rewrite snd_bind.
  pose proof (makeRequest_one_signed_request_log client "Publish"
                (publishParams (Js.replaceFirst "{code}" code template) phone senderId smsType) w)
    as Hlog.
  fold client. rewrite Hlog.
  destruct (fst (makeRequest client "Publish" _ w)); [reflexivity|].
  cbn [ret snd]. rewrite List.app_nil_r. reflexivity.
Qed.

End Reach.

Lemma verifyPhone_refuses_bad_code_silently_witness :
  exists text,
    verifyPhone (Worlds.request "+12065550100" "12" None) Worlds.offline =
      (inr (failure {| message := text; stack := stackOf Worlds.offline text |}), []) /\
    (text = "Verification code is required" \/
     text = "Code must be alphanumeric and at least 4 characters").
Proof.
  apply (verifyPhone_refuses_bad_code_silently
           (Worlds.request "+12065550100" "12" None) Worlds.offline (None, None, None));
    reflexivity.
Defined.

Lemma verifyPhone_refuses_bad_phone_offline_witness :
  verifyPhone (Worlds.request "12345" "123456" None) Worlds.offline =
  (inr (failure
          {| message := "Invalid phone number format. Please use E.164 format (e.g., +1234567890)";
             stack := Some "Error: Invalid phone number format. Please use E.164 format (e.g., +1234567890)" |}),
   []).
Proof.
  apply (verifyPhone_refuses_bad_phone_offline
           (Worlds.request "12345" "123456" None) Worlds.offline (None, None, None)
           "123456" "+12345" [] []);
    reflexivity.
Defined.

(** ** The orchestrator: the lookup service and the message *)

Lemma warnings_are_not_lookups (log : list Event) :
  List.forallb isWarning log = true -> List.existsb isLookupEvent log = false.
Proof.
  induction log as [|e log IH]; [reflexivity|].
  cbn [List.forallb List.existsb]. intro H. apply andb_prop in H as [He Hlog].
  rewrite (IH Hlog). destruct e; try discriminate He. reflexivity.
Qed.

Lemma isPhoneNumberVoipLibPhoneNumber_warnings (phone metadataType : string) (w : World) :
  List.forallb isWarning (snd (isPhoneNumberVoipLibPhoneNumber phone metadataType w)) = true.
Proof.
  unfold isPhoneNumberVoipLibPhoneNumber, tryCatch, bind, ask, liftExc, ret, emit.
  destruct (parsePhoneNumber w (Some phone)) as [e|[parsed|]]; try reflexivity.
  destruct (isValid parsed); [|reflexivity]. cbn [negb].
  destruct (hasVoipAreaCode parsed); [reflexivity|].
  destruct (isNonGeographic parsed); [reflexivity|].
  destruct (String.eqb metadataType "full"); [|reflexivity].
  destruct (getNumberType w phone) as [e|numberType]; [reflexivity|].
  destruct (numberTypeVerdict numberType); reflexivity.
Qed.

Lemma replaceFirst_absent (pat rep s : string) :
  Js.includes s pat = false -> Js.replaceFirst pat rep s = s.
Proof.
  induction s as [|c s IH]; cbn [Js.includes Js.replaceFirst]; intro H;
    apply orb_false_iff in H as [Hhere Hlater]; rewrite Hhere; [reflexivity|].
  rewrite (IH Hlater). reflexivity.
Qed.

Lemma substring_all (s : string) : String.substring 0 (String.length s) s = s.
Proof. induction s as [|c s IH]; [reflexivity|]. cbn. rewrite IH. reflexivity. Qed.

Lemma replaceFirst_placeholder (rep before after : string) :
  noBrace before = true ->
  Js.replaceFirst "{code}" rep (before ++ "{code}" ++ after) = before ++ rep ++ after.
Proof.
  induction before as [|c before IH]; intro H.
  - change (EmptyString ++ "{code}" ++ after) with ("{code}" ++ after).
    change (EmptyString ++ rep ++ after) with (rep ++ after).
    pose proof (prefix_app "{code}" after) as Hp.
    cbn [append] in Hp |- *. cbn [Js.replaceFirst]. rewrite Hp.
    cbn [String.length Nat.sub String.substring].
    rewrite Nat.sub_0_r, substring_all. reflexivity.
  - unfold noBrace in H. cbn [Js.all] in H. apply andb_prop in H as [Hc Hrest].
    change (String c before ++ "{code}" ++ after)
      with (String c (before ++ "{code}" ++ after)).
    change (String c before ++ rep ++ after) with (String c (before ++ rep ++ after)).
    cbn [Js.replaceFirst].
    replace (String.prefix "{code}" (String c (before ++ "{code}" ++ after))) with false.
    + rewrite (IH Hrest). reflexivity.
    + cbn [String.prefix]. destruct (ascii_dec "{" c) as [E|E]; [|reflexivity].
      subst c. discriminate Hc.
Qed.

Section Message.

Context {crypto : SubtleCrypto}.

Lemma dispatch_no_lookup (keyId secret awsRegion : option string)
  (code phone senderId smsType template : string) (w : World) :
  List.existsb isLookupEvent
    (snd (dispatch keyId secret awsRegion code phone senderId smsType template w)) = false.
Proof. rewrite dispatch_log. destruct awsRegion; reflexivity. Qed.

Lemma verifyPhoneBody_no_lookup
  (phone code keyId secret awsRegion : option string)
  (blockVoip : bool) (method : string) (useLib : bool)
  (metadataType senderId smsType template : string) (w : World) :
  blockVoip = false \/ method = "libphonenumber" ->
  List.existsb isLookupEvent
    (snd (verifyPhoneBody phone code keyId secret awsRegion blockVoip method useLib
            metadataType senderId smsType template w)) = false.
Proof.
  intro Hlocal. unfold verifyPhoneBody.
  destruct code as [code|]; [|reflexivity].
  destruct (String.eqb code EmptyString); [reflexivity|].
  destruct (codeRegex code); cbn [negb]; [|reflexivity].
  pose proof (warnings_are_not_lookups _ (normalise_warnings useLib phone w)) as Hn.
  rewrite snd_bind. destruct (fst (normalise useLib phone w)) as [e|formatted]; [exact Hn|].
  rewrite List.existsb_app, Hn. cbn [orb].
  pose proof (warnings_are_not_lookups _ (isValidPhoneNumber_warnings formatted useLib w)) as Hv.
  rewrite snd_bind.
  destruct (fst (isValidPhoneNumber formatted useLib w)) as [e|valid]; [exact Hv|].
  rewrite List.existsb_app, Hv. cbn [orb].
  destruct valid; cbn [negb]; [|reflexivity].
  rewrite snd_bind.
  assert (Hc : List.existsb isLookupEvent
                 (snd ((if blockVoip then classify method metadataType formatted
                        else ret false) w)) = false).
  { destruct blockVoip; [|reflexivity].
    destruct Hlocal as [Hoff| ->]; [discriminate Hoff|].
    unfold classify. rewrite String.eqb_refl.
    apply warnings_are_not_lookups, isPhoneNumberVoipLibPhoneNumber_warnings. }
  destruct (fst ((if blockVoip then classify method metadataType formatted
                  else ret false) w)) as [e|isVoip]; [exact Hc|].
  rewrite List.existsb_app, Hc. cbn [orb].
  destruct isVoip; [reflexivity|]. apply dispatch_no_lookup.
Qed.

(** X22.  The phone number goes to the lookup service only when VoIP
    blocking is requested with the API method: with blocking off (the
    default), or with the method [libphonenumber], no run of
    [verifyPhone] holds a request to [www.sent.dm]. *)
Theorem verifyPhone_lookup_only_for_api_blocking (options : Options.t) (w : World) :
  orElse (Options.blockVoip options) false = false \/
  orElse (Options.voipDetectionMethod options) "api" = "libphonenumber" ->
  List.existsb isLookupEvent (snd (verifyPhone options w)) = false.
Proof.
  intro Hlocal.
  destruct (fst (bindCredentials options w)) as [e|credentials] eqn:Hbound.
  - rewrite (verifyPhone_unbound options w e Hbound). reflexivity.
  - rewrite (verifyPhone_bound options w credentials Hbound).
    destruct credentials as [[keyId secret] awsRegion].
    unfold verifyPhoneTry. rewrite snd_tryCatch.
    match goal with |- context [verifyPhoneBody ?a ?b ?c ?d ?e ?f ?g ?h ?i ?j ?k ?l w] =>
      pose proof (verifyPhoneBody_no_lookup a b c d e f g h i j k l w Hlocal) as Hbody;
      destruct (fst (verifyPhoneBody a b c d e f g h i j k l w))
    end.
    + rewrite List.existsb_app, Hbody. reflexivity.
    + exact Hbody.
Qed.

(** X23.  Where [process] is declared, or when the caller passes both
    credentials and the region, [verifyPhone] never raises: whatever the
    options, the network and the libraries do, it returns a result, and a
    result that is not a success carries a non-empty [error]. *)
Theorem verifyPhone_returns_where_process_is_declared (options : Options.t) (w : World) :
  processGlobal w <> ProcessUndeclared \/
  (Options.accessKeyId options <> None /\
   Options.secretAccessKey options <> None /\
   Options.awsRegion options <> None) ->
  exists result,
    fst (verifyPhone options w) = inr result /\
    (Result.success result = false ->
     exists text, Result.error result = Some text /\ text <> EmptyString).
Proof.
  intro H. destruct (bindCredentials_completes options w H) as [credentials Hbound].
  exact (verifyPhone_returns_when_bound options w credentials Hbound).
Qed.

(** X24.  A template without the placeholder [{code}] is sent as it is:
    the published message is the template, so the requests of the
    dispatch are the same for every code and the code never leaves the
    process, although the result still reports it as sent. *)
Theorem dispatch_without_placeholder_never_sends_code
  (keyId secret awsRegion : option string)
  (phone senderId smsType template : string) (w : World) :
  Js.includes template "{code}" = false ->
  forall code : string,
    let client := newSNSClient keyId secret awsRegion in
    let url :=
      requestUrl client "Publish" (publishParams template phone senderId smsType) in
    snd (dispatch keyId secret awsRegion code phone senderId smsType template w) =
      [ EvNewSNSClient keyId secret (region client);
        EvSign "GET" url;
        EvFetch url
          (headersOut (signAt client (clock w) "GET" url contentTypeHeader EmptyString)) ] /\
    (forall other : string,
       snd (dispatch keyId secret awsRegion code phone senderId smsType template w) =
       snd (dispatch keyId secret awsRegion other phone senderId smsType template w)) /\
    (forall result,
       fst (dispatch keyId secret awsRegion code phone senderId smsType template w)
         = inr result ->
       Result.code result = Some code).
Proof.
  intros Habsent code client url. split; [|split].
  - rewrite dispatch_log, (replaceFirst_absent _ _ _ Habsent). reflexivity.
  - intro other.
    rewrite !dispatch_log, !(replaceFirst_absent _ _ _ Habsent). reflexivity.
  - unfold dispatch. intros result H.
    apply bind_inr in H as [u [_ H]].
    apply bind_inr in H as [response [_ H]].
    unfold ret in H. simpl in H. injection H as <-. reflexivity.
Qed.

End Message.

Lemma verifyPhone_lookup_only_for_api_blocking_witness :
  List.existsb isLookupEvent
    (snd (verifyPhone (Worlds.request "+12065550100" "123456" None)
            (Worlds.online Worlds.emptyEnv Worlds.bandwidthCarrier))) = false.
Proof.
  apply (verifyPhone_lookup_only_for_api_blocking
           (Worlds.request "+12065550100" "123456" None)
           (Worlds.online Worlds.emptyEnv Worlds.bandwidthCarrier)).
  left. reflexivity.
Defined.

Lemma verifyPhone_returns_where_process_is_declared_witness :
  exists result,
    fst (verifyPhone (Worlds.request "+12065550100" "123456" (Some true)) Worlds.offline)
      = inr result /\
    (Result.success result = false ->
     exists text, Result.error result = Some text /\ text <> EmptyString).
Proof.
  apply (verifyPhone_returns_where_process_is_declared
           (Worlds.request "+12065550100" "123456" (Some true)) Worlds.offline).
  left. discriminate.
Defined.

Lemma dispatch_without_placeholder_never_sends_code_witness :
  snd (dispatch None None None "123456" "+12065550100" "Verify" "Transactional"
         "Welcome back." Worlds.offline) =
  snd (dispatch None None None "999999" "+12065550100" "Verify" "Transactional"
         "Welcome back." Worlds.offline).
Proof.
  destruct (dispatch_without_placeholder_never_sends_code None None None
              "+12065550100" "Verify" "Transactional" "Welcome back." Worlds.offline
              eq_refl "123456") as [_ [Hsame _]].
  exact (Hsame "999999").
Defined.

Section Placeholder.

Context {crypto : SubtleCrypto}.

(** X25.  Only the first placeholder is filled: for a code the validation
    accepts and a template [before{code}after] with no brace in [before],
    the published message is [before], the code, then [after] unchanged,
    whatever [after] holds. *)
Theorem dispatch_fills_first_placeholder
  (keyId secret awsRegion : option string)
  (code phone senderId smsType before after : string) (w : World) :
  codeRegex code = true ->
  noBrace before = true ->
  let client := newSNSClient keyId secret awsRegion in
  let url :=
    requestUrl client "Publish"
      (publishParams (before ++ code ++ after) phone senderId smsType) in
  snd (dispatch keyId secret awsRegion code phone senderId smsType
         (before ++ "{code}" ++ after) w) =
  [ EvNewSNSClient keyId secret (region client);
    EvSign "GET" url;
    EvFetch url (headersOut (signAt client (clock w) "GET" url contentTypeHeader EmptyString)) ].
Proof.
  intros _ Hbefore client url.
  rewrite dispatch_log, (replaceFirst_placeholder code before after Hbefore). reflexivity.
Qed.

End Placeholder.

Lemma dispatch_fills_first_placeholder_witness :
  List.map (fun e => match e with EvSign _ url => url | _ => EmptyString end)
    (snd (dispatch None None None "123456" "+12065550100" "Verify" "Transactional"
            ("Code: " ++ "{code}" ++ " ({code})") Worlds.offline)) =
  [ EmptyString;
    requestUrl (newSNSClient None None None) "Publish"
      (publishParams "Code: 123456 ({code})" "+12065550100" "Verify" "Transactional");
    EmptyString ].
Proof.
  rewrite (dispatch_fills_first_placeholder None None None
             "123456" "+12065550100" "Verify" "Transactional" "Code: " " ({code})"
             Worlds.offline eq_refl eq_refl).
  reflexivity.
Defined.

(** ** verify-phone-server.js *)

Lemma charAt_digit (d : nat) :
  d < 10 ->
  exists c, Server.charAt "0123456789" d = String c EmptyString /\ Js.isDigit c = true.
Proof.
  intro H.
  do 10 (destruct d as [|d]; [eexists; split; reflexivity|]).
  lia.
Qed.

Lemma generateCodeFrom_digits (random : nat -> nat) :
  (forall i, random i < 10) ->
  forall remaining i result,
    String.length (Server.generateCodeFrom random i remaining result)
      = String.length result + remaining /\
    (Js.all Js.isDigit result = true ->
     Js.all Js.isDigit (Server.generateCodeFrom random i remaining result) = true).
Proof.
  intros Hrandom remaining.
  induction remaining as [|remaining IH]; intros i result; cbn [Server.generateCodeFrom].
  - split; [lia|trivial].
  - destruct (charAt_digit (random i) (Hrandom i)) as [c [Hc Hdigit]].
    destruct (IH (S i) (result ++ Server.charAt "0123456789" (random i))) as [Hlen Hall].
    split.
    + rewrite Hlen, length_append, Hc. cbn [String.length]. lia.
    + intro Hresult. apply Hall. rewrite all_app, Hresult, Hc. cbn [Js.all].
      rewrite Hdigit. reflexivity.
Qed.

Lemma digits_are_alphanumeric (s : string) :
  Js.all Js.isDigit s = true -> Js.all Js.isAlnum s = true.
Proof.
  induction s as [|c s IH]; [reflexivity|]. cbn [Js.all]. intro H.
  apply andb_prop in H as [Hc Hs]. unfold Js.isAlnum at 1. rewrite Hc, (IH Hs). reflexivity.
Qed.

(** X26.  With [Math.random] in its range, [generateCode] gives a string
    of the requested length, six by default, made of decimal digits; from
    four digits on it is a code that the validation of [verifyPhone]
    accepts. *)
Theorem generateCode_gives_valid_codes (random : nat -> nat) (length : option nat) :
  (forall i, random i < 10) ->
  String.length (Server.generateCode random length) = orElse length 6 /\
  Js.all Js.isDigit (Server.generateCode random length) = true /\
  (4 <= orElse length 6 -> codeRegex (Server.generateCode random length) = true).
Proof.
  intro Hrandom. unfold Server.generateCode.
  destruct (generateCodeFrom_digits random Hrandom (orElse length 6) 0 EmptyString)
    as [Hlen Hall].
  cbn [String.length Nat.add] in Hlen. specialize (Hall eq_refl).
  split; [exact Hlen|split; [exact Hall|]].
  intro Hfour. unfold codeRegex.
  rewrite (digits_are_alphanumeric _ Hall), Hlen. apply Nat.leb_le in Hfour.
  rewrite Hfour. reflexivity.
Qed.

Lemma generateCode_gives_valid_codes_witness :
  String.length (Server.generateCode Requests.sevens None) = 6 /\
  Js.all Js.isDigit (Server.generateCode Requests.sevens None) = true /\
  (4 <= 6 -> codeRegex (Server.generateCode Requests.sevens None) = true).
Proof.
  apply (generateCode_gives_valid_codes Requests.sevens None).
  intro i. unfold Requests.sevens. lia.
Defined.

(** X27.  [authenticateApiKey] fails closed.  Where [API_KEY] is not set,
    or set to the empty string, every request is answered with 401; a
    non-empty [X-API-Key] that differs from the key is answered with 401
    whatever [Authorization] holds; and a request is passed on only with
    the non-empty key itself, in [X-API-Key] or in [Authorization] once
    the first [Bearer ] is removed. *)
Theorem authenticateApiKey_fails_closed {B : Type} (c : Server.Context B) :
  (Server.truthyString (Server.envOf c "API_KEY") = false ->
   Server.authenticateApiKey c = Server.Answered Server.unauthorized) /\
  (Server.truthyString (Server.header c "X-API-Key") = true ->
   Server.header c "X-API-Key" <> Server.envOf c "API_KEY" ->
   Server.authenticateApiKey c = Server.Answered Server.unauthorized) /\
  (Server.authenticateApiKey c = Server.Next ->
   exists key,
     key <> EmptyString /\
     Server.envOf c "API_KEY" = Some key /\
     (Server.header c "X-API-Key" = Some key \/
      exists value,
        Server.header c "Authorization" = Some value /\
        Js.replaceFirst "Bearer " EmptyString value = key)).
Proof.
  assert (Hne : forall a b : option string, Server.strictNe a b = false -> a = b).
  { intros [a|] [b|]; cbn; intro H; try discriminate H; [|reflexivity].
    apply negb_false_iff, String.eqb_eq in H. subst. reflexivity. }
  assert (Htruthy : forall a, Server.truthyString a = true ->
                     exists key, a = Some key /\ key <> EmptyString).
  { intros [a|]; cbn; intro H; [|discriminate H]. exists a. split; [reflexivity|].
    intros ->. discriminate H. }
  unfold Server.authenticateApiKey.
  set (apiKey := Server.orString _ _).
  split; [|split].
  - intro Hunset.
    destruct (Server.truthyString apiKey) eqn:Hkey; [|reflexivity]. cbn [negb orb].
    destruct (Server.strictNe apiKey (Server.envOf c "API_KEY")) eqn:Hcmp; [reflexivity|].
    apply Hne in Hcmp. rewrite <- Hcmp, Hkey in Hunset. discriminate Hunset.
  - intros Hheader Hdiffers.
    assert (HapiKey : apiKey = Server.header c "X-API-Key").
    { unfold apiKey, Server.orString. rewrite Hheader. reflexivity. }
    rewrite HapiKey, Hheader. cbn [negb orb].
    destruct (Server.strictNe _ _) eqn:Hcmp; [reflexivity|].
    apply Hne in Hcmp. contradiction.
  - destruct (Server.truthyString apiKey) eqn:Hkey; [|discriminate]. cbn [negb orb].
    destruct (Server.strictNe apiKey (Server.envOf c "API_KEY")) eqn:Hcmp; [discriminate|].
    intros _. apply Hne in Hcmp. destruct (Htruthy _ Hkey) as [key [Hsome Hnonempty]].
    exists key. split; [exact Hnonempty|]. split; [rewrite <- Hcmp; exact Hsome|].
    unfold apiKey, Server.orString in Hsome.
    destruct (Server.truthyString (Server.header c "X-API-Key")); [left; exact Hsome|].
    right. destruct (Server.header c "Authorization") as [value|]; [|discriminate Hsome].
    exists value. split; [reflexivity|]. cbn [option_map] in Hsome.
    injection Hsome as ->. reflexivity.
Qed.

Lemma authenticateApiKey_fails_closed_witness :
  Server.authenticateApiKey
    (Requests.context (inr (Requests.sendBody "+12065550100" None)) None
       [("X-API-Key", "s3cret")])
  = Server.Answered Server.unauthorized.
Proof.
  destruct (authenticateApiKey_fails_closed
              (Requests.context (inr (Requests.sendBody "+12065550100" None)) None
                 [("X-API-Key", "s3cret")])) as [Hunset _].
  apply Hunset. reflexivity.
Defined.

Section Handlers.

Context {crypto : SubtleCrypto}.

Lemma truthyString_some (v : option string) :
  Server.truthyString v = true -> exists s, v = Some s.
Proof. destruct v as [s|]; [eexists; reflexivity|discriminate]. Qed.

(** X28.  With both credentials set in the Worker's environment, the send
    handler answers with the result of [verifyPhone] and with nothing
    else, in every world: status 200 for a success and 400 otherwise.  The
    region it passes is never absent, so [verifyPhone] reads no
    [process] binding and the handler's own 500 is not reached, also in a
    runtime without [process]. *)
Theorem sendHandler_answers_from_result (random : nat -> nat)
  (c : Server.Context SendBody.t) (body : SendBody.t) (w : World) :
  Server.json c = inr body ->
  Server.truthyString (Server.envOf c "AWS_ACCESS_KEY_ID") = true ->
  Server.truthyString (Server.envOf c "AWS_SECRET_ACCESS_KEY") = true ->
  exists result,
    verifyPhone (Server.sendOptions random c body) w
      = (inr result, snd (Server.sendHandler random c w)) /\
    fst (Server.sendHandler random c w) = inr (Server.sendReply result) /\
    Server.status (Server.sendReply result) = (if Result.success result then 200 else 400).
Proof.
  intros Hjson Hkey Hsecret.
  destruct (truthyString_some _ Hkey) as [keyId HkeyId].
  destruct (truthyString_some _ Hsecret) as [secret Hsecret'].
  assert (Hregion : exists awsRegion,
            Options.awsRegion (Server.sendOptions random c body) = Some awsRegion).
  { cbn [Server.sendOptions Options.awsRegion]. unfold Server.orString.
    destruct (Server.truthyString (Server.envOf c "AWS_REGION")) eqn:E.
    - exact (truthyString_some _ E).
    - eexists. reflexivity. }
  destruct Hregion as [awsRegion Hregion].
  pose proof (bindCredentials_given (Server.sendOptions random c body) w
                keyId secret awsRegion HkeyId Hsecret' Hregion) as Hbound.
  destruct (verifyPhone_returns_when_bound (Server.sendOptions random c body) w
              (Some keyId, Some secret, Some awsRegion)) as [result [Hresult _]].
  { rewrite Hbound. reflexivity. }
  exists result.
  unfold Server.sendHandler, tryCatch, bind, liftExc. rewrite Hjson.
  cbn [Server.sendOptions Options.accessKeyId Options.secretAccessKey].
  rewrite Hkey, Hsecret. cbn [negb orb].
  fold (Server.sendOptions random c body).
  destruct (verifyPhone (Server.sendOptions random c body) w) as [[e|r] t];
    cbn [fst] in Hresult; [discriminate Hresult|].
  injection Hresult as ->. cbn [ret fst snd].
  rewrite List.app_nil_r.
  split; [reflexivity|split; [reflexivity|]].
  unfold Server.sendReply. destruct (Result.success result); reflexivity.
Qed.

(** X29.  A body that cannot be read, or a credential that is missing or
    empty in the environment, is answered with status 500 before anything
    is sent: the run of the handler holds no event at all. *)
Theorem sendHandler_refuses_before_sending (random : nat -> nat)
  (c : Server.Context SendBody.t) (w : World) :
  (exists e, Server.json c = inl e) \/
  Server.truthyString (Server.envOf c "AWS_ACCESS_KEY_ID") = false \/
  Server.truthyString (Server.envOf c "AWS_SECRET_ACCESS_KEY") = false ->
  exists reply,
    Server.sendHandler random c w = (inr reply, []) /\
    Server.status reply = 500.
Proof.
  intro H. unfold Server.sendHandler, tryCatch, bind, liftExc.
  destruct (Server.json c) as [e|body] eqn:Hjson.
  - eexists. split; reflexivity.
  - cbn [Server.sendOptions Options.accessKeyId Options.secretAccessKey].
    destruct H as [[e He]|[Hkey|Hsecret]]; [discriminate He| |].
    + rewrite Hkey. cbn [negb orb]. eexists. split; reflexivity.
    + rewrite Hsecret, orb_true_r. eexists. split; reflexivity.
Qed.

End Handlers.

Lemma sendHandler_answers_from_result_witness :
  exists result,
    verifyPhone
      (Server.sendOptions Requests.sevens
         (Requests.context (inr (Requests.sendBody "+12065550100" None))
            (Some Requests.configured) [])
         (Requests.sendBody "+12065550100" None)) Worlds.browser
      = (inr result,
         snd (Server.sendHandler Requests.sevens
                (Requests.context (inr (Requests.sendBody "+12065550100" None))
                   (Some Requests.configured) []) Worlds.browser)) /\
    fst (Server.sendHandler Requests.sevens
           (Requests.context (inr (Requests.sendBody "+12065550100" None))
              (Some Requests.configured) []) Worlds.browser)
      = inr (Server.sendReply result) /\
    Server.status (Server.sendReply result) = (if Result.success result then 200 else 400).
Proof.
  apply (sendHandler_answers_from_result Requests.sevens
           (Requests.context (inr (Requests.sendBody "+12065550100" None))
              (Some Requests.configured) [])
           (Requests.sendBody "+12065550100" None) Worlds.browser);
    reflexivity.
Defined.

Lemma sendHandler_refuses_before_sending_witness :
  exists reply,
    Server.sendHandler Requests.sevens
      (Requests.context (inr (Requests.sendBody "+12065550100" None)) None [])
      Worlds.browser = (inr reply, []) /\
    Server.status reply = 500.
Proof.
  apply (sendHandler_refuses_before_sending Requests.sevens
           (Requests.context (inr (Requests.sendBody "+12065550100" None)) None [])
           Worlds.browser).
  right. left. reflexivity.
Defined.

(** The send handler in a runtime without [process]: the generated code
    777777 is sent and the answer is a 200. *)
Example sendHandler_in_a_worker :
  option_map Server.status
    (match fst (Server.sendHandler Requests.sevens
                  (Requests.context (inr (Requests.sendBody "+12065550100" None))
                     (Some Requests.configured) []) Worlds.browser) with
     | inr reply => Some reply
     | inl _ => None
     end) = Some 200.
Proof. vm_compute. reflexivity. Qed.

(** ** sns.js: [sendSMS] *)

(** X30.  [sendSMS] hands every outcome to the callback.  Without a
    client it calls the callback with the error that no client is
    initialised and makes no request.  A call of [makeRequest] that
    fails reaches the callback as [{err, 'err.stack'}]: with a message
    that starts with [SNS Request failed: ] when the request failed, and
    with the error of [sign] as it is when the runtime lacks Web Crypto.
    A callback that raises when it is told of the success is called a
    second time, with its own error.  And with no client passed, the
    client is the one [createClient] made last. *)
Theorem sendSMS_callback_protocol (platform : WebCryptoGlobal)
  (textmessage phone senderid SMSType : string) (callback : SnsModule.Callback)
  (client : SNSClient) (defaultClient : option SNSClient) (w : World) :
  let params := publishParams textmessage phone senderid SMSType in
  let request := makeRequestOn platform SnsJs.parseXMLResponse client "Publish" params w in
  SnsModule.sendSMS platform textmessage phone senderid SMSType callback None None w
    = callback (SnsModule.notInitialized w) w /\
  (forall error,
     fst request = inl error ->
     ((exists detail, message error = "SNS Request failed: " ++ detail) \/
      platform = CryptoAbsent error) /\
     fst (SnsModule.sendSMS platform textmessage phone senderid SMSType callback
            (Some client) defaultClient w)
       = fst (callback (SnsModule.failed error) w) /\
     snd (SnsModule.sendSMS platform textmessage phone senderid SMSType callback
            (Some client) defaultClient w)
       = (snd request ++ snd (callback (SnsModule.failed error) w))%list) /\
  (forall response thrown,
     fst request = inr response ->
     fst (callback (SnsModule.delivered response) w) = inl thrown ->
     fst (SnsModule.sendSMS platform textmessage phone senderid SMSType callback
            (Some client) defaultClient w)
       = fst (callback (SnsModule.failed thrown) w) /\
     snd (SnsModule.sendSMS platform textmessage phone senderid SMSType callback
            (Some client) defaultClient w)
       = (snd request ++ snd (callback (SnsModule.delivered response) w)
            ++ snd (callback (SnsModule.failed thrown) w))%list) /\
  (forall accessKeyId secretAccessKey region,
     let created :=
       SnsModule.createClient accessKeyId secretAccessKey region defaultClient in
     SnsModule.sendSMS platform textmessage phone senderid SMSType callback
       None (snd created) w
       = SnsModule.sendSMS platform textmessage phone senderid SMSType callback
           (Some (fst created)) None w).
Proof.
  intros params request. split; [|split; [|split]]; [| | |reflexivity].
  - unfold SnsModule.sendSMS, bind, ask.
    destruct (callback (SnsModule.notInitialized w) w). reflexivity.
  - intros error Hfailed. split.
    + exact (makeRequestOn_error platform SnsJs.parseXMLResponse client "Publish" params w
               error Hfailed).
    + unfold SnsModule.sendSMS, tryCatch, bind. fold params. fold request.
      destruct request as [[e|response] t]; cbn [fst] in Hfailed; [|discriminate Hfailed].
      injection Hfailed as ->. cbn [snd].
      destruct (callback (SnsModule.failed error) w). split; reflexivity.
  - intros response thrown Hsent Hraised.
    unfold SnsModule.sendSMS, tryCatch, bind. fold params. fold request.
    destruct request as [[e|r] t]; cbn [fst] in Hsent; [discriminate Hsent|].
    injection Hsent as ->. cbn [snd].
    destruct (callback (SnsModule.delivered response) w) as [[e|u] t1];
      cbn [fst] in Hraised; [|discriminate Hraised].
    injection Hraised as ->. cbn [snd].
    destruct (callback (SnsModule.failed thrown) w) as [r2 t2]. cbn [fst snd].
    rewrite List.app_assoc. split; reflexivity.
Qed.

Lemma sendSMS_callback_protocol_witness :
  snd (SnsModule.sendSMS (CryptoPresent WebCrypto.subtle)
         "Hello" "+12065550100" "Verify" "Transactional"
         Requests.fragile (Some Worlds.client) None
         (Worlds.online Worlds.emptyEnv Worlds.landlineCarrier))
  = (snd (makeRequestOn (CryptoPresent WebCrypto.subtle) SnsJs.parseXMLResponse
            Worlds.client "Publish"
            (publishParams "Hello" "+12065550100" "Verify" "Transactional")
            (Worlds.online Worlds.emptyEnv Worlds.landlineCarrier))
       ++ []
       ++ [EvWarn "callback failed"])%list.
Proof.
  destruct (sendSMS_callback_protocol (CryptoPresent WebCrypto.subtle)
              "Hello" "+12065550100" "Verify" "Transactional"
              Requests.fragile Worlds.client None
              (Worlds.online Worlds.emptyEnv Worlds.landlineCarrier)) as [_ [_ [Htwice _]]].
  destruct (Htwice (ReplyMessageId "abc123")
              {| message := "callback failed"; stack := Some "Error: callback failed" |})
    as [_ Hlog].
  - vm_compute. reflexivity.
  - reflexivity.
  - exact Hlog.
Defined.

(** A callback that raises on the success is called twice: the message is
    sent, and the callback then hears of its own error. *)
Example sendSMS_fragile_callback :
  List.map (fun e => match e with EvWarn text => text | _ => EmptyString end)
    (List.filter isWarning
       (snd (SnsModule.sendSMS (CryptoPresent WebCrypto.subtle)
               "Hello" "+12065550100" "Verify" "Transactional"
               Requests.fragile (Some Worlds.client) None
               (Worlds.online Worlds.emptyEnv Worlds.landlineCarrier))))
  = ["callback failed"].
Proof. vm_compute. reflexivity. Qed.

(** Without Web Crypto the callback hears of the error of [sign], with no
    prefix, and nothing is sent. *)
Example sendSMS_without_web_crypto :
  SnsModule.sendSMS (CryptoAbsent (Worlds.plainError "crypto is not defined"))
    "Hello" "+12065550100" "Verify" "Transactional"
    Requests.fragile (Some Worlds.client) None
    (Worlds.online Worlds.emptyEnv Worlds.landlineCarrier)
  = (inr tt,
     [ EvSign "GET"
         (requestUrl Worlds.client "Publish"
            (publishParams "Hello" "+12065550100" "Verify" "Transactional"));
       EvWarn "crypto is not defined" ]).
Proof. vm_compute. reflexivity. Qed.
